(** * Internet Service Manager: validation rules and subscription lifecycle

    A shallow embedding of the Python sources under [lib/models] and
    [lib/helpers], followed by the properties of the specification
    checked against it.

    Conventions of the embedding.
    - A Python [str] is a [string] whose characters are code points below
      256; the character predicates below are the Unicode ones restricted
      to that range.
    - Python integers are [Z].
    - A function that can raise returns [result]: [Ok v] or [Raise e].
    - The lines typed at [input()] are a list the handlers read from, as
      the tests feed them with [patch("builtins.input", side_effect=...)];
      what a handler prints is summarised by its outcome value.
    - The clock ([date.today()], [datetime.now()], the store's [now()]) is
      an explicit argument.
    - The relational store is a record of finite maps from primary key to
      row; SQL conditions are evaluated in three-valued logic. *)

From Stdlib Require Import ZArith QArith Lia Bool Ascii String.
From stdpp Require Import base option list gmap strings sorting.

Set Default Proof Using "Type".

(** ** Exceptions and results *)

Inductive exn :=
  | ValueError
  | OverflowError
  | TypeError
  | AttributeError
  | InvalidEmailError
  | InvalidPhoneError
  | InvalidSpeedError
  | InvalidSubscriptionDateError
  | IntegrityError
  | EOFError.

Inductive result (A : Type) :=
  | Ok (v : A)
  | Raise (e : exn).
Arguments Ok {A} v.
Arguments Raise {A} e.

Definition rbind {A B} (r : result A) (k : A → result B) : result B :=
  match r with
  | Ok v => k v
  | Raise e => Raise e
  end.

Global Instance result_bind : MBind result := λ A B k r, rbind r k.
Global Instance result_ret : MRet result := @Ok.
Global Instance result_fmap : FMap result := λ A B f r, rbind r (λ v, Ok (f v)).

(** ** Python strings *)

Module PyStr.

Definition code (c : ascii) : N := N_of_ascii c.

Definition in_range (lo hi : N) (c : ascii) : bool :=
  ((lo <=? code c) && (code c <=? hi))%N.

(** Unicode category Nd below 256: the ASCII digits. This is what [\d]
    matches and what [int()] reads. *)
Definition isdecimal_char (c : ascii) : bool := in_range 48 57 c.

(** [str.isdigit] also holds of the superscript digits U+00B2, U+00B3 and
    U+00B9, which are not decimal. *)
Definition isdigit_char (c : ascii) : bool :=
  isdecimal_char c
  || (code c =? 178)%N || (code c =? 179)%N || (code c =? 185)%N.

(** Unicode white space below 256: what [str.strip] removes and what [\s]
    matches. *)
Definition isspace_char (c : ascii) : bool :=
  in_range 9 13 c || in_range 28 32 c || (code c =? 133)%N || (code c =? 160)%N.

Definition lower_char (c : ascii) : ascii :=
  if in_range 65 90 c
     || (in_range 192 222 c && negb (code c =? 215)%N)
  then ascii_of_N (code c + 32)
  else c.

Fixpoint forallb_str (p : ascii → bool) (s : string) : bool :=
  match s with
  | EmptyString => true
  | String c s' => p c && forallb_str p s'
  end.

Fixpoint existsb_str (p : ascii → bool) (s : string) : bool :=
  match s with
  | EmptyString => false
  | String c s' => p c || existsb_str p s'
  end.

Fixpoint filter_str (p : ascii → bool) (s : string) : string :=
  match s with
  | EmptyString => EmptyString
  | String c s' => if p c then String c (filter_str p s') else filter_str p s'
  end.

Fixpoint map_str (f : ascii → ascii) (s : string) : string :=
  match s with
  | EmptyString => EmptyString
  | String c s' => String (f c) (map_str f s')
  end.

(** Truth value of a string: [if s] / [not s]. *)
Definition truthy (s : string) : bool :=
  match s with
  | EmptyString => false
  | String _ _ => true
  end.

Definition len (s : string) : Z := Z.of_nat (String.length s).

(** [s.isdigit()]: non-empty and every character a digit. *)
Definition isdigit (s : string) : bool := truthy s && forallb_str isdigit_char s.

(** [c in s] for a one-character [c]. *)
Definition contains_char (c : ascii) (s : string) : bool :=
  existsb_str (Ascii.eqb c) s.

Definition lower (s : string) : string := map_str lower_char s.

Fixpoint lstrip (s : string) : string :=
  match s with
  | EmptyString => EmptyString
  | String c s' => if isspace_char c then lstrip s' else s
  end.

Fixpoint rstrip (s : string) : string :=
  match s with
  | EmptyString => EmptyString
  | String c s' =>
      match rstrip s' with
      | EmptyString => if isspace_char c then EmptyString else String c EmptyString
      | r => String c r
      end
  end.

Definition strip (s : string) : string := rstrip (lstrip s).

(** [s.startswith(c)] for a one-character [c]. *)
Definition startswith_char (c : ascii) (s : string) : bool :=
  match s with
  | String c' _ => Ascii.eqb c c'
  | EmptyString => false
  end.

(** [s[1:]] *)
Definition tail (s : string) : string :=
  match s with
  | String _ s' => s'
  | EmptyString => EmptyString
  end.

Definition digit_value (c : ascii) : Z := Z.of_N (code c) - 48.

Fixpoint int_acc (acc : Z) (s : string) : option Z :=
  match s with
  | EmptyString => Some acc
  | String c s' =>
      if isdecimal_char c then int_acc (10 * acc + digit_value c) s' else None
  end.

(** [sys.int_info.default_max_str_digits]: the largest number of digits
    [int] converts from a decimal string (CPython 3.11 and later, and the
    security releases of the earlier versions). *)
Definition MAX_STR_DIGITS : Z := 4300.

(** [int(s)] at its call sites, where [s.isdigit()] has been checked: the
    value in base ten, or [ValueError] when a character is a digit that is
    not decimal or when there are more than [MAX_STR_DIGITS] digits,
    leading zeros counted. *)
Definition int (s : string) : result Z :=
  match s with
  | EmptyString => Raise ValueError
  | _ =>
      if (MAX_STR_DIGITS <? len s)%Z then Raise ValueError
      else match int_acc 0 s with
           | Some z => Ok z
           | None => Raise ValueError
           end
  end.

Definition digit_char (d : Z) : ascii := ascii_of_N (Z.to_N (48 + d)).

Fixpoint str_pos (fuel : nat) (z : Z) (acc : string) : string :=
  match fuel with
  | O => acc
  | S fuel' =>
      let acc' := String (digit_char (z mod 10)) acc in
      if z <? 10 then acc' else str_pos fuel' (z / 10) acc'
  end%Z.

(** [str(z)] for an integer: decimal digits without leading zeros, with a
    minus sign for negatives. The fuel bounds the number of digits. The
    integers the program converts are stored [INTEGER] values, of at most
    19 digits, far below [MAX_STR_DIGITS]. *)
Definition str (z : Z) : string :=
  if (z <? 0)%Z
  then String "-"%char (str_pos (S (Z.to_nat (Z.log2 (- z)))) (- z) EmptyString)
  else str_pos (S (Z.to_nat (Z.log2 z))) z EmptyString.

End PyStr.

(** ** Regular expressions

    The patterns of the models are matched with [re.match(r'^...$', s)].
    Whether such a match exists is membership of [s] in the language of
    the pattern, decided here with derivatives. [$] also matches just
    before a final newline. *)

Module Regex.

Inductive re :=
  | Void
  | Eps
  | Cls (p : ascii → bool)
  | Cat (r1 r2 : re)
  | Alt (r1 r2 : re)
  | Star (r : re).

Fixpoint nullable (r : re) : bool :=
  match r with
  | Void => false
  | Eps => true
  | Cls _ => false
  | Cat r1 r2 => nullable r1 && nullable r2
  | Alt r1 r2 => nullable r1 || nullable r2
  | Star _ => true
  end.

Fixpoint deriv (c : ascii) (r : re) : re :=
  match r with
  | Void => Void
  | Eps => Void
  | Cls p => if p c then Eps else Void
  | Cat r1 r2 =>
      if nullable r1
      then Alt (Cat (deriv c r1) r2) (deriv c r2)
      else Cat (deriv c r1) r2
  | Alt r1 r2 => Alt (deriv c r1) (deriv c r2)
  | Star r1 => Cat (deriv c r1) (Star r1)
  end.

Fixpoint matches (r : re) (s : string) : bool :=
  match s with
  | EmptyString => nullable r
  | String c s' => matches (deriv c r) s'
  end.

(** The language of a pattern, as a relation. *)
Inductive lang : re → string → Prop :=
  | lang_eps : lang Eps EmptyString
  | lang_cls p c : p c = true → lang (Cls p) (String c EmptyString)
  | lang_cat r1 r2 s1 s2 : lang r1 s1 → lang r2 s2 → lang (Cat r1 r2) (s1 +:+ s2)
  | lang_alt_l r1 r2 s : lang r1 s → lang (Alt r1 r2) s
  | lang_alt_r r1 r2 s : lang r2 s → lang (Alt r1 r2) s
  | lang_star_nil r : lang (Star r) EmptyString
  | lang_star_cons r s1 s2 :
      lang r s1 → lang (Star r) s2 → lang (Star r) (s1 +:+ s2).

(** Pattern syntax used by the sources. *)
Definition Chr (c : ascii) : re := Cls (Ascii.eqb c).
(** a literal character under [re.IGNORECASE] *)
Definition ChrI (c : ascii) : re :=
  Cls (λ x, Ascii.eqb (PyStr.lower_char x) (PyStr.lower_char c)).
Definition NotChr (c : ascii) : re := Cls (λ x, negb (Ascii.eqb c x)).
Definition Plus (r : re) : re := Cat r (Star r).
Definition Opt (r : re) : re := Alt r Eps.

Fixpoint Rep (n : nat) (r : re) : re :=
  match n with
  | O => Eps
  | S n' => Cat r (Rep n' r)
  end.

Fixpoint Lit (s : string) : re :=
  match s with
  | EmptyString => Eps
  | String c s' => Cat (Chr c) (Lit s')
  end.

Fixpoint LitI (s : string) : re :=
  match s with
  | EmptyString => Eps
  | String c s' => Cat (ChrI c) (LitI s')
  end.

(** [\d] and [\s] on [str] patterns. *)
Definition Digit : re := Cls PyStr.isdecimal_char.
Definition Space : re := Cls PyStr.isspace_char.

Definition newline : ascii := ascii_of_N 10.

(** [re.match(r'^R$', s)] is not [None]. *)
Definition re_match (r : re) (s : string) : bool :=
  matches (Cat r (Opt (Chr newline))) s.

End Regex.

(** ** Dates

    [datetime.date] and its arithmetic, following CPython's
    [_datetimemodule.c], [calendar.monthrange] and
    [dateutil.relativedelta]. *)

Module PyDate.
Local Open Scope Z_scope.

Definition MINYEAR : Z := 1.
Definition MAXYEAR : Z := 9999.
(** [date(9999, 12, 31).toordinal()] *)
Definition MAXORDINAL : Z := 3652059.

Record date := mkdate { year : Z; month : Z; day : Z }.

Definition is_leap (y : Z) : bool :=
  (y mod 4 =? 0) && (negb (y mod 100 =? 0) || (y mod 400 =? 0)).

(** [calendar.mdays], [_days_in_month] *)
Definition mdays (m : Z) : Z :=
  match m with
  | 1 => 31 | 2 => 28 | 3 => 31 | 4 => 30 | 5 => 31 | 6 => 30
  | 7 => 31 | 8 => 31 | 9 => 30 | 10 => 31 | 11 => 30 | 12 => 31
  | _ => 0
  end.

Definition days_in_month (y m : Z) : Z :=
  if (m =? 2) && is_leap y then 29 else mdays m.

Definition days_before_month_tbl (m : Z) : Z :=
  match m with
  | 1 => 0 | 2 => 31 | 3 => 59 | 4 => 90 | 5 => 120 | 6 => 151
  | 7 => 181 | 8 => 212 | 9 => 243 | 10 => 273 | 11 => 304 | 12 => 334
  | _ => 0
  end.

Definition days_before_month (y m : Z) : Z :=
  days_before_month_tbl m + (if (m >? 2) && is_leap y then 1 else 0).

Definition days_before_year (y : Z) : Z :=
  let y := y - 1 in
  y * 365 + y / 4 - y / 100 + y / 400.

Definition DI4Y : Z := 1461.
Definition DI100Y : Z := 36524.
Definition DI400Y : Z := 146097.

Definition ymd_to_ord (y m d : Z) : Z :=
  days_before_year y + days_before_month y m + d.

Definition ord_to_ymd (ordinal : Z) : date :=
  let ordinal := ordinal - 1 in
  let n400 := ordinal / DI400Y in
  let n := ordinal mod DI400Y in
  let year := n400 * 400 + 1 in
  let n100 := n / DI100Y in
  let n := n mod DI100Y in
  let n4 := n / DI4Y in
  let n := n mod DI4Y in
  let n1 := n / 365 in
  let n := n mod 365 in
  let year := year + (n100 * 100 + n4 * 4 + n1) in
  if (n1 =? 4) || (n100 =? 4) then mkdate (year - 1) 12 31
  else
    let leapyear := (n1 =? 3) && (negb (n4 =? 24) || (n100 =? 3)) in
    let month := Z.shiftr (n + 50) 5 in
    let preceding :=
      days_before_month_tbl month + (if (month >? 2) && leapyear then 1 else 0) in
    let '(month, preceding) :=
      if preceding >? n
      then (month - 1, preceding - days_in_month year (month - 1))
      else (month, preceding) in
    mkdate year month (n - preceding + 1).

(** The largest C [int], the type [date.replace] converts its arguments
    to. *)
Definition INT_MAX : Z := 2147483647.

Definition fits_int (z : Z) : bool := (- INT_MAX - 1 <=? z) && (z <=? INT_MAX).

(** [other.replace(year=y, month=m, day=d)]: the arguments are converted
    to C integers, then the checks of the [date] constructor run. *)
Definition date_new (y m d : Z) : result date :=
  if negb (fits_int y && fits_int m && fits_int d) then Raise OverflowError
  else if negb ((MINYEAR <=? y) && (y <=? MAXYEAR)) then Raise ValueError
  else if negb ((1 <=? m) && (m <=? 12)) then Raise ValueError
  else if negb ((1 <=? d) && (d <=? days_in_month y m)) then Raise ValueError
  else Ok (mkdate y m d).

(** [normalize_y_m_d]: the month is in range, the day may not be. *)
Definition normalize_y_m_d (y m d : Z) : result date :=
  let dim := days_in_month y m in
  let in_years (r : date) : result date :=
    if (MINYEAR <=? year r) && (year r <=? MAXYEAR) then Ok r
    else Raise OverflowError in
  if (d <? 1) || (d >? dim) then
    if d =? 0 then
      if m - 1 >? 0
      then in_years (mkdate y (m - 1) (days_in_month y (m - 1)))
      else in_years (mkdate (y - 1) 12 31)
    else if d =? dim + 1 then
      if m + 1 >? 12
      then in_years (mkdate (y + 1) 1 1)
      else in_years (mkdate y (m + 1) 1)
    else
      let ordinal := ymd_to_ord y m 1 + d - 1 in
      if (ordinal <? 1) || (ordinal >? MAXORDINAL) then Raise OverflowError
      else Ok (ord_to_ymd ordinal)
  else in_years (mkdate y m d).

(** [d + timedelta(days=n)] *)
Definition add_days (d : date) (n : Z) : result date :=
  normalize_y_m_d (year d) (month d) (day d + n).

(** [calendar.monthrange(year, month)[1]] *)
Definition monthrange_ndays (y m : Z) : result Z :=
  if negb ((1 <=? m) && (m <=? 12)) then Raise ValueError
  else Ok (mdays m + (if (m =? 2) && is_leap y then 1 else 0)).

(** [relativedelta(years=.., months=.., days=..)]: the fields this program
    sets; all the others keep their defaults. *)
Record relativedelta := mkrd { years : Z; months : Z; days : Z }.

(** [int(copysign(1, x))] *)
Definition sign (x : Z) : Z := if x <? 0 then -1 else 1.

(** [relativedelta._fix]: months beyond 11 carry into years. *)
Definition fix_months (r : relativedelta) : relativedelta :=
  if Z.abs (months r) >? 11 then
    let s := sign (months r) in
    let q := (months r * s) / 12 in
    let m := (months r * s) mod 12 in
    mkrd (years r + q * s) (m * s) (days r)
  else r.

Definition relativedelta_months (n : Z) : relativedelta := fix_months (mkrd 0 n 0).
Definition relativedelta_days (n : Z) : relativedelta := fix_months (mkrd 0 0 n).

(** The month arithmetic of [relativedelta.__add__]: [months] is between
    -11 and 11 after [_fix], so one carry is enough. *)
Definition carry_months (y m months : Z) : Z * Z :=
  if months =? 0 then (y, m)
  else
    let m := m + months in
    if m >? 12 then (y + 1, m - 12)
    else if m <? 1 then (y - 1, m + 12)
    else (y, m).

(** [other + r], that is [relativedelta.__radd__]. *)
Definition add_relativedelta (other : date) (r : relativedelta) : result date :=
  let '(y, m) := carry_months (year other + years r) (month other) (months r) in
  ndays ← monthrange_ndays y m;
  let d := Z.min ndays (day other) in
  repl ← date_new y m d;
  add_days repl (days r).

(** Comparison of dates. *)
Definition date_ltb (a b : date) : bool :=
  (year a <? year b)
  || ((year a =? year b)
      && ((month a <? month b) || ((month a =? month b) && (day a <? day b)))).

Definition date_eqb (a b : date) : bool :=
  (year a =? year b) && (month a =? month b) && (day a =? day b).

Definition date_leb (a b : date) : bool := date_ltb a b || date_eqb a b.

(** A [datetime]: a date and the microseconds elapsed since midnight. *)
Record datetime := mkdatetime { dt_date : date; dt_micros : Z }.

Definition midnight (d : date) : datetime := mkdatetime d 0.

Definition datetime_ltb (a b : datetime) : bool :=
  date_ltb (dt_date a) (dt_date b)
  || (date_eqb (dt_date a) (dt_date b) && (dt_micros a <? dt_micros b)).

(** A value a [date] object can hold. *)
Definition valid_date (d : date) : Prop :=
  MINYEAR <= year d <= MAXYEAR ∧ 1 <= month d <= 12
  ∧ 1 <= day d <= days_in_month (year d) (month d).

(** Calendar-month arithmetic in the words of the specification: the
    month that lies [n] months after the month of [d], and in it the day
    of [d], or the last day of that month when it is shorter. *)
Definition month_index (d : date) : Z := year d * 12 + (month d - 1).

Definition months_after (d : date) (n : Z) : date :=
  let i := month_index d + n in
  let y := i / 12 in
  let m := i mod 12 + 1 in
  mkdate y m (Z.min (day d) (days_in_month y m)).

(** [d.toordinal()] *)
Definition toordinal (d : date) : Z := ymd_to_ord (year d) (month d) (day d).

(** [(a - b).days]: the difference of the ordinals. *)
Definition sub_days (a b : date) : Z := toordinal a - toordinal b.

End PyDate.

(** ** Floating-point literals

    [float(s)] on a string: the grammar of the language reference
    (optional sign, [inf], [infinity], [nan], or digits with an optional
    fraction and exponent, underscores allowed between digits, white space
    around), and the value rounded to the nearest binary64 number, ties to
    even. A finite float is represented by the rational it denotes. *)

Module PyFloat.
Local Open Scope Z_scope.

Inductive t :=
  | Finite (q : Q)
  | Inf (negative : bool)
  | NaN.

(** The binary64 number nearest to [n / d], for [0 <= n] and [0 < d]. *)
Definition round_binary64 (n d : Z) : t :=
  if n =? 0 then Finite 0%Q
  else
    let g := Z.log2 n - Z.log2 d in
    let below := if g >=? 0 then n <? d * 2 ^ g else n * 2 ^ (- g) <? d in
    let e := if below then g - 1 else g in
    let u := Z.max (e - 52) (-1074) in
    let num := if u >=? 0 then n else n * 2 ^ (- u) in
    let den := if u >=? 0 then d * 2 ^ u else d in
    let q := num / den in
    let r := num mod den in
    let m := if (2 * r >? den) || ((2 * r =? den) && Z.odd q) then q + 1 else q in
    if u >=? 0 then
      if m * 2 ^ u >=? 2 ^ 1024 then Inf false
      else Finite (inject_Z (m * 2 ^ u))
    else Finite (Qred (Qmake m (Z.to_pos (2 ^ (- u))))).

Definition neg (x : t) : t :=
  match x with
  | Finite q => Finite (Qopp q)
  | Inf b => Inf (negb b)
  | NaN => NaN
  end.

(** [digitpart ::= digit (["_"] digit)*]: the digits read, most
    significant first, and the rest of the input. *)
Fixpoint digits_more (s : string) : list Z * string :=
  match s with
  | String c s1 =>
      if PyStr.isdecimal_char c then
        let '(ds, rest) := digits_more s1 in (PyStr.digit_value c :: ds, rest)
      else if Ascii.eqb c "_" then
        match s1 with
        | String c2 s2 =>
            if PyStr.isdecimal_char c2 then
              let '(ds, rest) := digits_more s2 in
              (PyStr.digit_value c2 :: ds, rest)
            else ([], s)
        | EmptyString => ([], s)
        end
      else ([], s)
  | EmptyString => ([], s)
  end.

Definition digitpart (s : string) : option (list Z * string) :=
  match s with
  | String c s1 =>
      if PyStr.isdecimal_char c then
        let '(ds, rest) := digits_more s1 in Some (PyStr.digit_value c :: ds, rest)
      else None
  | EmptyString => None
  end.

Definition digits_value (ds : list Z) : Z :=
  fold_left (λ acc d, 10 * acc + d) ds 0.

(** [exponent ::= ("e" | "E") [sign] digitpart], optional. *)
Definition exponent (s : string) : option (Z * string) :=
  match s with
  | String c s1 =>
      if Ascii.eqb c "e" || Ascii.eqb c "E" then
        let negative := PyStr.startswith_char "-" s1 in
        let s2 :=
          if PyStr.startswith_char "+" s1 || negative then PyStr.tail s1 else s1 in
        match digitpart s2 with
        | Some (ds, rest) =>
            Some (if negative then - digits_value ds else digits_value ds, rest)
        | None => None
        end
      else Some (0, s)
  | EmptyString => Some (0, s)
  end.

(** [number ::= [digitpart] "." digitpart | digitpart ["."]]: the integer
    digits, the fraction digits and the rest. *)
Definition number (s : string) : option (list Z * list Z * string) :=
  match digitpart s with
  | Some (ip, rest) =>
      if PyStr.startswith_char "." rest then
        match digitpart (PyStr.tail rest) with
        | Some (fp, rest1) => Some (ip, fp, rest1)
        | None => Some (ip, [], PyStr.tail rest)
        end
      else Some (ip, [], rest)
  | None =>
      if PyStr.startswith_char "." s then
        match digitpart (PyStr.tail s) with
        | Some (fp, rest1) => Some ([], fp, rest1)
        | None => None
        end
      else None
  end.

Definition absfloatvalue (s : string) : result t :=
  let l := PyStr.lower s in
  if String.eqb l "inf" || String.eqb l "infinity" then Ok (Inf false)
  else if String.eqb l "nan" then Ok NaN
  else
    match number s with
    | Some (ip, fp, rest) =>
        match exponent rest with
        | Some (e, EmptyString) =>
            let mant := digits_value (ip ++ fp) in
            let e10 := e - Z.of_nat (length fp) in
            Ok (if e10 >=? 0 then round_binary64 (mant * 10 ^ e10) 1
                else round_binary64 mant (10 ^ (- e10)))
        | _ => Raise ValueError
        end
    | None => Raise ValueError
    end.

(** The white space [float] removes around the literal: the white space
    of C ([Py_ISSPACE]: U+0009 to U+000D and the space), and the Unicode
    white space above U+007F, which it first replaces by a space. The
    separators U+001C to U+001F, which [str.strip] removes, stay and make
    the literal invalid. *)
Definition isspace_char (c : ascii) : bool :=
  PyStr.in_range 9 13 c || (PyStr.code c =? 32)%N
  || (PyStr.code c =? 133)%N || (PyStr.code c =? 160)%N.

Fixpoint lstrip (s : string) : string :=
  match s with
  | EmptyString => EmptyString
  | String c s' => if isspace_char c then lstrip s' else s
  end.

Fixpoint rstrip (s : string) : string :=
  match s with
  | EmptyString => EmptyString
  | String c s' =>
      match rstrip s' with
      | EmptyString => if isspace_char c then EmptyString else String c EmptyString
      | r => String c r
      end
  end.

Definition strip (s : string) : string := rstrip (lstrip s).

Definition float (s : string) : result t :=
  let s1 := strip s in
  if PyStr.startswith_char "+" s1 then absfloatvalue (PyStr.tail s1)
  else if PyStr.startswith_char "-" s1 then neg <$> absfloatvalue (PyStr.tail s1)
  else absfloatvalue s1.

(** [a <= x] for an integer [a] and a float [x]. *)
Definition int_le (a : Z) (x : t) : bool :=
  match x with
  | Finite q => Qle_bool (inject_Z a) q
  | Inf negative => negb negative
  | NaN => false
  end.

(** [x <= b] for a float [x] and an integer [b]. *)
Definition le_int (x : t) (b : Z) : bool :=
  match x with
  | Finite q => Qle_bool q (inject_Z b)
  | Inf negative => negative
  | NaN => false
  end.

End PyFloat.

(** ** Models ([lib/models]) *)

(** What a [relationship()] attribute evaluates to. With the default
    loader it is a list-like collection, whose truth value is that of the
    list. With [lazy="dynamic"] it is a query object ([AppenderQuery]),
    which can be iterated but defines neither [__bool__] nor [__len__]:
    its truth value is [True] whatever rows it would return, and [len] of
    it raises [TypeError]. *)
Module ORM.

Inductive lazy := lazy_select | lazy_dynamic.

Inductive relationship (A : Type) :=
  | InstrumentedList (rows : list A)
  | AppenderQuery (rows : list A).
Arguments InstrumentedList {A} rows.
Arguments AppenderQuery {A} rows.

Definition load {A} (l : lazy) (rows : list A) : relationship A :=
  match l with
  | lazy_select => InstrumentedList rows
  | lazy_dynamic => AppenderQuery rows
  end.

(** [bool(r)], as in [if plan.subscriptions:] *)
Definition truthy {A} (r : relationship A) : bool :=
  match r with
  | InstrumentedList rows => negb (bool_decide (rows = []))
  | AppenderQuery _ => true
  end.

(** [len(r)] *)
Definition len {A} (r : relationship A) : result Z :=
  match r with
  | InstrumentedList rows => Ok (Z.of_nat (length rows))
  | AppenderQuery _ => Raise TypeError
  end.

(** [for x in r] *)
Definition iter {A} (r : relationship A) : list A :=
  match r with
  | InstrumentedList rows => rows
  | AppenderQuery rows => rows
  end.

End ORM.

Module Customer.
Import PyDate Regex.

Record t := mk {
  router_id : Z;
  name : string;
  email : string;
  phone : option string;
  address : option string;
  created_at : datetime;
  updated_at : option datetime
}.

(** [subscriptions = relationship(..., lazy="dynamic")] *)
Definition subscriptions_lazy : ORM.lazy := ORM.lazy_dynamic.

(** [^[^@]+@[^@]+\.[^@]+$] *)
Definition email_re : re :=
  Cat (Plus (NotChr "@"))
    (Cat (Chr "@") (Cat (Plus (NotChr "@")) (Cat (Chr ".") (Plus (NotChr "@"))))).

Definition validate_email (email : string) : result string :=
  if negb (re_match email_re email) then Raise InvalidEmailError
  else Ok (PyStr.strip (PyStr.lower email)).

(** [[0-247-9]] *)
Definition network_digit (c : ascii) : bool :=
  PyStr.in_range 48 50 c || Ascii.eqb c "4" || PyStr.in_range 55 57 c.

(** [^\+2547[0-247-9]\d{7}$] *)
Definition phone_re : re :=
  Cat (Lit "+2547") (Cat (Cls network_digit) (Rep 7 Digit)).

(** [re.sub(r'[^\d+]', '', phone)] *)
Definition clean_phone (phone : string) : string :=
  PyStr.filter_str (λ c, PyStr.isdecimal_char c || Ascii.eqb c "+") phone.

Definition validate_phone (phone : option string) : result (option string) :=
  match phone with
  | None => Ok None
  | Some p =>
      if negb (PyStr.truthy p) then Ok None
      else
        let cleaned := clean_phone p in
        let cleaned :=
          if PyStr.startswith_char "0" cleaned && (PyStr.len cleaned =? 10)%Z
          then "+254" +:+ PyStr.tail cleaned
          else cleaned in
        if negb (re_match phone_re cleaned) then Raise InvalidPhoneError
        else Ok (Some cleaned)
  end.

(** [Customer(name=.., email=.., phone=.., address=.., router_id=..,
    created_at=..)]: the attributes are set in this order and the
    validators run as they are set. *)
Definition new (name email : string) (phone : option string) (address : string)
    (router_id : Z) (created_at : datetime) : result t :=
  email' ← validate_email email;
  phone' ← validate_phone phone;
  Ok (mk router_id name email' phone' (Some address) created_at None).

End Customer.

Module Plan.
Import PyDate Regex.

Record t := mk {
  name : string;
  description : option string;
  price : Q;
  speed : string;
  duration_months : option Z;
  created_at : datetime;
  updated_at : option datetime
}.

(** [subscriptions = relationship("Subscription", back_populates="plan",
    lazy="dynamic")] *)
Definition subscriptions_lazy : ORM.lazy := ORM.lazy_dynamic.

(** [^\d+\s?(Mbps|Gbps)$] with [re.IGNORECASE] *)
Definition speed_re : re :=
  Cat (Plus Digit) (Cat (Opt Space) (Alt (LitI "Mbps") (LitI "Gbps"))).

Definition validate_speed (speed : string) : result string :=
  if negb (re_match speed_re speed) then Raise InvalidSpeedError
  else Ok (PyStr.strip speed).

End Plan.

Module Subscription.
Import PyDate.

Record t := mk {
  customer_id : option Z;
  plan_id : option Z;
  router_id : Z;
  start_date : date;
  end_date : option date;
  status : option string;
  created_at : datetime;
  updated_at : option datetime;
  last_reminder_sent : option datetime
}.

Definition set_status (v : option string) (s : t) : t :=
  mk (customer_id s) (plan_id s) (router_id s) (start_date s) (end_date s) v
    (created_at s) (updated_at s) (last_reminder_sent s).

Definition set_end_date (v : option date) (s : t) : t :=
  mk (customer_id s) (plan_id s) (router_id s) (start_date s) v (status s)
    (created_at s) (updated_at s) (last_reminder_sent s).

Definition set_updated_at (v : option datetime) (s : t) : t :=
  mk (customer_id s) (plan_id s) (router_id s) (start_date s) (end_date s)
    (status s) (created_at s) v (last_reminder_sent s).

Definition set_last_reminder_sent (v : option datetime) (s : t) : t :=
  mk (customer_id s) (plan_id s) (router_id s) (start_date s) (end_date s)
    (status s) (created_at s) (updated_at s) v.

(** [self.status == 'active'], where the status may be [None] *)
Definition status_is (v : string) (s : t) : bool :=
  match status s with
  | Some st => String.eqb st v
  | None => false
  end.

Definition validate_start_date (today start_date : date) : result date :=
  if date_ltb start_date today then Raise InvalidSubscriptionDateError
  else Ok start_date.

Definition is_active (today : date) (self : t) : bool :=
  status_is "active" self
  && match end_date self with
     | None => true
     | Some e => date_leb today e
     end.

(** [Subscription(customer_id=.., plan_id=.., router_id=.., status=..,
    start_date=.., end_date=.., created_at=..)] *)
Definition new (today : date) (customer_id plan_id router_id : Z) (status : string)
    (start_date end_date : date) (created_at : datetime) : result t :=
  start ← validate_start_date today start_date;
  Ok (mk (Some customer_id) (Some plan_id) router_id start (Some end_date)
        (Some status) created_at None None).

Definition days_remaining (today : date) (self : t) : option Z :=
  match end_date self with
  | None => None
  | Some e => Some (sub_days e today)
  end.

End Subscription.

(** ** The store

    One finite map per table, keyed by the primary key; the
    [sqlite_sequence] counters of the [AUTOINCREMENT] keys; the
    constraints of [__table_args__] checked when a row is written. *)

Module SQL.
Import PyDate.

(** A truth value of SQL: [None] is unknown (a comparison with NULL). *)
Definition tv : Type := option bool.

Definition and3 (a b : tv) : tv :=
  match a, b with
  | Some false, _ | _, Some false => Some false
  | Some true, Some true => Some true
  | _, _ => None
  end.

Definition or3 (a b : tv) : tv :=
  match a, b with
  | Some true, _ | _, Some true => Some true
  | Some false, Some false => Some false
  | _, _ => None
  end.

Definition cmp {A B} (f : A → B → bool) (a : option A) (b : B) : tv :=
  match a with
  | Some x => Some (f x b)
  | None => None
  end.

(** [col == None] renders as [col IS NULL]. *)
Definition is_null {A} (a : option A) : tv :=
  match a with
  | Some _ => Some false
  | None => Some true
  end.

Definition eq_str (a : option string) (b : string) : tv := cmp String.eqb a b.
Definition lt_date (a : option date) (b : date) : tv := cmp date_ltb a b.
Definition ge_date (a : option date) (b : date) : tv := cmp (λ x y, date_leb y x) a b.
Definition le_date (a : option date) (b : date) : tv := cmp date_leb a b.
Definition between_date (a : option date) (lo hi : date) : tv :=
  and3 (ge_date a lo) (le_date a hi).
Definition lt_datetime (a : option datetime) (b : datetime) : tv := cmp datetime_ltb a b.

(** A [WHERE] clause keeps the rows on which it is true. *)
Definition is_true (v : tv) : bool :=
  match v with
  | Some true => true
  | _ => false
  end.

(** SQLite integers are signed and 64 bits wide; binding a larger Python
    integer raises [OverflowError]. *)
Definition fits_integer (z : Z) : bool := (- 2 ^ 63 <=? z)%Z && (z <? 2 ^ 63)%Z.

End SQL.

Module Store.
Import PyDate.

Record db := mk {
  customers : gmap Z Customer.t;
  plans : gmap Z Plan.t;
  subscriptions : gmap Z Subscription.t;
  seq_customers : Z;
  seq_subscriptions : Z
}.

Definition set_customers (v : gmap Z Customer.t) (seq : Z) (d : db) : db :=
  mk v (plans d) (subscriptions d) seq (seq_subscriptions d).

Definition set_subscriptions (v : gmap Z Subscription.t) (seq : Z) (d : db) : db :=
  mk (customers d) (plans d) v (seq_customers d) seq.

(** The three clocks the program reads: [date.today()],
    [datetime.now()] and the store's [now()]. *)
Record clock := mkclock { today : date; now : datetime; func_now : datetime }.

(** [db.query(T).all()]: the rows with their keys. *)
Definition rows {A} (m : gmap Z A) : list (Z * A) := map_to_list m.

(** [db.get(T, k)] *)
Definition get {A} (m : gmap Z A) (k : Z) : result (option A) :=
  if SQL.fits_integer k then Ok (m !! k) else Raise OverflowError.

(** [db.get(T, int(s))], keeping the key with the row. *)
Definition get_int {A} (m : gmap Z A) (s : string) : result (option (Z * A)) :=
  match PyStr.int s with
  | Ok k =>
      match get m k with
      | Ok (Some x) => Ok (Some (k, x))
      | Ok None => Ok None
      | Raise e => Raise e
      end
  | Raise e => Raise e
  end.

(** [db.get(T, int(s)) if s.isdigit() else None] *)
Definition get_if_digit {A} (m : gmap Z A) (s : string) : result (option (Z * A)) :=
  if PyStr.isdigit s then get_int m s else Ok None.

(** The key of a new row of an [AUTOINCREMENT] table: one more than the
    largest key the table has ever held. *)
Definition max_key {A} (m : gmap Z A) : Z :=
  foldr (λ r acc, Z.max r.1 acc) 0%Z (rows m).

Definition next_key {A} (seq : Z) (m : gmap Z A) : Z := (Z.max seq (max_key m) + 1)%Z.

(** Unique indexes [ix_customers_email] and [ix_customers_router_id]. *)
Definition customer_conflict (d : db) (c : Customer.t) : bool :=
  existsb
    (λ r, String.eqb (Customer.email r.2) (Customer.email c)
          || (Customer.router_id r.2 =? Customer.router_id c)%Z)
    (rows (customers d)).

(** [db.add(customer); db.commit()] *)
Definition insert_customer (d : db) (c : Customer.t) : result (Z * db) :=
  if negb (SQL.fits_integer (Customer.router_id c)) then Raise OverflowError
  else if customer_conflict d c then Raise IntegrityError
  else
    let k := next_key (seq_customers d) (customers d) in
    Ok (k, set_customers (<[k := c]> (customers d)) k d).

(** [valid_end_date], [valid_status] and [valid_router_id]. A [CHECK]
    fails only when its condition is false, not when it is unknown. *)
Definition subscription_checks (s : Subscription.t) : bool :=
  match Subscription.end_date s with
  | None => true
  | Some e => date_leb (Subscription.start_date s) e
  end
  && match Subscription.status s with
     | None => true
     | Some st =>
         String.eqb st "active" || String.eqb st "suspended"
         || String.eqb st "terminated" || String.eqb st "expired"
     end
  && ((1000000000 <=? Subscription.router_id s)%Z
      && (Subscription.router_id s <=? 9999999999)%Z).

(** The foreign keys of a subscription, with [PRAGMA foreign_keys=ON]. *)
Definition subscription_references (d : db) (s : Subscription.t) : bool :=
  match Subscription.customer_id s with
  | None => true
  | Some c => bool_decide (is_Some (customers d !! c))
  end
  && match Subscription.plan_id s with
     | None => true
     | Some p => bool_decide (is_Some (plans d !! p))
     end.

(** Unique index [ix_subscriptions_router_id]. *)
Definition subscription_conflict (d : db) (s : Subscription.t) : bool :=
  existsb (λ r, (Subscription.router_id r.2 =? Subscription.router_id s)%Z)
    (rows (subscriptions d)).

(** [db.add(subscription); db.commit()] *)
Definition insert_subscription (d : db) (s : Subscription.t) : result (Z * db) :=
  if negb (SQL.fits_integer (Subscription.router_id s)) then Raise OverflowError
  else if negb (subscription_checks s) || negb (subscription_references d s)
          || subscription_conflict d s
  then Raise IntegrityError
  else
    let k := next_key (seq_subscriptions d) (subscriptions d) in
    Ok (k, set_subscriptions (<[k := s]> (subscriptions d)) k d).

(** [db.commit()] after attributes of the subscription with key [k] were
    assigned, none of them a key or the router identifier. *)
Definition update_subscription_row (d : db) (k : Z) (s : Subscription.t) : result db :=
  if negb (subscription_checks s) then Raise IntegrityError
  else Ok (set_subscriptions (<[k := s]> (subscriptions d)) (seq_subscriptions d) d).

(** The rows of [subscriptions] that reference the plan with key [k]. *)
Definition subscriptions_of_plan (d : db) (k : Z) : list (Z * Subscription.t) :=
  filter (λ r, Subscription.plan_id r.2 = Some k) (rows (subscriptions d)).

(** [plan.subscriptions] *)
Definition plan_subscriptions (l : ORM.lazy) (d : db) (k : Z)
    : ORM.relationship (Z * Subscription.t) :=
  ORM.load l (subscriptions_of_plan d k).

(** [db.delete(plan); db.commit()]: the relationship has no delete
    cascade, so the unit of work first detaches the children (their
    [plan_id] becomes NULL) and then deletes the plan. *)
Definition delete_plan_row (d : db) (k : Z) : result db :=
  let detach (s : Subscription.t) : Subscription.t :=
    if bool_decide (Subscription.plan_id s = Some k)
    then Subscription.mk (Subscription.customer_id s) None (Subscription.router_id s)
           (Subscription.start_date s) (Subscription.end_date s)
           (Subscription.status s) (Subscription.created_at s)
           (Subscription.updated_at s) (Subscription.last_reminder_sent s)
    else s in
  Ok (mk (customers d) (delete k (plans d)) (detach <$> subscriptions d)
        (seq_customers d) (seq_subscriptions d)).

(** The rows of [subscriptions] that reference the customer with key
    [k]. *)
Definition subscriptions_of_customer (d : db) (k : Z) : list (Z * Subscription.t) :=
  filter (λ r, Subscription.customer_id r.2 = Some k) (rows (subscriptions d)).

(** [cust.subscriptions] *)
Definition customer_subscriptions (l : ORM.lazy) (d : db) (k : Z)
    : ORM.relationship (Z * Subscription.t) :=
  ORM.load l (subscriptions_of_customer d k).

(** [db.commit()] after attributes of the customer with key [k] were
    assigned, the router identifier not among them: [old] is the row as
    loaded, [c] the row with the new values. The [UPDATE] writes the
    columns that changed; the unique index on [email] can only fail when
    the email is one of them. *)
Definition update_customer_row (d : db) (k : Z) (old c : Customer.t) : result db :=
  if negb (String.eqb (Customer.email c) (Customer.email old))
     && existsb (λ r, negb (r.1 =? k)%Z
                      && String.eqb (Customer.email r.2) (Customer.email c))
          (rows (customers d))
  then Raise IntegrityError
  else Ok (set_customers (<[k := c]> (customers d)) (seq_customers d) d).

(** [db.delete(customer); db.commit()]: the relationship cascades the
    deletion ([cascade="all, delete-orphan"], and [ondelete="CASCADE"] on
    the foreign key), so the subscriptions of the customer go with it. *)
Definition delete_customer_row (d : db) (k : Z) : result db :=
  Ok (mk (delete k (customers d)) (plans d)
        (filter (λ r, Subscription.customer_id r.2 ≠ Some k) (subscriptions d))
        (seq_customers d) (seq_subscriptions d)).

End Store.

(** ** Console input

    The lines the operator types are a list; [input()] takes the next one
    and raises [EOFError] when there is none. *)

Definition io (A : Type) : Type := list string → result (A * list string).

Global Instance io_ret : MRet io := λ A v ins, Ok (v, ins).
Global Instance io_bind : MBind io := λ A B k m ins,
  match m ins with
  | Ok (v, rest) => k v rest
  | Raise e => Raise e
  end.

Definition input : io string := λ ins,
  match ins with
  | line :: rest => Ok (line, rest)
  | [] => Raise EOFError
  end.

(** [input(...).strip()] *)
Definition input_strip : io string := line ← input; mret (PyStr.strip line).

Definition lift {A} (r : result A) : io A := λ ins,
  match r with
  | Ok v => Ok (v, ins)
  | Raise e => Raise e
  end.

(** Running a handler on the typed lines. *)
Definition run {A} (m : io A) (ins : list string) : result A :=
  match m ins with
  | Ok (v, _) => Ok v
  | Raise e => Raise e
  end.

(** ** Helpers ([lib/helpers]) *)

Import PyDate Store.

(** *** [customer_helpers.py] *)

Definition validate_customer_data (name email router_id : string) : list string :=
  let errors := [] in
  let errors :=
    if negb (PyStr.truthy name) then errors ++ ["Name is required"] else errors in
  let errors :=
    if negb (PyStr.truthy email) || negb (PyStr.contains_char "@" email)
    then errors ++ ["Valid email is required"] else errors in
  let errors :=
    if negb (PyStr.isdigit router_id) || negb (PyStr.len router_id =? 10)%Z
    then errors ++ ["Router ID must be 10 digits"] else errors in
  errors.

Inductive create_outcome :=
  | ValidationErrors (errors : list string)
  | Created (key : Z)
  | ErrorCreating (e : exn).

Definition create_customer (clk : clock) (d : db) : io (create_outcome * db) :=
  name ← input_strip;
  email ← input_strip;
  phone_line ← input_strip;
  let phone := if PyStr.truthy phone_line then Some phone_line else None in
  address ← input_strip;
  router_id ← input_strip;
  let errors := validate_customer_data name email router_id in
  if negb (bool_decide (errors = [])) then mret (ValidationErrors errors, d)
  else
    match
      rid ← PyStr.int router_id;
      customer ← Customer.new name email phone address rid (now clk);
      insert_customer d customer
    with
    | Ok (k, d') => mret (Created k, d')
    | Raise e => mret (ErrorCreating e, d)
    end.

Definition name_le (a b : Z * Customer.t) : Prop :=
  String.leb (Customer.name a.2) (Customer.name b.2) = true.

Global Instance name_le_dec a b : Decision (name_le a b).
Proof. unfold name_le. apply _. Defined.

(** [len([s for s in cust.subscriptions if s.status == 'active'])] *)
Definition active_subs (d : db) (k : Z) : Z :=
  Z.of_nat (length (List.filter (λ r, Subscription.status_is "active" r.2)
                      (ORM.iter (customer_subscriptions Customer.subscriptions_lazy d k)))).

(** What [list_customers] prints for a customer: the short line, or the
    detailed block with the count of active subscriptions. *)
Inductive customer_line :=
  | CustomerLine (id : Z) (c : Customer.t)
  | CustomerDetails (id : Z) (c : Customer.t) (active : Z).

(** [list_customers]: [None] is the answer that there are no customers. *)
Definition list_customers (d : db) (detailed : bool) : option (list customer_line) :=
  let customers := merge_sort name_le (rows (customers d)) in
  if bool_decide (customers = []) then None
  else Some ((λ r, if detailed then CustomerDetails r.1 r.2 (active_subs d r.1)
                   else CustomerLine r.1 r.2) <$> customers).

Inductive update_customer_outcome :=
  | InvalidCustomerID
  | UpdateValidationErrors (errors : list string)
  | CustomerUpdated
  | ErrorUpdatingCustomer (e : exn).

Definition update_customer (clk : clock) (d : db) : io (update_customer_outcome * db) :=
  let _ := list_customers d false in
  cust_id ← input_strip;
  customer ← lift (get_if_digit (customers d) cust_id);
  match customer with
  | None => mret (InvalidCustomerID, d)
  | Some (k, c) =>
      line ← input_strip;
      let new_name := if PyStr.truthy line then line else Customer.name c in
      line ← input_strip;
      let new_email := if PyStr.truthy line then line else Customer.email c in
      line ← input_strip;
      let new_phone := if PyStr.truthy line then Some line else Customer.phone c in
      line ← input_strip;
      let new_address := if PyStr.truthy line then Some line else Customer.address c in
      let errors :=
        validate_customer_data new_name new_email (PyStr.str (Customer.router_id c)) in
      if negb (bool_decide (errors = [])) then mret (UpdateValidationErrors errors, d)
      else
        match
          email' ← Customer.validate_email new_email;
          phone' ← Customer.validate_phone new_phone;
          update_customer_row d k c
            (Customer.mk (Customer.router_id c) new_name email' phone' new_address
               (Customer.created_at c) (Some (now clk)))
        with
        | Ok d' => mret (CustomerUpdated, d')
        | Raise e => mret (ErrorUpdatingCustomer e, d)
        end
  end.

Inductive delete_customer_outcome :=
  | UnknownCustomerID
  | CustomerDeletionCancelled
  | CustomerDeleted
  | ErrorDeletingCustomer (e : exn).

Definition delete_customer (d : db) : io (delete_customer_outcome * db) :=
  let _ := list_customers d false in
  cust_id ← input_strip;
  customer ← lift (get_if_digit (customers d) cust_id);
  match customer with
  | None => mret (UnknownCustomerID, d)
  | Some (k, _) =>
      line ← input_strip;
      let confirm := PyStr.lower line in
      if negb (String.eqb confirm "y") then mret (CustomerDeletionCancelled, d)
      else
        match delete_customer_row d k with
        | Ok d' => mret (CustomerDeleted, d')
        | Raise e => mret (ErrorDeletingCustomer e, d)
        end
  end.

(** *** [plan_helpers.py] *)

Definition validate_plan_data (name speed price : string) : list string :=
  let errors := [] in
  let errors :=
    if negb (PyStr.truthy name) then errors ++ ["Plan name is required"] else errors in
  let errors :=
    if negb (PyStr.truthy speed)
    then errors ++ ["Speed description is required"] else errors in
  match PyFloat.float price with
  | Ok p =>
      if negb (PyFloat.int_le 2000 p && PyFloat.le_int p 100000)
      then errors ++ ["Price must be between KES 2000-100000"] else errors
  | Raise _ => errors ++ ["Invalid price format"]
  end.

Inductive delete_plan_outcome :=
  | InvalidPlanID
  | CannotDelete
  | DeletionCancelled
  | PlanDeleted
  | ErrorDeleting (e : exn).

(** [delete_plan], for a loader [l] of [Plan.subscriptions]. *)
Definition delete_plan_with (l : ORM.lazy) (d : db) : io (delete_plan_outcome * db) :=
  plan_id ← input_strip;
  plan ← lift (get_if_digit (plans d) plan_id);
  match plan with
  | None => mret (InvalidPlanID, d)
  | Some (k, _) =>
      if ORM.truthy (plan_subscriptions l d k) then mret (CannotDelete, d)
      else
        line ← input_strip;
        let confirm := PyStr.lower line in
        if negb (String.eqb confirm "y") then mret (DeletionCancelled, d)
        else
          match delete_plan_row d k with
          | Ok d' => mret (PlanDeleted, d')
          | Raise e => mret (ErrorDeleting e, d)
          end
  end.

Definition delete_plan (d : db) : io (delete_plan_outcome * db) :=
  delete_plan_with Plan.subscriptions_lazy d.

Definition price_le (a b : Z * Plan.t) : Prop :=
  Qle_bool (Plan.price a.2) (Plan.price b.2) = true.

Global Instance price_le_dec a b : Decision (price_le a b).
Proof. unfold price_le. apply _. Defined.

(** What [list_plans] prints for a plan: the short line, or the detailed
    block, which ends with [len(plan.subscriptions)]. *)
Inductive plan_line :=
  | PlanLine (id : Z) (p : Plan.t)
  | PlanDetails (id : Z) (p : Plan.t) (subs : Z).

Definition print_plan (d : db) (detailed : bool) (r : Z * Plan.t) : result plan_line :=
  if detailed then
    n ← ORM.len (plan_subscriptions Plan.subscriptions_lazy d r.1);
    Ok (PlanDetails r.1 r.2 n)
  else Ok (PlanLine r.1 r.2).

Fixpoint print_plans (d : db) (detailed : bool) (l : list (Z * Plan.t))
    : result (list plan_line) :=
  match l with
  | [] => Ok []
  | r :: l' =>
      line ← print_plan d detailed r;
      lines ← print_plans d detailed l';
      Ok (line :: lines)
  end.

(** [list_plans]: [None] is the answer that there are no plans. *)
Definition list_plans (d : db) (detailed : bool) : result (option (list plan_line)) :=
  let plans := merge_sort price_le (rows (plans d)) in
  if bool_decide (plans = []) then Ok None
  else Some <$> print_plans d detailed plans.

(** *** [subscription_helpers.py] *)

Definition validate_subscription_input (customer_id plan_id duration : string)
    : result (list string) :=
  let errors := [] in
  let errors :=
    if negb (PyStr.isdigit customer_id)
    then errors ++ ["Customer ID must be a number"] else errors in
  let errors :=
    if negb (PyStr.isdigit plan_id)
    then errors ++ ["Plan ID must be a number"] else errors in
  bad ← (if negb (PyStr.isdigit duration) then Ok true
         else n ← PyStr.int duration; Ok (n <? 1)%Z);
  Ok (if bad : bool then errors ++ ["Duration must be at least 1 month"] else errors).

Inductive create_subscription_outcome :=
  | NoCustomers
  | NoPlans
  | InputErrors (errors : list string)
  | CustomerNotFound
  | PlanNotFound
  | SubscriptionCreated (key : Z)
  | ErrorCreatingSubscription (e : exn).

Definition create_subscription (clk : clock) (d : db)
    : io (create_subscription_outcome * db) :=
  if bool_decide (rows (customers d) = []) then mret (NoCustomers, d)
  else if bool_decide (rows (plans d) = []) then mret (NoPlans, d)
  else
    cust_id ← input_strip;
    plan_id ← input_strip;
    line ← input_strip;
    let duration := if PyStr.truthy line then line else "1" in
    errors ← lift (validate_subscription_input cust_id plan_id duration);
    if negb (bool_decide (errors = [])) then mret (InputErrors errors, d)
    else
      customer ← lift (get_int (customers d) cust_id);
      plan ← lift (get_int (plans d) plan_id);
      match customer, plan with
      | None, _ => mret (CustomerNotFound, d)
      | _, None => mret (PlanNotFound, d)
      | Some (ck, c), Some (pk, _) =>
          let start_date := today clk in
          end_date ← lift (n ← PyStr.int duration;
                           add_relativedelta start_date (relativedelta_months n));
          match
            subscription ← Subscription.new (today clk) ck pk (Customer.router_id c)
                             "active" start_date end_date (now clk);
            insert_subscription d subscription
          with
          | Ok (k, d') => mret (SubscriptionCreated k, d')
          | Raise e => mret (ErrorCreatingSubscription e, d)
          end
      end.

(** The [WHERE] clause of [list_subscriptions] for each [status]
    argument; any other argument adds no filter. *)
Definition list_where (status : string) (today : date) (s : Subscription.t) : SQL.tv :=
  if String.eqb status "active" then
    SQL.and3 (SQL.eq_str (Subscription.status s) "active")
      (SQL.or3 (SQL.is_null (Subscription.end_date s))
         (SQL.ge_date (Subscription.end_date s) today))
  else if String.eqb status "expired" then
    SQL.and3 (SQL.eq_str (Subscription.status s) "active")
      (SQL.lt_date (Subscription.end_date s) today)
  else Some true.

Definition start_date_le (a b : Z * Subscription.t) : Prop :=
  date_leb (Subscription.start_date a.2) (Subscription.start_date b.2) = true.

Global Instance start_date_le_dec a b : Decision (start_date_le a b).
Proof. unfold start_date_le. apply _. Defined.

(** [query.order_by(Subscription.start_date).all()] *)
Definition order_by_start_date (l : list (Z * Subscription.t)) : list (Z * Subscription.t) :=
  merge_sort start_date_le l.

(** The query of [list_subscriptions]: the rows it goes on to print. *)
Definition list_subscriptions_query (d : db) (status : string) (today : date)
    : list (Z * Subscription.t) :=
  order_by_start_date
    (List.filter (λ r, SQL.is_true (list_where status today r.2))
       (rows (subscriptions d))).

(** Printing a row reads [customer.name] and [plan.name], which raises
    when a parent is missing. *)
Definition print_subscription (d : db) (r : Z * Subscription.t) : result unit :=
  match Subscription.customer_id r.2 ≫= (customers d !!.),
        Subscription.plan_id r.2 ≫= (plans d !!.) with
  | Some _, Some _ => Ok ()
  | _, _ => Raise AttributeError
  end.

Fixpoint print_all (d : db) (l : list (Z * Subscription.t)) : result unit :=
  match l with
  | [] => Ok ()
  | r :: l' => _ ← print_subscription d r; print_all d l'
  end.

Definition list_subscriptions (d : db) (status : string) (today : date)
    : result (list (Z * Subscription.t)) :=
  let subscriptions := list_subscriptions_query d status today in
  _ ← print_all d subscriptions;
  Ok subscriptions.

Inductive update_subscription_outcome :=
  | SubscriptionNotFound
  | InvalidChoice
  | StatusUpdated
  | NoEndDate
  | MustExtend
  | Extended (end_date : date).

Definition status_map (choice : string) : option string :=
  if String.eqb choice "1" then Some "active"
  else if String.eqb choice "2" then Some "suspended"
  else if String.eqb choice "3" then Some "terminated"
  else None.

Definition update_subscription (clk : clock) (d : db)
    : io (update_subscription_outcome * db) :=
  _ ← lift (list_subscriptions d "all" (today clk));
  sub_id ← input_strip;
  subscription ← lift (get_if_digit (subscriptions d) sub_id);
  match subscription with
  | None => mret (SubscriptionNotFound, d)
  | Some (k, s) =>
      choice ← input_strip;
      if String.eqb choice "1" then
        status_choice ← input_strip;
        match status_map status_choice with
        | Some st =>
            let s := Subscription.set_status (Some st) s in
            let s := Subscription.set_updated_at (Some (now clk)) s in
            s ← (match Subscription.end_date s with
                 | Some e =>
                     if String.eqb status_choice "1" && date_ltb e (today clk) then
                       extend ← input_strip;
                       positive ← lift (if PyStr.isdigit extend
                                        then n ← PyStr.int extend; Ok (n >? 0)%Z
                                        else Ok false);
                       if positive : bool then
                         e' ← lift (n ← PyStr.int extend;
                                    add_relativedelta (today clk) (relativedelta_months n));
                         mret (Subscription.set_end_date (Some e') s)
                       else mret s
                     else mret s
                 | None => mret s
                 end);
            d' ← lift (update_subscription_row d k s);
            mret (StatusUpdated, d')
        | None => mret (InvalidChoice, d)
        end
      else if String.eqb choice "2" then
        match Subscription.end_date s with
        | None => mret (NoEndDate, d)
        | Some e =>
            months ← input_strip;
            bad ← lift (if negb (PyStr.isdigit months) then Ok true
                        else n ← PyStr.int months; Ok (n <? 1)%Z);
            if bad : bool then mret (MustExtend, d)
            else
              e' ← lift (n ← PyStr.int months;
                         add_relativedelta e (relativedelta_months n));
              let s := Subscription.set_end_date (Some e') s in
              let s := Subscription.set_updated_at (Some (now clk)) s in
              d' ← lift (update_subscription_row d k s);
              mret (Extended e', d')
        end
      else mret (InvalidChoice, d)
  end.

Inductive delete_subscription_outcome :=
  | NoSuchSubscription
  | CancellationAborted
  | SubscriptionCancelled
  | ErrorCancelling (e : exn).

(** [delete_subscription]: the menu entry that cancels a subscription. *)
Definition delete_subscription (clk : clock) (d : db)
    : io (delete_subscription_outcome * db) :=
  _ ← lift (list_subscriptions d "active" (today clk));
  sub_id ← input_strip;
  subscription ← lift (get_if_digit (subscriptions d) sub_id);
  match subscription with
  | None => mret (NoSuchSubscription, d)
  | Some (k, s) =>
      line ← input_strip;
      let confirm := PyStr.lower line in
      if negb (String.eqb confirm "y") then mret (CancellationAborted, d)
      else
        let s := Subscription.set_status (Some "terminated") s in
        let s := Subscription.set_updated_at (Some (now clk)) s in
        match update_subscription_row d k s with
        | Ok d' => mret (SubscriptionCancelled, d')
        | Raise e => mret (ErrorCancelling e, d)
        end
  end.

(** The [WHERE] clause of the expiring sweep. The bound [today] of the
    comparison with the [DateTime] column is a timestamp at midnight. *)
Definition expiring_where (today deadline : date) (s : Subscription.t) : SQL.tv :=
  SQL.and3 (SQL.eq_str (Subscription.status s) "active")
    (SQL.and3 (SQL.between_date (Subscription.end_date s) today deadline)
       (SQL.or3 (SQL.is_null (Subscription.last_reminder_sent s))
          (SQL.lt_datetime (Subscription.last_reminder_sent s) (midnight today)))).

(** [sub.customer]; also the row [join(Customer)] pairs the subscription
    with. *)
Definition subscription_customer (d : db) (s : Subscription.t) : option Customer.t :=
  Subscription.customer_id s ≫= (customers d !!.).

(** [sub.plan] *)
Definition subscription_plan (d : db) (s : Subscription.t) : option Plan.t :=
  Subscription.plan_id s ≫= (plans d !!.).

(** [db.query(Subscription).join(Customer).filter(...).all()] *)
Definition expiring_query (d : db) (today deadline : date) : list (Z * Subscription.t) :=
  List.filter
    (λ r, bool_decide (is_Some (subscription_customer d r.2))
          && SQL.is_true (expiring_where today deadline r.2))
    (rows (subscriptions d)).

(** The loop over the selected rows. [dirty] holds the subscriptions
    assigned to so far, which the session writes at [commit]. *)
Fixpoint reminder_loop (d : db) (today : date) (l : list (Z * Subscription.t))
    (dirty : gmap Z Subscription.t) : result (gmap Z Subscription.t) :=
  match l with
  | [] => Ok dirty
  | r :: l' =>
      match subscription_customer d r.2, subscription_plan d r.2 with
      | Some customer, Some _ =>
          if PyStr.truthy (Customer.email customer)
          then reminder_loop d today l'
                 (<[r.1 := Subscription.set_last_reminder_sent (Some (midnight today)) r.2]>
                    dirty)
          else reminder_loop d today l' dirty
      | _, _ => Raise AttributeError
      end
  end.

(** [db.commit()]: each dirty row is written by an [UPDATE], which also
    sets [updated_at], declared with [onupdate=func.now()]. *)
Definition commit_subscriptions (clk : clock) (d : db) (dirty : gmap Z Subscription.t) : db :=
  set_subscriptions
    ((Subscription.set_updated_at (Some (func_now clk)) <$> dirty) ∪ subscriptions d)
    (seq_subscriptions d) d.

Inductive sweep_outcome :=
  | NoReminders
  | ReminderFlagsUpdated (found : nat).

Definition check_expiring_subscriptions (clk : clock) (d : db) : result (sweep_outcome * db) :=
  let today := today clk in
  deadline ← add_relativedelta today (relativedelta_days 7);
  let expiring := expiring_query d today deadline in
  if bool_decide (expiring = []) then Ok (NoReminders, d)
  else
    dirty ← reminder_loop d today expiring ∅;
    Ok (ReminderFlagsUpdated (length expiring), commit_subscriptions clk d dirty).

(** ** Vocabulary of the specification

    Shapes and conditions in the words of the specification, to compare
    with what the code computes. *)

(** The canonical phone number: the prefix [+254], the network prefix [7],
    a digit other than 3, 5 and 6, and seven more digits. *)
Definition canonical_phone (s : string) : bool :=
  match s with
  | String a (String b (String c (String d (String e (String f rest))))) =>
      Ascii.eqb a "+" && Ascii.eqb b "2" && Ascii.eqb c "5" && Ascii.eqb d "4"
      && Ascii.eqb e "7" && Customer.network_digit f
      && (PyStr.len rest =? 7)%Z && PyStr.forallb_str PyStr.isdecimal_char rest
  | _ => false
  end.

(** A 10-character all-digit string that starts with [0]. *)
Definition ten_digits_leading_zero (s : string) : bool :=
  (PyStr.len s =? 10)%Z && PyStr.forallb_str PyStr.isdecimal_char s
  && PyStr.startswith_char "0" s.

(** An email with a dot-separated domain, read generously: some [.]
    occurs after some [@]. *)
Fixpoint dot_after_at (s : string) : bool :=
  match s with
  | EmptyString => false
  | String c s' =>
      (Ascii.eqb c "@" && PyStr.contains_char "." s') || dot_after_at s'
  end.

(** The number of days of the month that lies [n] months after the month
    of [d]. *)
Definition days_in_month_after (d : date) (n : Z) : Z :=
  days_in_month (year (months_after d n)) (month (months_after d n)).

(** A reminder is due: the status is active, the end date lies within
    [[today, deadline]], and no reminder was sent today or later. *)
Definition reminder_due (today deadline : date) (s : Subscription.t) : bool :=
  Subscription.status_is "active" s
  && match Subscription.end_date s with
     | Some e => date_leb today e && date_leb e deadline
     | None => false
     end
  && match Subscription.last_reminder_sent s with
     | Some t => datetime_ltb t (midnight today)
     | None => true
     end.

(** The owning customer has an email on file. *)
Definition owner_has_email (d : db) (s : Subscription.t) : bool :=
  match subscription_customer d s with
  | Some c => PyStr.truthy (Customer.email c)
  | None => false
  end.

(** What the sweep writes to a row it flags. *)
Definition flag_reminder (clk : clock) (s : Subscription.t) : Subscription.t :=
  Subscription.set_updated_at (Some (func_now clk))
    (Subscription.set_last_reminder_sent (Some (midnight (today clk))) s).

(** A character [re.sub(r'[^\d+]', '', phone)] keeps. *)
Definition phone_char (c : ascii) : bool := PyStr.isdecimal_char c || Ascii.eqb c "+".

(** The phone number after cleaning and after a leading zero of a
    10-character number is replaced by [+254]. *)
Definition normalized_phone (p : string) : string :=
  let cleaned := Customer.clean_phone p in
  if PyStr.startswith_char "0" cleaned && (PyStr.len cleaned =? 10)%Z
  then "+254" +:+ PyStr.tail cleaned
  else cleaned.

(** The duration [create_subscription] reads: the line typed, or [1]
    when the line is empty. *)
Definition typed_duration (line : string) : string :=
  if PyStr.truthy (PyStr.strip line) then PyStr.strip line else "1".

(** The row [create_subscription] adds for customer [ck] on plan [pk],
    with the end date [e]. *)
Definition new_subscription (clk : clock) (ck pk : Z) (c : Customer.t) (e : date)
    : Subscription.t :=
  Subscription.mk (Some ck) (Some pk) (Customer.router_id c) (today clk) (Some e)
    (Some "active") (now clk) None None.

(** A part of an email address: non-empty and without [@]. *)
Definition email_part (s : string) : bool :=
  PyStr.truthy s && negb (PyStr.contains_char "@" s).

(** The shape [local@domain.tld]. *)
Definition email_shape (s : string) : Prop :=
  ∃ l d t : string,
    s = l +:+ "@" +:+ d +:+ "." +:+ t
    ∧ email_part l = true ∧ email_part d = true ∧ email_part t = true.

(** A speed unit: [Mbps] or [Gbps], in any letter case. *)
Definition speed_unit (u : string) : bool :=
  String.eqb (PyStr.lower u) "mbps" || String.eqb (PyStr.lower u) "gbps".

(** The shape of a speed: decimal digits, at most one white-space
    character, a unit. *)
Definition speed_shape (s : string) : Prop :=
  ∃ ds sp u : string,
    s = ds +:+ sp +:+ u
    ∧ PyStr.truthy ds = true ∧ PyStr.forallb_str PyStr.isdecimal_char ds = true
    ∧ (PyStr.len sp <= 1)%Z ∧ PyStr.forallb_str PyStr.isspace_char sp = true
    ∧ speed_unit u = true.

(** ** Consistency of the store

    What the handlers keep true of the rows they write. *)

(** A customer row: a name, an email of the shape of an email, in lower
    case and without white space around it, and a phone number that is
    absent or canonical. *)
Definition customer_ok (c : Customer.t) : Prop :=
  PyStr.truthy (Customer.name c) = true
  ∧ email_shape (Customer.email c)
  ∧ PyStr.lower (Customer.email c) = Customer.email c
  ∧ PyStr.strip (Customer.email c) = Customer.email c
  ∧ ∀ p, Customer.phone c = Some p → canonical_phone p = true.

(** A subscription row: the [CHECK] constraints hold, the dates are
    calendar dates, the customer and the plan exist, and the router
    identifier is that of the customer. *)
Definition subscription_ok (d : db) (s : Subscription.t) : Prop :=
  subscription_checks s = true
  ∧ valid_date (Subscription.start_date s)
  ∧ (∀ e, Subscription.end_date s = Some e → valid_date e)
  ∧ ∃ ck c pk p,
      Subscription.customer_id s = Some ck ∧ customers d !! ck = Some c
      ∧ Subscription.plan_id s = Some pk ∧ plans d !! pk = Some p
      ∧ Subscription.router_id s = Customer.router_id c.

Definition consistent (d : db) : Prop :=
  (∀ i c, customers d !! i = Some c → customer_ok c)
  ∧ (∀ i j c c',
       customers d !! i = Some c → customers d !! j = Some c' →
       Customer.email c = Customer.email c'
       ∨ Customer.router_id c = Customer.router_id c' →
       i = j)
  ∧ (∀ i s, subscriptions d !! i = Some s → subscription_ok d s)
  ∧ (∀ i j s s',
       subscriptions d !! i = Some s → subscriptions d !! j = Some s' →
       Subscription.router_id s = Subscription.router_id s' →
       i = j).

(** One run of a handler that returns, on any typed lines: the store
    before and after. A run that raises leaves the store as it was. *)
Inductive handler_step (clk : clock) (d d' : db) : Prop :=
  | step_create_customer ins o :
      run (create_customer clk d) ins = Ok (o, d') → handler_step clk d d'
  | step_update_customer ins o :
      run (update_customer clk d) ins = Ok (o, d') → handler_step clk d d'
  | step_delete_customer ins o :
      run (delete_customer d) ins = Ok (o, d') → handler_step clk d d'
  | step_delete_plan ins o :
      run (delete_plan d) ins = Ok (o, d') → handler_step clk d d'
  | step_create_subscription ins o :
      run (create_subscription clk d) ins = Ok (o, d') → handler_step clk d d'
  | step_update_subscription ins o :
      run (update_subscription clk d) ins = Ok (o, d') → handler_step clk d d'
  | step_delete_subscription ins o :
      run (delete_subscription clk d) ins = Ok (o, d') → handler_step clk d d'
  | step_check_expiring_subscriptions o :
      check_expiring_subscriptions clk d = Ok (o, d') → handler_step clk d d'.

(** Subscription rows that differ in status, end date and time stamps
    only. *)
Definition same_links (s s' : Subscription.t) : Prop :=
  Subscription.customer_id s' = Subscription.customer_id s
  ∧ Subscription.plan_id s' = Subscription.plan_id s
  ∧ Subscription.router_id s' = Subscription.router_id s
  ∧ Subscription.start_date s' = Subscription.start_date s.

(** ** Sample data *)

(** A clock on day [d]: ten in the morning local time, seven on the
    store's clock. *)
Definition clock_on (d : date) : clock :=
  mkclock d (mkdatetime d 36000000000) (mkdatetime d 25200000000).

Definition jan_15 : date := mkdate 2024 1 15.
Definition jan_31 : date := mkdate 2024 1 31.

Definition basic_plan : Plan.t :=
  Plan.mk "Basic" None 2500 "10 Mbps" (Some 1%Z) (midnight jan_15) None.

Definition john : Customer.t :=
  Customer.mk 1234567890 "John Doe" "john@example.com" None (Some "Nairobi")
    (midnight jan_15) None.

Definition empty_db : db := Store.mk ∅ ∅ ∅ 0 0.

(** One customer, one plan, no subscription. *)
Definition sample_db : db := Store.mk {[ 1%Z := john ]} {[ 1%Z := basic_plan ]} ∅ 1 0.

(** A subscription of [john] to [basic_plan] that ends on [end_date]. *)
Definition john_subscription (end_date : date) : Subscription.t :=
  Subscription.mk (Some 1%Z) (Some 1%Z) 1234567890 jan_15 (Some end_date)
    (Some "active") (midnight jan_15) None None.

Definition subscribed_db (end_date : date) : db :=
  Store.mk {[ 1%Z := john ]} {[ 1%Z := basic_plan ]}
    {[ 1%Z := john_subscription end_date ]} 1 1.

(** The customer that [create_customer] stores for the router identifier
    typed as [0123456789]. *)
Definition short_router_customer : Customer.t :=
  Customer.mk 123456789 "John Doe" "john@example.com" None (Some "Nairobi")
    (midnight jan_15) None.

Definition short_router_db : db := Store.mk {[ 1%Z := short_router_customer ]} ∅ ∅ 1 0.

(** The one-character string [²] (U+00B2), a digit that is not decimal. *)
Definition superscript_two : string := String (ascii_of_N 178) "".

(** A subscription without a customer: [customer_id] is NULL, which the
    schema allows. *)
Definition orphan_subscription : Subscription.t :=
  Subscription.mk None (Some 1%Z) 1234567890 jan_15 None (Some "active")
    (midnight jan_15) None None.

Definition orphan_db : db :=
  Store.mk ∅ {[ 1%Z := basic_plan ]} {[ 1%Z := orphan_subscription ]} 0 1.

(** * Properties *)

(** ** Calendar arithmetic *)

Section calendar.
Local Open Scope Z_scope.

Lemma days_in_month_bounds y m : 1 <= m <= 12 → 28 <= days_in_month y m <= 31.
Proof.
  intros Hm. unfold days_in_month.
  assert (m = 1 ∨ m = 2 ∨ m = 3 ∨ m = 4 ∨ m = 5 ∨ m = 6 ∨ m = 7 ∨ m = 8
          ∨ m = 9 ∨ m = 10 ∨ m = 11 ∨ m = 12) as Hc by lia.
  destruct (is_leap y);
    repeat (destruct Hc as [-> | Hc]; [simpl; lia |]); subst; simpl; lia.
Qed.

Lemma monthrange_ndays_ok y m :
  1 <= m <= 12 → monthrange_ndays y m = Ok (days_in_month y m).
Proof.
  intros Hm. unfold monthrange_ndays, days_in_month.
  replace ((1 <=? m) && (m <=? 12)) with true by (symmetry; apply andb_true_iff; lia).
  simpl. destruct (m =? 2) eqn:E.
  - apply Z.eqb_eq in E as ->. destruct (is_leap y); reflexivity.
  - simpl. f_equal. lia.
Qed.

Lemma fits_int_true z : -2147483648 <= z <= 2147483647 → fits_int z = true.
Proof.
  intros H. unfold fits_int, INT_MAX. apply andb_true_iff.
  split; apply Z.leb_le; lia.
Qed.

(** Normalising months to years and months, then carrying once, lands on
    the month that lies [n] months later. *)
Lemma carry_months_fix y m n :
  1 <= m <= 12 → 0 <= n →
  let r := relativedelta_months n in
  carry_months (y + years r) m (months r)
  = ((y * 12 + (m - 1) + n) / 12, (y * 12 + (m - 1) + n) mod 12 + 1).
Proof.
  intros Hm Hn r. unfold r, relativedelta_months, fix_months, carry_months, sign.
  cbn [years months days].
  rewrite Z.abs_eq by lia.
  replace (n <? 0) with false by (symmetry; apply Z.ltb_ge; lia).
  rewrite !Z.mul_1_r.
  destruct (n >? 11) eqn:E11; cbn [years months days].
  - destruct (n mod 12 =? 0) eqn:E0.
    + apply Z.eqb_eq in E0. f_equal; Z.div_mod_to_equations; lia.
    + apply Z.eqb_neq in E0.
      destruct (m + n mod 12 >? 12) eqn:E12.
      * f_equal; Z.div_mod_to_equations; lia.
      * replace (m + n mod 12 <? 1) with false
          by (symmetry; apply Z.ltb_ge; Z.div_mod_to_equations; lia).
        f_equal; Z.div_mod_to_equations; lia.
  - assert (n <= 11) by lia.
    destruct (n =? 0) eqn:E0.
    + apply Z.eqb_eq in E0. subst n. f_equal; Z.div_mod_to_equations; lia.
    + destruct (m + n >? 12) eqn:E12.
      * f_equal; Z.div_mod_to_equations; lia.
      * replace (m + n <? 1) with false by (symmetry; apply Z.ltb_ge; lia).
        f_equal; Z.div_mod_to_equations; lia.
Qed.

Lemma relativedelta_months_days n : days (relativedelta_months n) = 0.
Proof.
  unfold relativedelta_months, fix_months. cbn [months].
  destruct (Z.abs n >? 11); reflexivity.
Qed.

Lemma months_after_month d n : 1 <= month (months_after d n) <= 12.
Proof. unfold months_after. cbn [month]. Z.div_mod_to_equations. lia. Qed.

Lemma months_after_valid d n :
  valid_date d → MINYEAR <= year (months_after d n) <= MAXYEAR →
  valid_date (months_after d n).
Proof.
  intros (Hy & Hm & Hd) Hy'. split; [done|]. split; [apply months_after_month|].
  pose proof (months_after_month d n) as Hm'.
  unfold months_after in *. cbn [year month day] in *.
  pose proof (days_in_month_bounds ((month_index d + n) / 12) _ Hm'). lia.
Qed.

Lemma add_days_0 d : valid_date d → add_days d 0 = Ok d.
Proof.
  intros (Hy & Hm & Hd). unfold add_days, normalize_y_m_d. cbv zeta.
  rewrite Z.add_0_r. cbn [year].
  replace ((day d <? 1) || (day d >? days_in_month (year d) (month d)))
    with false by (symmetry; apply orb_false_iff; lia).
  replace ((MINYEAR <=? year d) && (year d <=? MAXYEAR))
    with true by (symmetry; apply andb_true_iff; lia).
  by destruct d.
Qed.

(** [d + relativedelta(months=n)] is the date [n] calendar months after
    [d], unless that date is beyond year 9999, where it raises. *)
Lemma add_relativedelta_months d n :
  valid_date d → 0 <= n →
  add_relativedelta d (relativedelta_months n)
  = if year (months_after d n) <=? MAXYEAR then Ok (months_after d n)
    else Raise (if year (months_after d n) <=? INT_MAX then ValueError
                else OverflowError).
Proof.
  intros (Hy & Hm & Hd) Hn. unfold add_relativedelta.
  rewrite (carry_months_fix (year d) (month d) n Hm Hn).
  pose proof (months_after_month d n) as Hm'.
  unfold months_after, month_index in *. cbn [year month day] in *.
  set (y' := (year d * 12 + (month d - 1) + n) / 12) in *.
  set (m' := (year d * 12 + (month d - 1) + n) mod 12 + 1) in *.
  rewrite monthrange_ndays_ok by done.
  pose proof (days_in_month_bounds y' m' Hm') as Hdim.
  assert (MINYEAR <= y') as Hy'.
  { unfold y', MINYEAR, MAXYEAR in *. Z.div_mod_to_equations. lia. }
  cbn [mbind result_bind rbind]. unfold date_new.
  rewrite (fits_int_true m'), (fits_int_true (Z.min _ _)) by lia.
  rewrite !andb_true_r.
  replace (MINYEAR <=? y') with true by (symmetry; apply Z.leb_le; lia).
  destruct (Z.leb_spec y' MAXYEAR) as [Hmax|Hmax].
  - rewrite fits_int_true by (unfold MINYEAR, MAXYEAR in *; lia).
    cbn [andb negb].
    replace ((1 <=? m') && (m' <=? 12)) with true
      by (symmetry; apply andb_true_iff; lia).
    cbn [negb].
    replace ((1 <=? Z.min (days_in_month y' m') (day d))
             && (Z.min (days_in_month y' m') (day d) <=? days_in_month y' m'))
      with true by (symmetry; apply andb_true_iff; lia).
    cbn [negb mbind result_bind rbind]. rewrite relativedelta_months_days.
    rewrite add_days_0; [by rewrite Z.min_comm|].
    unfold valid_date. cbn [year month day]. lia.
  - unfold fits_int.
    replace (- INT_MAX - 1 <=? y')
      with true by (symmetry; apply Z.leb_le; unfold INT_MAX, MINYEAR in *; lia).
    by destruct (y' <=? INT_MAX).
Qed.

End calendar.

(** ** Regular expressions: the matcher decides the language *)

Section regex.
Import Regex.

Lemma append_cons c (a b : string) : String c a +:+ b = String c (a +:+ b).
Proof. reflexivity. Qed.

Lemma append_nil_l (s : string) : "" +:+ s = s.
Proof. reflexivity. Qed.

Lemma append_nil_r (s : string) : s +:+ "" = s.
Proof. induction s as [|c s IH]; [done|]. by rewrite append_cons, IH. Qed.

Lemma append_eq_nil (a b : string) : a +:+ b = "" → a = "" ∧ b = "".
Proof. destruct a; [done|]. rewrite append_cons. discriminate. Qed.

Lemma append_eq_cons (a b : string) c s :
  a +:+ b = String c s →
  (a = "" ∧ b = String c s) ∨ (∃ a', a = String c a' ∧ s = a' +:+ b).
Proof.
  destruct a as [|c' a']; [by left|]. rewrite append_cons.
  intros H. injection H as -> <-. right. eauto.
Qed.

Lemma lang_void_inv s : ¬ lang Void s.
Proof. inversion 1. Qed.

Lemma lang_eps_inv s : lang Eps s → s = "".
Proof. by inversion 1. Qed.

Lemma lang_cls_inv p s : lang (Cls p) s → ∃ c, s = String c "" ∧ p c = true.
Proof. inversion 1; eauto. Qed.

Lemma lang_cat_inv r1 r2 s :
  lang (Cat r1 r2) s → ∃ s1 s2, s = s1 +:+ s2 ∧ lang r1 s1 ∧ lang r2 s2.
Proof. inversion 1; eauto. Qed.

Lemma lang_alt_inv r1 r2 s : lang (Alt r1 r2) s → lang r1 s ∨ lang r2 s.
Proof. inversion 1; auto. Qed.

Lemma lang_cat_cons r1 r2 c s1 s2 :
  lang r1 (String c s1) → lang r2 s2 → lang (Cat r1 r2) (String c (s1 +:+ s2)).
Proof. intros H1 H2. rewrite <- append_cons. by constructor. Qed.

Lemma nullable_lang r : nullable r = true ↔ lang r "".
Proof.
  split.
  - induction r; simpl; intros H; try discriminate.
    + constructor.
    + apply andb_true_iff in H as [H1 H2].
      rewrite <- (append_nil_l ""). constructor; auto.
    + apply orb_true_iff in H as [H|H]; [apply lang_alt_l | apply lang_alt_r]; auto.
    + constructor.
  - intros H. remember ""%string as s eqn:Es.
    induction H; simpl; try done.
    + apply append_eq_nil in Es as [-> ->]. rewrite IHlang1, IHlang2; done.
    + rewrite IHlang; done.
    + rewrite IHlang, orb_true_r; done.
Qed.

Lemma lang_star_cons_inv r c s :
  lang (Star r) (String c s) →
  ∃ s1 s2, s = s1 +:+ s2 ∧ lang r (String c s1) ∧ lang (Star r) s2.
Proof.
  intros H. remember (Star r) as r' eqn:Er. remember (String c s) as t eqn:Et.
  revert Er Et.
  induction H; try discriminate.
  intros Er Et. injection Er as ->.
  apply append_eq_cons in Et as [[-> ->] | (a' & -> & ->)].
  - apply IHlang2; done.
  - eauto.
Qed.

Lemma deriv_lang c r s : lang (deriv c r) s ↔ lang r (String c s).
Proof.
  revert s. induction r as [| | p | r1 IH1 r2 IH2 | r1 IH1 r2 IH2 | r1 IH1]; intros s; simpl.
  - split; inversion 1.
  - split; inversion 1.
  - destruct (p c) eqn:Ep; split; intros H.
    + apply lang_eps_inv in H as ->. by constructor.
    + apply lang_cls_inv in H as (c' & [= _ ->] & _). constructor.
    + by apply lang_void_inv in H.
    + apply lang_cls_inv in H as (c' & [= <- _] & Hp). congruence.
  - destruct (nullable r1) eqn:En.
    + split; intros H.
      * apply lang_alt_inv in H as [H|H].
        -- apply lang_cat_inv in H as (s1 & s2 & -> & Ha & Hb).
           apply lang_cat_cons; [by apply IH1 | done].
        -- rewrite <- (append_nil_l (String c s)).
           constructor; [by apply nullable_lang | by apply IH2].
      * apply lang_cat_inv in H as (s1 & s2 & Heq & Ha & Hb). symmetry in Heq.
        apply append_eq_cons in Heq as [[-> ->] | (a' & -> & ->)].
        -- apply lang_alt_r. by apply IH2.
        -- apply lang_alt_l. constructor; [by apply IH1 | done].
    + split; intros H.
      * apply lang_cat_inv in H as (s1 & s2 & -> & Ha & Hb).
        apply lang_cat_cons; [by apply IH1 | done].
      * apply lang_cat_inv in H as (s1 & s2 & Heq & Ha & Hb). symmetry in Heq.
        apply append_eq_cons in Heq as [[-> ->] | (a' & -> & ->)].
        -- apply nullable_lang in Ha. congruence.
        -- constructor; [by apply IH1 | done].
  - split; intros H; apply lang_alt_inv in H as [H|H].
    + apply lang_alt_l. by apply IH1.
    + apply lang_alt_r. by apply IH2.
    + apply lang_alt_l. by apply IH1.
    + apply lang_alt_r. by apply IH2.
  - split; intros H.
    + apply lang_cat_inv in H as (s1 & s2 & -> & Ha & Hb).
      rewrite <- append_cons. constructor; [by apply IH1 | done].
    + apply lang_star_cons_inv in H as (s1 & s2 & -> & Ha & Hb).
      constructor; [by apply IH1 | done].
Qed.

Lemma matches_lang r s : matches r s = true ↔ lang r s.
Proof.
  revert r. induction s as [|c s IH]; intros r; simpl.
  - apply nullable_lang.
  - rewrite IH. apply deriv_lang.
Qed.

End regex.

(** ** Phone numbers *)

Section phone.
Import Regex.

Lemma lang_cls_cat p r s :
  lang (Cat (Cls p) r) s ↔ ∃ c s', s = String c s' ∧ p c = true ∧ lang r s'.
Proof.
  split.
  - intros H. apply lang_cat_inv in H as (s1 & s2 & -> & H1 & H2).
    apply lang_cls_inv in H1 as (c & -> & Hp). eauto.
  - intros (c & s' & -> & Hp & H).
    change (String c s') with (String c "" +:+ s'). constructor; [by constructor | done].
Qed.

Lemma append_assoc (a b c : string) : (a +:+ b) +:+ c = a +:+ (b +:+ c).
Proof. induction a as [|x a IH]; [done|]. by rewrite !append_cons, IH. Qed.

Lemma lang_cat_assoc r1 r2 r3 s :
  lang (Cat (Cat r1 r2) r3) s ↔ lang (Cat r1 (Cat r2 r3)) s.
Proof.
  split; intros H.
  - apply lang_cat_inv in H as (s12 & s3 & -> & H12 & H3).
    apply lang_cat_inv in H12 as (s1 & s2 & -> & H1 & H2).
    rewrite append_assoc. by repeat constructor.
  - apply lang_cat_inv in H as (s1 & s23 & -> & H1 & H23).
    apply lang_cat_inv in H23 as (s2 & s3 & -> & H2 & H3).
    rewrite <- append_assoc. by repeat constructor.
Qed.

Lemma lang_eps_cat r s : lang (Cat Eps r) s ↔ lang r s.
Proof.
  split; intros H.
  - apply lang_cat_inv in H as (s1 & s2 & -> & H1 & H2).
    by apply lang_eps_inv in H1 as ->.
  - rewrite <- (append_nil_l s). by repeat constructor.
Qed.

Lemma lang_cat_eps r s : lang (Cat r Eps) s ↔ lang r s.
Proof.
  split; intros H.
  - apply lang_cat_inv in H as (s1 & s2 & -> & H1 & H2).
    apply lang_eps_inv in H2 as ->. by rewrite append_nil_r.
  - rewrite <- (append_nil_r s). by repeat constructor.
Qed.

Lemma lang_rep_digit n s :
  lang (Rep n Digit) s
  ↔ String.length s = n ∧ PyStr.forallb_str PyStr.isdecimal_char s = true.
Proof.
  revert s. induction n as [|n IH]; intros s; simpl.
  - split.
    + intros H. by apply lang_eps_inv in H as ->.
    + intros [Hl _]. destruct s; [constructor | done].
  - unfold Digit at 1. rewrite lang_cls_cat. split.
    + intros (c & s' & -> & Hc & H). apply IH in H as [<- H].
      simpl. by rewrite Hc, H.
    + intros [Hl Hf]. destruct s as [|c s']; [done|]. simpl in *.
      apply andb_true_iff in Hf as [Hc Hf].
      exists c, s'. split_and!; [done..|]. apply IH. split; [lia | done].
Qed.

Lemma lang_phone_re s : lang Customer.phone_re s ↔ canonical_phone s = true.
Proof.
  unfold Customer.phone_re. cbn [Lit].
  rewrite !lang_cat_assoc. unfold Chr. rewrite !lang_cls_cat.
  split.
  - intros (a & s1 & -> & Ha & H). rewrite lang_cat_assoc, lang_cls_cat in H.
    destruct H as (b & s2 & -> & Hb & H). rewrite lang_cat_assoc, lang_cls_cat in H.
    destruct H as (c & s3 & -> & Hc & H). rewrite lang_cat_assoc, lang_cls_cat in H.
    destruct H as (d & s4 & -> & Hd & H). rewrite lang_cat_assoc, lang_cls_cat in H.
    destruct H as (e & s5 & -> & He & H). rewrite lang_eps_cat, lang_cls_cat in H.
    destruct H as (f & s6 & -> & Hf & H). apply lang_rep_digit in H as [Hl Hall].
    cbn [canonical_phone]. unfold PyStr.len. rewrite Hl, Hall, Hf.
    rewrite (Ascii.eqb_sym a), (Ascii.eqb_sym b), (Ascii.eqb_sym c),
      (Ascii.eqb_sym d), (Ascii.eqb_sym e), Ha, Hb, Hc, Hd, He. done.
  - destruct s as [|a [|b [|c [|d [|e [|f rest]]]]]]; try done.
    cbn [canonical_phone]. rewrite !andb_true_iff.
    intros [[[[[[[Ha Hb] Hc] Hd] He] Hf] Hl] Hall].
    exists a, (String b (String c (String d (String e (String f rest))))).
    split_and!; [done | by rewrite Ascii.eqb_sym |].
    rewrite lang_cat_assoc, lang_cls_cat. eexists _, _.
    split_and!; [done | by rewrite Ascii.eqb_sym |].
    rewrite lang_cat_assoc, lang_cls_cat. eexists _, _.
    split_and!; [done | by rewrite Ascii.eqb_sym |].
    rewrite lang_cat_assoc, lang_cls_cat. eexists _, _.
    split_and!; [done | by rewrite Ascii.eqb_sym |].
    rewrite lang_cat_assoc, lang_cls_cat. eexists _, _.
    split_and!; [done | by rewrite Ascii.eqb_sym |].
    rewrite lang_eps_cat, lang_cls_cat. eexists _, _.
    split_and!; [done | done |].
    apply lang_rep_digit. split; [|done]. unfold PyStr.len in Hl. lia.
Qed.

Lemma contains_char_append c (a b : string) :
  PyStr.contains_char c (a +:+ b) = PyStr.contains_char c a || PyStr.contains_char c b.
Proof.
  unfold PyStr.contains_char. induction a as [|x a IH]; [done|].
  rewrite append_cons. simpl. by rewrite IH, orb_assoc.
Qed.

(** On a string without a newline, [$] can only match at the end. *)
Lemma re_match_no_newline r s :
  PyStr.contains_char newline s = false → re_match r s = matches r s.
Proof.
  intros Hnl. apply eq_true_iff_eq. unfold re_match. rewrite !matches_lang. split.
  - intros H. apply lang_cat_inv in H as (s1 & s2 & -> & H1 & H2).
    apply lang_alt_inv in H2 as [H2|H2].
    + apply lang_cls_inv in H2 as (c & -> & Hc). apply Ascii.eqb_eq in Hc as <-.
      rewrite contains_char_append in Hnl. apply orb_false_iff in Hnl as [_ Hnl].
      discriminate.
    + apply lang_eps_inv in H2 as ->. by rewrite append_nil_r.
  - intros H. rewrite <- (append_nil_r s). constructor; [done|].
    apply lang_alt_r. constructor.
Qed.

Lemma clean_phone_chars p : PyStr.forallb_str phone_char (Customer.clean_phone p) = true.
Proof.
  unfold Customer.clean_phone. fold phone_char.
  induction p as [|c p IH]; [done|]. simpl.
  destruct (phone_char c) eqn:Ec; [|done]. simpl. by rewrite Ec, IH.
Qed.

Lemma phone_chars_no_newline s :
  PyStr.forallb_str phone_char s = true → PyStr.contains_char newline s = false.
Proof.
  unfold PyStr.contains_char. induction s as [|c s IH]; [done|]. simpl.
  intros [Hc Hs]%andb_true_iff. rewrite (IH Hs), orb_false_r.
  destruct (Ascii.eqb newline c) eqn:E; [|done].
  apply Ascii.eqb_eq in E as <-. discriminate.
Qed.

Lemma clean_phone_digits p :
  PyStr.forallb_str PyStr.isdecimal_char p = true → Customer.clean_phone p = p.
Proof.
  unfold Customer.clean_phone. induction p as [|c p IH]; [done|]. simpl.
  intros [Hc Hp]%andb_true_iff. by rewrite Hc, (IH Hp).
Qed.

Lemma normalized_phone_chars p :
  PyStr.forallb_str phone_char (normalized_phone p) = true.
Proof.
  unfold normalized_phone. pose proof (clean_phone_chars p) as H.
  destruct (_ && _); [|done].
  destruct (Customer.clean_phone p) as [|c s]; [done|].
  simpl in H. apply andb_true_iff in H as [_ H].
  cbn [PyStr.tail]. rewrite !append_cons, append_nil_l.
  cbn [PyStr.forallb_str]. by rewrite H.
Qed.

Lemma validate_phone_spec p :
  Customer.validate_phone (Some p)
  = if negb (PyStr.truthy p) then Ok None
    else if canonical_phone (normalized_phone p) then Ok (Some (normalized_phone p))
    else Raise InvalidPhoneError.
Proof.
  unfold Customer.validate_phone. destruct (negb (PyStr.truthy p)); [done|].
  fold (normalized_phone p).
  rewrite re_match_no_newline
    by apply phone_chars_no_newline, normalized_phone_chars.
  assert (matches Customer.phone_re (normalized_phone p)
          = canonical_phone (normalized_phone p)) as ->.
  { apply eq_true_iff_eq. rewrite matches_lang. apply lang_phone_re. }
  by destruct (canonical_phone _).
Qed.

Lemma canonical_phone_shape r :
  canonical_phone r = true → String.prefix "+254" r = true ∧ PyStr.len r = 13%Z.
Proof.
  destruct r as [|a [|b [|c [|d [|e [|f rest]]]]]]; try done.
  cbn [canonical_phone]. rewrite !andb_true_iff.
  intros [[[[[[[Ha Hb] Hc] Hd] He] Hf] Hl] Hall].
  apply Ascii.eqb_eq in Ha as ->, Hb as ->, Hc as ->, Hd as ->.
  split; [done|]. unfold PyStr.len in *. simpl String.length. lia.
Qed.

Lemma network_digit_decimal f :
  Customer.network_digit f = true → PyStr.isdecimal_char f = true.
Proof. destruct f as [[] [] [] [] [] [] [] []]; by vm_compute. Qed.

Lemma canonical_phone_plus r :
  canonical_phone r = true → PyStr.startswith_char "+" r = true.
Proof.
  destruct r as [|a [|b [|c [|d [|e [|f rest]]]]]]; try done.
  cbn [canonical_phone]. rewrite !andb_true_iff.
  intros [[[[[[[Ha _] _] _] _] _] _] _]. apply Ascii.eqb_eq in Ha as ->. done.
Qed.

Lemma startswith_plus_not_zero r :
  PyStr.startswith_char "+" r = true → PyStr.startswith_char "0" r = false.
Proof.
  destruct r as [|a r]; [done|]. cbn [PyStr.startswith_char].
  intros <-%Ascii.eqb_eq. done.
Qed.

Lemma startswith_digit_not_plus r :
  PyStr.forallb_str PyStr.isdecimal_char r = true → PyStr.startswith_char "+" r = false.
Proof.
  destruct r as [|a r]; [done|]. cbn [PyStr.forallb_str PyStr.startswith_char].
  intros [Ha _]%andb_true_iff. destruct (Ascii.eqb_spec "+" a) as [<-|]; [done|done].
Qed.

Lemma canonical_phone_tail t :
  canonical_phone ("+254" +:+ t) = true →
  PyStr.forallb_str PyStr.isdecimal_char t = true ∧ PyStr.len t = 9%Z.
Proof.
  change ("+254" +:+ t) with (String "+" (String "2" (String "5" (String "4" t)))).
  destruct t as [|e [|f rest]]; try done.
  cbn [canonical_phone]. rewrite !andb_true_iff.
  intros [[[[[[[_ _] _] _] He] Hf] Hl] Hall]. apply Ascii.eqb_eq in He as ->.
  apply network_digit_decimal in Hf. apply Z.eqb_eq in Hl.
  cbn [PyStr.forallb_str]. rewrite Hf, Hall. split; [done|].
  unfold PyStr.len in *. cbn [String.length]. lia.
Qed.

(** The inputs that are accepted, by their cleaned form. *)
Lemma canonical_normalized p :
  canonical_phone (normalized_phone p) = true
  ↔ canonical_phone (Customer.clean_phone p) = true
    ∨ (ten_digits_leading_zero (Customer.clean_phone p) = true
       ∧ canonical_phone ("+254" +:+ PyStr.tail (Customer.clean_phone p)) = true).
Proof.
  unfold normalized_phone, ten_digits_leading_zero.
  destruct (PyStr.startswith_char "0" (Customer.clean_phone p)) eqn:E0;
    cbn [andb]; [|rewrite andb_false_r; by intuition].
  destruct (Z.eqb_spec (PyStr.len (Customer.clean_phone p)) 10%Z) as [Hl|Hl];
    cbn [andb]; [|by intuition].
  split.
  - intros Hc. right. split; [|done].
    destruct (canonical_phone_tail _ Hc) as [Hd _].
    destruct (Customer.clean_phone p) as [|a t]; [done|].
    cbn [PyStr.startswith_char] in E0. apply Ascii.eqb_eq in E0 as <-.
    cbn [PyStr.tail] in Hd. cbn [PyStr.forallb_str]. by rewrite Hd.
  - intros [Hc | [_ Hc]]; [|done].
    apply canonical_phone_plus, startswith_plus_not_zero in Hc. congruence.
Qed.

(** C4, amended. Normalization removes every character other than
    digits and [+]. It accepts the result when that is canonical ([+254],
    [7], a digit other than 3, 5 and 6, seven digits: 13 characters), and
    it accepts a result of 10 digits with a leading zero when replacing
    the zero by [+254] gives the canonical form, which it then returns;
    every other non-empty input raises the invalid-phone failure, and the
    empty string gives no phone number, without a failure. So a
    10-character all-digit number with a leading zero is accepted exactly
    when it reads [07], a digit other than 3, 5 and 6, seven digits; an
    all-digit number of any other shape is rejected; whatever is
    accepted is returned in the canonical form; and a number already
    canonical is accepted as it is. *)
Theorem phone_normalization (p : string) :
  (ten_digits_leading_zero p = true →
   Customer.validate_phone (Some p)
   = if canonical_phone ("+254" +:+ PyStr.tail p)
     then Ok (Some ("+254" +:+ PyStr.tail p))
     else Raise InvalidPhoneError)
  ∧ (∀ r, Customer.validate_phone (Some p) = Ok (Some r) →
          canonical_phone r = true ∧ String.prefix "+254" r = true
          ∧ PyStr.len r = 13%Z)
  ∧ (canonical_phone p = true → Customer.validate_phone (Some p) = Ok (Some p))
  ∧ (Customer.validate_phone (Some p) = Ok None ↔ p = ""%string)
  ∧ (p ≠ ""%string →
     Customer.validate_phone (Some p)
     = if canonical_phone (Customer.clean_phone p)
       then Ok (Some (Customer.clean_phone p))
       else if ten_digits_leading_zero (Customer.clean_phone p)
               && canonical_phone ("+254" +:+ PyStr.tail (Customer.clean_phone p))
            then Ok (Some ("+254" +:+ PyStr.tail (Customer.clean_phone p)))
            else Raise InvalidPhoneError)
  ∧ ((∃ r, Customer.validate_phone (Some p) = Ok (Some r))
     ↔ canonical_phone (Customer.clean_phone p) = true
       ∨ (ten_digits_leading_zero (Customer.clean_phone p) = true
          ∧ canonical_phone ("+254" +:+ PyStr.tail (Customer.clean_phone p)) = true))
  ∧ (PyStr.forallb_str PyStr.isdecimal_char p = true → p ≠ ""%string →
     ten_digits_leading_zero p = false →
     Customer.validate_phone (Some p) = Raise InvalidPhoneError).
Proof.
  assert (Hexact : p ≠ ""%string →
     Customer.validate_phone (Some p)
     = if canonical_phone (Customer.clean_phone p)
       then Ok (Some (Customer.clean_phone p))
       else if ten_digits_leading_zero (Customer.clean_phone p)
               && canonical_phone ("+254" +:+ PyStr.tail (Customer.clean_phone p))
            then Ok (Some ("+254" +:+ PyStr.tail (Customer.clean_phone p)))
            else Raise InvalidPhoneError).
  { intros Hne. rewrite validate_phone_spec.
    destruct p as [|a p']; [done|]. cbn [PyStr.truthy negb]. set (q := String a p').
    pose proof (canonical_normalized q) as Hn.
    destruct (canonical_phone (Customer.clean_phone q)) eqn:Ec.
    - assert (normalized_phone q = Customer.clean_phone q) as Hq.
      { unfold normalized_phone.
        by rewrite (startswith_plus_not_zero _ (canonical_phone_plus _ Ec)). }
      by rewrite Hq, Ec.
    - destruct (ten_digits_leading_zero (Customer.clean_phone q)) eqn:Et; cbn [andb].
      + assert (normalized_phone q = "+254" +:+ PyStr.tail (Customer.clean_phone q)) as Hq.
        { unfold normalized_phone. unfold ten_digits_leading_zero in Et.
          apply andb_true_iff in Et as [[Hl _]%andb_true_iff H0]. by rewrite H0, Hl. }
        by rewrite Hq.
      + destruct (canonical_phone (normalized_phone q)) eqn:En; [|done].
        destruct (proj1 Hn eq_refl) as [?|[? _]]; done. }
  rewrite validate_phone_spec in *. split_and!.
  - unfold ten_digits_leading_zero. rewrite !andb_true_iff.
    intros [[Hl Hd] H0]. unfold normalized_phone.
    rewrite (clean_phone_digits p Hd), H0, Hl.
    destruct p; [done|]. done.
  - intros r. destruct (negb (PyStr.truthy p)); [done|].
    destruct (canonical_phone (normalized_phone p)) eqn:Ec; [|done].
    intros [= <-]. split; [done|]. by apply canonical_phone_shape.
  - intros Hc. assert (normalized_phone p = p) as Hn.
    { destruct p as [|a [|b [|c [|d [|e [|f rest]]]]]]; try done.
      cbn [canonical_phone] in Hc. rewrite !andb_true_iff in Hc.
      destruct Hc as [[[[[[[Ha Hb] Hc] Hd] He] Hf] Hl] Hall].
      apply Ascii.eqb_eq in Ha as ->, Hb as ->, Hc as ->, Hd as ->, He as ->.
      unfold normalized_phone, Customer.clean_phone. cbn -[Customer.network_digit].
      rewrite (network_digit_decimal f Hf). cbn.
      fold (Customer.clean_phone rest). by rewrite (clean_phone_digits rest Hall). }
    rewrite Hn, Hc. by destruct p.
  - destruct p; [done|]. cbn [PyStr.truthy negb].
    split; [|done]. by destruct (canonical_phone _).
  - done.
  - rewrite <- canonical_normalized. destruct p as [|a p']; [by split; [intros [? ?]|]|].
    cbn [PyStr.truthy negb]. set (q := String a p').
    destruct (canonical_phone (normalized_phone q)); split; try done; [by eauto|].
    by intros [? ?].
  - intros Hd Hne Ht. destruct p as [|a p']; [done|]. cbn [PyStr.truthy negb].
    set (q := String a p') in *.
    assert (normalized_phone q = q) as Hq.
    { unfold normalized_phone. rewrite (clean_phone_digits q Hd).
      unfold ten_digits_leading_zero in Ht. rewrite Hd, andb_true_r in Ht.
      rewrite andb_comm. by rewrite Ht. }
    rewrite Hq. destruct (canonical_phone q) eqn:Ec; [|done].
    apply canonical_phone_plus in Ec. by rewrite startswith_digit_not_plus in Ec.
Qed.
(** C4, counterexample. A 10-digit number with a leading zero that is
    rejected, and a number of another shape that is accepted. *)
Lemma phone_normalization_counterexample :
  ten_digits_leading_zero "0123456789" = true
  ∧ Customer.validate_phone (Some "0123456789"%string) = Raise InvalidPhoneError
  ∧ ten_digits_leading_zero "+254712345678" = false
  ∧ Customer.validate_phone (Some "+254712345678"%string)
    = Ok (Some "+254712345678"%string).
Proof. by vm_compute. Qed.

End phone.

(** ** Soft validation *)

Section validation.

(** C5, amended. For [("x", "bad", "500")] the soft validation of a plan
    returns the price-range error alone: it does not look at the format
    of the speed, which only the model's [validate_speed] rejects. For
    [("basic", "10Mbps", "2500")] it returns no error, and the speed has
    the format the model accepts. Several errors are reported together,
    as for [("", "", "abc")]. *)
Theorem plan_validation_scenarios :
  validate_plan_data "x" "bad" "500" = ["Price must be between KES 2000-100000"%string]
  ∧ Plan.validate_speed "bad" = Raise InvalidSpeedError
  ∧ validate_plan_data "basic" "10Mbps" "2500" = []
  ∧ Plan.validate_speed "10Mbps" = Ok "10Mbps"%string
  ∧ validate_plan_data "" "" "abc"
    = ["Plan name is required"; "Speed description is required";
       "Invalid price format"]%string.
Proof. by vm_compute. Qed.

(** C5, counterexample. For [("x", "bad", "500")] the list holds no error
    other than the price-range error, so none about the speed. *)
Lemma plan_validation_counterexample :
  ¬ ∃ e : string, e ∈ validate_plan_data "x" "bad" "500"
                  ∧ e ≠ "Price must be between KES 2000-100000"%string.
Proof.
  intros (e & He & Hne).
  replace (validate_plan_data "x" "bad" "500")
    with ["Price must be between KES 2000-100000"%string] in He by by vm_compute.
  apply list_elem_of_singleton in He. done.
Qed.

Lemma contains_char_truthy c s : PyStr.contains_char c s = true → PyStr.truthy s = true.
Proof. by destruct s. Qed.

(** C6, amended. The soft validation of a customer returns no error
    exactly when the name is not empty, the email contains [@], and the
    router identifier is 10 digit characters; it returns an error whenever
    the email has no [@]. It does not look for a dot-separated domain. *)
Theorem customer_validation (name email router_id : string) :
  (validate_customer_data name email router_id = []
   ↔ name ≠ ""%string ∧ PyStr.contains_char "@" email = true
     ∧ PyStr.isdigit router_id = true ∧ PyStr.len router_id = 10%Z)
  ∧ (PyStr.contains_char "@" email = false →
     validate_customer_data name email router_id ≠ []).
Proof.
  unfold validate_customer_data.
  destruct (PyStr.contains_char "@" email) eqn:Eat.
  - rewrite (contains_char_truthy _ _ Eat). cbn [negb orb].
    split; [|done].
    destruct name as [|c name]; cbn [PyStr.truthy negb app].
    + split; [|by intros [? _]].
      destruct (_ || _); discriminate.
    + destruct (PyStr.isdigit router_id); cbn [negb orb app].
      * destruct (Z.eqb_spec (PyStr.len router_id) 10); cbn [negb app].
        -- done.
        -- split; [done|]. intros (_ & _ & _ & ?). done.
      * split; [done|]. intros (_ & _ & ? & _). done.
  - rewrite orb_true_r. split.
    + split; [|by intros (_ & ? & _)].
      destruct (negb (PyStr.truthy name)), (_ || _); discriminate.
    + intros _. destruct (negb (PyStr.truthy name)), (_ || _); discriminate.
Qed.

(** C6, counterexample. An email without a dot-separated domain passes
    the soft validation. *)
Lemma customer_validation_counterexample :
  validate_customer_data "John Doe" "john@localhost" "1234567890" = []
  ∧ dot_after_at "john@localhost" = false.
Proof. by vm_compute. Qed.

End validation.

(** ** The order of dates *)

Section date_order.
Local Open Scope Z_scope.

Ltac date_cases :=
  unfold date_leb, date_ltb, date_eqb;
  repeat match goal with
         | |- context [?a <? ?b] => destruct (Z.ltb_spec a b)
         | |- context [?a =? ?b] => destruct (Z.eqb_spec a b)
         end; cbn [andb orb negb]; try reflexivity; try lia; auto.

Lemma date_ltb_leb a b : date_ltb a b = negb (date_leb b a).
Proof. date_cases. Qed.

Lemma date_leb_total a b : date_leb a b = true ∨ date_leb b a = true.
Proof. date_cases. Qed.

Lemma date_leb_refl a : date_leb a a = true.
Proof. date_cases. Qed.

Lemma date_ltb_irrefl a : date_ltb a a = false.
Proof. rewrite date_ltb_leb. by rewrite date_leb_refl. Qed.

Global Instance start_date_le_total : Total start_date_le.
Proof. intros a b. apply date_leb_total. Qed.

End date_order.

(** ** Listing by status *)

Section listing.

Lemma elem_of_list_subscriptions_query d status today i s :
  (i, s) ∈ list_subscriptions_query d status today
  ↔ subscriptions d !! i = Some s
    ∧ SQL.is_true (list_where status today s) = true.
Proof.
  unfold list_subscriptions_query, order_by_start_date, rows.
  rewrite merge_sort_Permutation, list_elem_of_In, filter_In, <- list_elem_of_In.
  by rewrite elem_of_map_to_list.
Qed.

Lemma NoDup_filter_bool {A} (f : A → bool) (l : list A) :
  NoDup l → NoDup (List.filter f l).
Proof.
  induction 1 as [|x l Hx Hl IH]; simpl; [constructor|].
  destruct (f x); [|done]. constructor; [|done].
  rewrite list_elem_of_In, filter_In, <- list_elem_of_In. by intros [? _].
Qed.

Lemma status_is_active s :
  Subscription.status_is "active" s = true ↔ Subscription.status s = Some "active"%string.
Proof.
  unfold Subscription.status_is. destruct (Subscription.status s) as [st|]; [|done].
  rewrite String.eqb_eq. split; congruence.
Qed.

Lemma list_where_active today s :
  SQL.is_true (list_where "active" today s) = Subscription.is_active today s.
Proof.
  unfold list_where, Subscription.is_active, Subscription.status_is.
  change (String.eqb "active" "active") with true. cbv iota.
  unfold SQL.eq_str, SQL.is_null, SQL.ge_date, SQL.cmp.
  destruct (Subscription.status s) as [st|], (Subscription.end_date s) as [e|];
    try done.
  - by destruct (String.eqb st "active"), (date_leb today e).
  - by destruct (String.eqb st "active").
  - by destruct (date_leb today e).
Qed.

Lemma list_where_expired today s :
  SQL.is_true (list_where "expired" today s)
  = Subscription.status_is "active" s
    && match Subscription.end_date s with
       | Some e => date_ltb e today
       | None => false
       end.
Proof.
  unfold list_where, Subscription.status_is.
  change (String.eqb "expired" "active") with false.
  change (String.eqb "expired" "expired") with true. cbv iota.
  unfold SQL.eq_str, SQL.lt_date, SQL.cmp.
  destruct (Subscription.status s) as [st|], (Subscription.end_date s) as [e|];
    try done.
  - by destruct (String.eqb st "active"), (date_ltb e today).
  - by destruct (String.eqb st "active").
  - by destruct (date_ltb e today).
Qed.

(** The rows are printed one after the other: printing completes when
    every row has its customer and its plan, and raises at the first row
    that lacks one. *)
Lemma print_all_Ok d l :
  (∀ r, r ∈ l → is_Some (subscription_customer d r.2) ∧ is_Some (subscription_plan d r.2)) →
  print_all d l = Ok ().
Proof.
  induction l as [|r l IH]; intros Hl; [done|].
  cbn [print_all]. unfold print_subscription.
  destruct (Hl r) as [[c Hc] [p Hp]]; [by left|].
  unfold subscription_customer, subscription_plan in Hc, Hp. rewrite Hc, Hp.
  cbn. apply IH. intros r' Hin. apply Hl. by right.
Qed.

Lemma print_all_Raise d l r :
  r ∈ l →
  ¬ (is_Some (subscription_customer d r.2) ∧ is_Some (subscription_plan d r.2)) →
  print_all d l = Raise AttributeError.
Proof.
  induction l as [|r0 l IH]; intros Hin Hno; [by apply elem_of_nil in Hin|].
  cbn [print_all]. unfold print_subscription.
  destruct (Subscription.customer_id r0.2 ≫= (customers d !!.)) as [c|] eqn:Ec; [|done].
  destruct (Subscription.plan_id r0.2 ≫= (plans d !!.)) as [p|] eqn:Ep; [|done].
  cbn. apply elem_of_cons in Hin as [-> | Hin]; [|by apply IH].
  destruct Hno. unfold subscription_customer, subscription_plan. rewrite Ec, Ep. eauto.
Qed.

(** C7, amended. The query of [list_subscriptions] with the filter
    [active] returns exactly the stored subscriptions whose status is
    [active] and that have no end date or an end date not before today,
    so none whose end date is strictly before today; with the filter
    [expired] it returns exactly those whose status is [active] and
    whose end date is strictly before today. Each row is returned once,
    and the rows come ordered by start date. The handler goes on to print
    the name of the customer and of the plan of each row: when every row
    of the query has both, [list_subscriptions] lists exactly the rows
    of the query; when a row lacks one, it raises [AttributeError] and
    lists nothing. *)
Theorem list_by_status (d : db) (today : date) (i : Z) (s : Subscription.t) :
  ((i, s) ∈ list_subscriptions_query d "active" today
   ↔ subscriptions d !! i = Some s
     ∧ Subscription.status s = Some "active"%string
     ∧ (Subscription.end_date s = None
        ∨ ∃ e, Subscription.end_date s = Some e ∧ date_leb today e = true))
  ∧ ((i, s) ∈ list_subscriptions_query d "active" today →
     ∀ e, Subscription.end_date s = Some e → date_ltb e today = false)
  ∧ ((i, s) ∈ list_subscriptions_query d "expired" today
     ↔ subscriptions d !! i = Some s
       ∧ Subscription.status s = Some "active"%string
       ∧ ∃ e, Subscription.end_date s = Some e ∧ date_ltb e today = true)
  ∧ (∀ status, NoDup (list_subscriptions_query d status today)
               ∧ Sorted start_date_le (list_subscriptions_query d status today)
               ∧ ∀ l, list_subscriptions d status today = Ok l →
                      l = list_subscriptions_query d status today)
  ∧ (∀ status,
       (∀ j r, (j, r) ∈ list_subscriptions_query d status today →
               is_Some (subscription_customer d r) ∧ is_Some (subscription_plan d r)) →
       list_subscriptions d status today = Ok (list_subscriptions_query d status today))
  ∧ (∀ status j r,
       (j, r) ∈ list_subscriptions_query d status today →
       ¬ (is_Some (subscription_customer d r) ∧ is_Some (subscription_plan d r)) →
       list_subscriptions d status today = Raise AttributeError).
Proof.
  rewrite !elem_of_list_subscriptions_query, list_where_active, list_where_expired.
  unfold Subscription.is_active. rewrite !andb_true_iff, status_is_active.
  split_and!.
  - split; intros (Hs & Hst & He); (split_and!; [done..|]).
    + destruct (Subscription.end_date s) as [e|]; [right; eauto | by left].
    + destruct He as [-> | (e & -> & He)]; done.
  - intros (_ & _ & He) e Hend. rewrite Hend in He.
    by rewrite date_ltb_leb, He.
  - split; intros (Hs & Hst & He); (split_and!; [done..|]).
    + destruct (Subscription.end_date s) as [e|]; [eauto | done].
    + by destruct He as (e & -> & He).
  - intros status. split_and!.
    + unfold list_subscriptions_query, order_by_start_date.
      rewrite merge_sort_Permutation. apply NoDup_filter_bool, NoDup_map_to_list.
    + apply (Sorted_merge_sort _).
    + intros l. unfold list_subscriptions.
      destruct (print_all d _); cbn; [by intros [= <-] | done].
  - intros status Hparents. unfold list_subscriptions.
    rewrite print_all_Ok; [done|]. intros [j r] Hin. by apply (Hparents j).
  - intros status j r Hin Hno. unfold list_subscriptions.
    by rewrite (print_all_Raise d _ (j, r)).
Qed.

(** C7, at a store whose subscription has its customer and its plan. *)
Lemma list_by_status_witness :
  list_subscriptions (subscribed_db (mkdate 2024 2 15)) "active" jan_31
  = Ok (list_subscriptions_query (subscribed_db (mkdate 2024 2 15)) "active" jan_31).
Proof.
  apply (list_by_status (subscribed_db (mkdate 2024 2 15)) jan_31 1%Z
           (john_subscription (mkdate 2024 2 15))).
  intros j r [Hl _]%elem_of_list_subscriptions_query.
  cbn [subscribed_db subscriptions] in Hl. apply lookup_singleton_Some in Hl as [_ <-].
  split; eexists; by vm_compute.
Defined.

(** C7, counterexample. An active subscription without a customer is
    selected by the [active] filter, and the listing raises instead of
    returning it. *)
Lemma list_by_status_counterexample :
  list_subscriptions_query orphan_db "active" jan_15 = [(1%Z, orphan_subscription)]
  ∧ Subscription.status orphan_subscription = Some "active"%string
  ∧ Subscription.end_date orphan_subscription = None
  ∧ subscription_customer orphan_db orphan_subscription = None
  ∧ list_subscriptions orphan_db "active" jan_15 = Raise AttributeError.
Proof. by vm_compute. Qed.

(** The listing completes when every subscription has its customer and
    its plan, whose names it prints. *)
Lemma list_subscriptions_completes (d : db) (status : string) (today : date) :
  (∀ i s, subscriptions d !! i = Some s →
          is_Some (subscription_customer d s) ∧ is_Some (subscription_plan d s)) →
  list_subscriptions d status today = Ok (list_subscriptions_query d status today).
Proof.
  intros Hparents. unfold list_subscriptions.
  assert (∀ l, (∀ i s, (i, s) ∈ l → subscriptions d !! i = Some s) →
               print_all d l = Ok ()) as Hall.
  { induction l as [|[i s] l IH]; intros Hl; [done|].
    cbn [print_all]. unfold print_subscription. cbn [snd].
    destruct (Hparents i s) as [[c Hc] [p Hp]]; [apply Hl; by left|].
    unfold subscription_customer, subscription_plan in Hc, Hp. rewrite Hc, Hp.
    cbn. apply IH. intros j s' Hin. apply Hl. by right. }
  rewrite Hall; [done|].
  intros i s Hin. by apply elem_of_list_subscriptions_query in Hin as [? _].
Qed.

(** C10. The method [is_active] of a subscription and the [WHERE] clause
    of the [active] filter, evaluated on the same day, agree: the listing
    returns a stored subscription exactly when [is_active] holds of it. *)
Theorem is_active_agrees_with_filter (today : date) (s : Subscription.t) :
  Subscription.is_active today s = SQL.is_true (list_where "active" today s)
  ∧ ∀ (d : db) (i : Z),
      (i, s) ∈ list_subscriptions_query d "active" today
      ↔ subscriptions d !! i = Some s ∧ Subscription.is_active today s = true.
Proof.
  split; [by rewrite list_where_active|].
  intros d i. by rewrite elem_of_list_subscriptions_query, list_where_active.
Qed.

End listing.

(** ** Handlers: reading input and looking rows up *)

Section io.
Local Open Scope Z_scope.

Lemma io_bind_input_strip {A} (k : string → io A) x ins :
  (input_strip ≫= k) (x :: ins) = k (PyStr.strip x) ins.
Proof. reflexivity. Qed.

Lemma io_bind_lift {A B} (r : result A) (k : A → io B) ins :
  (lift r ≫= k) ins = match r with Ok v => k v ins | Raise e => Raise e end.
Proof. by destruct r. Qed.

Lemma get_if_digit_Some {A} (m : gmap Z A) s k x :
  PyStr.isdigit s = true → PyStr.int s = Ok k → SQL.fits_integer k = true →
  m !! k = Some x → get_if_digit m s = Ok (Some (k, x)).
Proof.
  intros Hd Hi Hf Hl. unfold get_if_digit, get_int, get. by rewrite Hd, Hi, Hf, Hl.
Qed.

Lemma get_int_Some {A} (m : gmap Z A) s k x :
  get_int m s = Ok (Some (k, x))
  ↔ PyStr.int s = Ok k ∧ SQL.fits_integer k = true ∧ m !! k = Some x.
Proof.
  unfold get_int, get. destruct (PyStr.int s) as [k'|]; [|by split; [|intros [? _]]].
  destruct (SQL.fits_integer k') eqn:Ef.
  - destruct (m !! k') as [x'|] eqn:El.
    + split; [by intros [= -> ->]|]. intros ([= ->] & _ & ?). congruence.
    + split; [done|]. intros ([= ->] & _ & ?). congruence.
  - split; [done|]. intros ([= ->] & ? & _). congruence.
Qed.

Lemma int_acc_decimal s acc z :
  PyStr.int_acc acc s = Some z → PyStr.forallb_str PyStr.isdecimal_char s = true.
Proof.
  revert acc. induction s as [|c s IH]; intros acc; simpl; [done|].
  destruct (PyStr.isdecimal_char c); [|done]. intros H. by rewrite (IH _ H).
Qed.

Lemma forallb_str_impl (f g : ascii → bool) s :
  (∀ c, f c = true → g c = true) →
  PyStr.forallb_str f s = true → PyStr.forallb_str g s = true.
Proof.
  intros Hfg. induction s as [|c s IH]; simpl; [done|].
  intros [Hc Hs]%andb_true_iff. by rewrite (Hfg c Hc), IH.
Qed.

Lemma int_isdigit s z : PyStr.int s = Ok z → PyStr.isdigit s = true.
Proof.
  unfold PyStr.int, PyStr.isdigit. destruct s as [|c s]; [done|].
  destruct (PyStr.MAX_STR_DIGITS <? PyStr.len (String c s))%Z; [done|].
  destruct (PyStr.int_acc 0 (String c s)) as [z'|] eqn:E; [|done]. intros _.
  cbn [PyStr.truthy andb]. apply int_acc_decimal in E.
  revert E. apply forallb_str_impl. intros x Hx. unfold PyStr.isdigit_char.
  by rewrite Hx.
Qed.

Lemma lookup_rows_nonempty {A} (m : gmap Z A) k x :
  m !! k = Some x → bool_decide (rows m = []) = false.
Proof.
  intros H. apply bool_decide_eq_false. intros Hnil.
  apply elem_of_map_to_list in H. unfold rows in Hnil. rewrite Hnil in H.
  by apply elem_of_nil in H.
Qed.

End io.

(** ** Deleting a plan *)

Section delete_plan.
Local Open Scope Z_scope.

(** C3, evaluated. When the typed identifier denotes an existing plan,
    [delete_plan] answers that the plan cannot be deleted and leaves the
    store as it is, whether the plan has subscriptions or not:
    [plan.subscriptions] is a dynamic-loader query object and is always
    true in [if plan.subscriptions:]. The rejection of a plan with
    subscriptions holds; the deletion of a plan without any is never
    reached. *)
Theorem delete_plan_always_rejects (d : db) (plan_id confirm : string) (k : Z) (p : Plan.t) :
  PyStr.isdigit (PyStr.strip plan_id) = true →
  PyStr.int (PyStr.strip plan_id) = Ok k →
  SQL.fits_integer k = true →
  plans d !! k = Some p →
  run (delete_plan d) [plan_id; confirm] = Ok (CannotDelete, d).
Proof.
  intros Hd Hi Hf Hl. unfold run, delete_plan, delete_plan_with.
  rewrite io_bind_input_strip, io_bind_lift.
  by rewrite (get_if_digit_Some _ _ _ _ Hd Hi Hf Hl).
Qed.

(** A plan without subscriptions, and the operator confirming with [y]. *)
Lemma delete_plan_always_rejects_witness :
  subscriptions_of_plan sample_db 1 = []
  ∧ run (delete_plan sample_db) ["1"; "y"]%string = Ok (CannotDelete, sample_db).
Proof.
  split; [by vm_compute|].
  apply (delete_plan_always_rejects sample_db "1" "y" 1 basic_plan); by vm_compute.
Defined.

(** With a list-loaded relationship the same handler would do what the
    claim says. *)
Lemma delete_plan_with_select (d : db) (plan_id confirm : string) (k : Z) (p : Plan.t) :
  PyStr.isdigit (PyStr.strip plan_id) = true →
  PyStr.int (PyStr.strip plan_id) = Ok k →
  SQL.fits_integer k = true →
  plans d !! k = Some p →
  (subscriptions_of_plan d k ≠ [] →
   run (delete_plan_with ORM.lazy_select d) [plan_id; confirm] = Ok (CannotDelete, d))
  ∧ (subscriptions_of_plan d k = [] →
     PyStr.lower (PyStr.strip confirm) = "y"%string →
     ∃ d', run (delete_plan_with ORM.lazy_select d) [plan_id; confirm]
           = Ok (PlanDeleted, d')
           ∧ plans d' = delete k (plans d)).
Proof.
  intros Hd Hi Hf Hl. unfold run, delete_plan_with.
  rewrite io_bind_input_strip, io_bind_lift.
  rewrite (get_if_digit_Some _ _ _ _ Hd Hi Hf Hl).
  unfold plan_subscriptions, ORM.load, ORM.truthy. split.
  - intros Hne. by rewrite bool_decide_eq_false_2.
  - intros He Hy. rewrite bool_decide_eq_true_2 by done. cbn [negb].
    rewrite io_bind_input_strip, Hy. cbn. eauto.
Qed.

End delete_plan.

(** ** Integers as decimal text *)

Section decimal.
Local Open Scope Z_scope.

Lemma string_snoc_inv (s : string) :
  s ≠ ""%string → ∃ s' c, s = s' +:+ String c "".
Proof.
  induction s as [|a s IH]; [done|]. intros _.
  destruct s as [|b s].
  - by exists ""%string, a.
  - destruct IH as (s' & c & Hs); [done|].
    exists (String a s'), c. by rewrite append_cons, <- Hs.
Qed.

Lemma length_append (a b : string) :
  String.length (a +:+ b) = (String.length a + String.length b)%nat.
Proof. induction a as [|x a IH]; [done|]. rewrite append_cons. simpl. by rewrite IH. Qed.

Lemma forallb_str_append p (a b : string) :
  PyStr.forallb_str p (a +:+ b) = PyStr.forallb_str p a && PyStr.forallb_str p b.
Proof.
  induction a as [|x a IH]; [done|]. rewrite append_cons. simpl.
  by rewrite IH, andb_assoc.
Qed.

Lemma int_acc_snoc acc s c v :
  PyStr.int_acc acc s = Some v → PyStr.isdecimal_char c = true →
  PyStr.int_acc acc (s +:+ String c "") = Some (10 * v + PyStr.digit_value c).
Proof.
  revert acc. induction s as [|x s IH]; intros acc.
  - intros [= ->] Hc. rewrite append_nil_l. cbn [PyStr.int_acc]. by rewrite Hc.
  - rewrite append_cons. cbn [PyStr.int_acc].
    destruct (PyStr.isdecimal_char x) eqn:Ex; [|done]. intros H Hc. by apply IH.
Qed.

Lemma int_acc_total acc s :
  PyStr.forallb_str PyStr.isdecimal_char s = true → ∃ v, PyStr.int_acc acc s = Some v.
Proof.
  revert acc. induction s as [|x s IH]; intros acc; simpl; [eauto|].
  intros [Hx Hs]%andb_true_iff. rewrite Hx. by apply IH.
Qed.

Lemma digit_value_range c :
  PyStr.isdecimal_char c = true → 0 <= PyStr.digit_value c <= 9.
Proof.
  unfold PyStr.isdecimal_char, PyStr.in_range, PyStr.digit_value.
  intros [H1 H2]%andb_true_iff. apply N.leb_le in H1, H2. lia.
Qed.

Lemma digit_char_value c :
  PyStr.isdecimal_char c = true → PyStr.digit_char (PyStr.digit_value c) = c.
Proof.
  intros Hc. pose proof (digit_value_range c Hc).
  unfold PyStr.digit_char, PyStr.digit_value, PyStr.code in *.
  replace (Z.to_N (48 + (Z.of_N (N_of_ascii c) - 48))) with (N_of_ascii c) by lia.
  apply ascii_N_embedding.
Qed.

(** The value of a digit string that does not start with [0] has as many
    digits as the string. *)
Lemma int_acc_lower_bound s v :
  PyStr.int_acc 0 s = Some v → s ≠ ""%string → PyStr.startswith_char "0" s = false →
  10 ^ (Z.of_nat (String.length s) - 1) <= v.
Proof.
  intros Hv Hne. revert v Hv.
  assert (∀ n s, String.length s = n → s ≠ ""%string →
            ∀ v, PyStr.int_acc 0 s = Some v → PyStr.startswith_char "0" s = false →
                 10 ^ (Z.of_nat n - 1) <= v) as H; [|by apply (H _ s)].
  clear. induction n as [|n IH]; intros s Hlen Hne v Hv H0; [by destruct s|].
  destruct (string_snoc_inv s Hne) as (s' & c & ->).
  rewrite length_append in Hlen. simpl in Hlen.
  pose proof (int_acc_decimal _ _ _ Hv) as Hdec.
  rewrite forallb_str_append in Hdec. apply andb_true_iff in Hdec as [Hdec' Hc].
  simpl in Hc. rewrite andb_true_r in Hc.
  destruct (int_acc_total 0 s' Hdec') as (v' & Hv').
  rewrite (int_acc_snoc _ _ _ _ Hv' Hc) in Hv. injection Hv as <-.
  pose proof (digit_value_range c Hc) as Hrange.
  destruct s' as [|a s'].
  - simpl in Hv'. injection Hv' as <-. simpl in Hlen.
    assert (n = 0%nat) as -> by lia. rewrite append_nil_l in H0.
    simpl in H0. change (10 ^ (Z.of_nat 1 - 1)) with 1.
    assert (PyStr.digit_value c ≠ 0); [|lia].
    intros Hz. unfold PyStr.digit_value, PyStr.code in Hz.
    assert (c = "0"%char) as ->; [|done].
    rewrite <- (ascii_N_embedding c). replace (N_of_ascii c) with 48%N by lia. done.
  - assert (10 ^ (Z.of_nat n - 1) <= v') as Hle.
    { apply (IH (String a s')); [lia|done|done|]. by rewrite append_cons in H0. }
    replace (Z.of_nat (S n) - 1) with (Z.succ (Z.of_nat n - 1)) by lia.
    simpl in Hlen. rewrite Z.pow_succ_r by lia. lia.
Qed.

Lemma str_pos_digits n s v fuel acc :
  String.length s = n → s ≠ ""%string →
  PyStr.int_acc 0 s = Some v → PyStr.startswith_char "0" s = false →
  (n <= fuel)%nat →
  PyStr.str_pos fuel v acc = s +:+ acc.
Proof.
  revert s v fuel acc. induction n as [|n IH]; intros s v fuel acc Hlen Hne Hv H0 Hfuel;
    [by destruct s|].
  destruct fuel as [|fuel]; [lia|].
  destruct (string_snoc_inv s Hne) as (s' & c & ->).
  rewrite length_append in Hlen. simpl in Hlen.
  pose proof (int_acc_decimal _ _ _ Hv) as Hdec.
  rewrite forallb_str_append in Hdec. apply andb_true_iff in Hdec as [Hdec' Hc].
  simpl in Hc. rewrite andb_true_r in Hc.
  destruct (int_acc_total 0 s' Hdec') as (v' & Hv').
  rewrite (int_acc_snoc _ _ _ _ Hv' Hc) in Hv. injection Hv as <-.
  pose proof (digit_value_range c Hc) as Hrange.
  cbn [PyStr.str_pos].
  replace ((10 * v' + PyStr.digit_value c) mod 10) with (PyStr.digit_value c)
    by (Z.div_mod_to_equations; lia).
  replace ((10 * v' + PyStr.digit_value c) / 10) with v'
    by (Z.div_mod_to_equations; lia).
  rewrite (digit_char_value c Hc).
  destruct s' as [|a s'].
  - simpl in Hv'. injection Hv' as <-.
    replace (10 * 0 + PyStr.digit_value c <? 10) with true
      by (symmetry; apply Z.ltb_lt; lia).
    by rewrite append_nil_l.
  - assert (PyStr.startswith_char "0" (String a s') = false) as H0'
      by (by rewrite append_cons in H0).
    assert (1 <= v') as Hv1.
    { pose proof (int_acc_lower_bound (String a s') v' Hv' ltac:(done) H0') as Hb.
      assert (0 < 10 ^ (Z.of_nat (String.length (String a s')) - 1)); [|lia].
      apply Z.pow_pos_nonneg; simpl; lia. }
    replace (10 * v' + PyStr.digit_value c <? 10) with false
      by (symmetry; apply Z.ltb_ge; lia).
    rewrite (IH (String a s') v' fuel); [|lia|done|done|done|lia].
    by rewrite append_assoc.
Qed.

(** Reading a digit string that does not start with [0] as an integer
    and printing the integer gives the string back. *)
Lemma int_acc_str s v :
  PyStr.int_acc 0 s = Some v → s ≠ ""%string →
  PyStr.startswith_char "0" s = false →
  PyStr.str v = s.
Proof.
  intros Hv Hne H0.
  pose proof (int_acc_lower_bound s v Hv Hne H0) as Hb.
  assert (0 < 10 ^ (Z.of_nat (String.length s) - 1)) as Hpos.
  { apply Z.pow_pos_nonneg; [lia|]. destruct s; [done|]. simpl. lia. }
  unfold PyStr.str. replace (v <? 0) with false by (symmetry; apply Z.ltb_ge; lia).
  rewrite (str_pos_digits (String.length s) s v); [apply append_nil_r|done..|].
  assert (Z.of_nat (String.length s) - 1 <= Z.log2 v); [|lia].
  destruct s as [|a s]; [done|].
  transitivity (Z.log2 (2 ^ (Z.of_nat (String.length (String a s)) - 1))).
  - rewrite Z.log2_pow2; [lia|]. simpl. lia.
  - apply Z.log2_le_mono. etrans; [|exact Hb].
    apply Z.pow_le_mono_l. lia.
Qed.

Lemma int_Ok_acc s z :
  PyStr.int s = Ok z
  ↔ s ≠ ""%string ∧ PyStr.len s <= PyStr.MAX_STR_DIGITS ∧ PyStr.int_acc 0 s = Some z.
Proof.
  unfold PyStr.int. destruct s as [|c s]; [by split; [|intros [? _]]|].
  destruct (Z.ltb_spec PyStr.MAX_STR_DIGITS (PyStr.len (String c s))).
  - split; [done|]. intros (_ & ? & _). lia.
  - destruct (PyStr.int_acc 0 (String c s)) as [v|].
    + split; [by intros [= ->] | by intros (_ & _ & [= ->])].
    + split; [done | by intros (_ & _ & ?)].
Qed.

Lemma str_int_roundtrip s :
  PyStr.forallb_str PyStr.isdecimal_char s = true → s ≠ ""%string →
  PyStr.len s <= PyStr.MAX_STR_DIGITS →
  PyStr.startswith_char "0" s = false →
  ∃ z, PyStr.int s = Ok z ∧ PyStr.str z = s.
Proof.
  intros Hdec Hne Hlen H0. destruct (int_acc_total 0 s Hdec) as (v & Hv).
  exists v. split; [by apply int_Ok_acc | by apply int_acc_str].
Qed.

End decimal.

(** ** Creating a customer *)

Section create_customer.
Local Open Scope Z_scope.

(** C9, evaluated. The router identifier [0123456789] passes the soft
    validation and the customer is created, but the identifier is stored
    as the integer 123456789: read back as text it has 9 characters. The
    text read back no longer passes the validation that [update_customer]
    runs on it. *)
Theorem router_id_leading_zero_lost :
  validate_customer_data "John Doe" "john@example.com" "0123456789" = []
  ∧ ∃ d' c,
      run (create_customer (clock_on jan_15) empty_db)
        ["John Doe"; "john@example.com"; ""; "Nairobi"; "0123456789"]%string
      = Ok (Created 1, d')
      ∧ customers d' !! 1 = Some c
      ∧ Customer.router_id c = 123456789
      ∧ PyStr.str (Customer.router_id c) = "123456789"%string
      ∧ PyStr.str (Customer.router_id c) ≠ "0123456789"%string
      ∧ validate_customer_data (Customer.name c) (Customer.email c)
          (PyStr.str (Customer.router_id c))
        = ["Router ID must be 10 digits"%string].
Proof.
  split; [by vm_compute|]. eexists _, _.
  split; [by vm_compute|]. split; [by vm_compute|]. by vm_compute.
Qed.

(** For a router identifier of decimal digits without a leading zero the
    stored integer does read back as the text entered. *)
Lemma create_customer_router_id_read_back clk d name email phone address rid k d' :
  PyStr.forallb_str PyStr.isdecimal_char (PyStr.strip rid) = true →
  PyStr.startswith_char "0" (PyStr.strip rid) = false →
  run (create_customer clk d) [name; email; phone; address; rid]
  = Ok (Created k, d') →
  ∃ c, customers d' !! k = Some c
       ∧ PyStr.str (Customer.router_id c) = PyStr.strip rid.
Proof.
  intros Hdec H0. unfold create_customer, run.
  rewrite !io_bind_input_strip.
  destruct (negb (bool_decide (_ = []))); [done|].
  destruct (PyStr.int (PyStr.strip rid)) as [z|] eqn:Hz;
    cbn [mbind result_bind rbind]; [|done].
  apply int_Ok_acc in Hz as (Hne & _ & Hacc).
  pose proof (int_acc_str _ _ Hacc Hne H0) as Hstr.
  unfold Customer.new. cbn [mbind result_bind rbind].
  destruct (Customer.validate_email _) as [email'|];
    cbn [mbind result_bind rbind]; [|done].
  destruct (Customer.validate_phone _) as [phone'|];
    cbn [mbind result_bind rbind]; [|done].
  unfold insert_customer. cbn [Customer.router_id].
  destruct (negb (SQL.fits_integer z)); [done|].
  destruct (customer_conflict d _); [done|].
  intros [= <- <-]. eexists. split.
  - cbn [set_customers customers]. apply lookup_insert_eq.
  - done.
Qed.

End create_customer.

(** ** The expiring sweep *)

Section sweep.
Local Open Scope Z_scope.

Lemma add_relativedelta_days d n :
  valid_date d → add_relativedelta d (relativedelta_days n) = add_days d n.
Proof.
  intros (Hy & Hm & Hd). unfold add_relativedelta, relativedelta_days.
  change (fix_months (mkrd 0 0 n)) with (mkrd 0 0 n). cbn [years months days].
  unfold carry_months. change (0 =? 0) with true. cbv beta iota.
  rewrite Z.add_0_r, monthrange_ndays_ok by done.
  cbn [mbind result_bind rbind]. rewrite Z.min_r by lia.
  pose proof (days_in_month_bounds (year d) (month d) Hm) as Hdim.
  unfold date_new, MINYEAR, MAXYEAR in *.
  rewrite !fits_int_true by lia. cbn [andb negb].
  replace ((1 <=? year d) && (year d <=? 9999))
    with true by (symmetry; apply andb_true_iff; lia).
  replace ((1 <=? month d) && (month d <=? 12))
    with true by (symmetry; apply andb_true_iff; lia).
  replace ((1 <=? day d) && (day d <=? days_in_month (year d) (month d)))
    with true by (symmetry; apply andb_true_iff; lia).
  cbn [negb mbind result_bind rbind]. by destruct d.
Qed.

Lemma expiring_where_due today deadline s :
  SQL.is_true (expiring_where today deadline s) = reminder_due today deadline s.
Proof.
  unfold expiring_where, reminder_due, Subscription.status_is.
  unfold SQL.eq_str, SQL.between_date, SQL.ge_date, SQL.le_date, SQL.is_null,
    SQL.lt_datetime, SQL.cmp.
  destruct (Subscription.status s) as [st|];
    [destruct (String.eqb st "active")|];
    (destruct (Subscription.end_date s) as [e|];
     [destruct (date_leb today e), (date_leb e deadline)|]);
    (destruct (Subscription.last_reminder_sent s) as [t|];
     [destruct (datetime_ltb t (midnight today))|]); reflexivity.
Qed.

Lemma elem_of_expiring_query d today deadline i s :
  (i, s) ∈ expiring_query d today deadline
  ↔ subscriptions d !! i = Some s ∧ is_Some (subscription_customer d s)
    ∧ reminder_due today deadline s = true.
Proof.
  unfold expiring_query, rows.
  rewrite list_elem_of_In, filter_In, <- list_elem_of_In, elem_of_map_to_list.
  cbn [snd]. rewrite andb_true_iff, bool_decide_eq_true, expiring_where_due. done.
Qed.

Lemma NoDup_fst_filter_bool {A B} (f : A * B → bool) (l : list (A * B)) :
  NoDup l.*1 → NoDup (List.filter f l).*1.
Proof.
  induction l as [|x l IH]; simpl; [done|].
  intros [Hx Hl]%NoDup_cons. destruct (f x); [|by auto].
  rewrite fmap_cons. apply NoDup_cons. split; [|by auto].
  intros (y & Hy1 & Hy2)%list_elem_of_fmap. apply Hx.
  apply list_elem_of_fmap. exists y. split; [done|].
  apply list_elem_of_In in Hy2. apply filter_In in Hy2 as [Hy2 _].
  by apply list_elem_of_In.
Qed.

Lemma reminder_loop_spec d today l dirty :
  NoDup l.*1 →
  (∀ i s, (i, s) ∈ l →
          is_Some (subscription_customer d s) ∧ is_Some (subscription_plan d s)) →
  ∃ dirty',
    reminder_loop d today l dirty = Ok dirty'
    ∧ (∀ i s, (i, s) ∈ l → owner_has_email d s = true →
              dirty' !! i
              = Some (Subscription.set_last_reminder_sent (Some (midnight today)) s))
    ∧ (∀ i, (∀ s, (i, s) ∈ l → owner_has_email d s = false) →
            dirty' !! i = dirty !! i).
Proof.
  revert dirty. induction l as [|[j sj] l IH]; intros dirty Hnd Hall.
  - exists dirty. split_and!; [done| |done].
    intros i s Hin. by apply elem_of_nil in Hin.
  - rewrite fmap_cons in Hnd. apply NoDup_cons in Hnd as [Hj Hnd]. cbn [fst] in Hj.
    destruct (Hall j sj) as [[c Hc] [p Hp]]; [by left|].
    assert (∀ i s, (i, s) ∈ l →
              is_Some (subscription_customer d s) ∧ is_Some (subscription_plan d s))
      as Hall' by (intros i s Hin; apply (Hall i); by right).
    assert (∀ s, (j, s) ∈ l → False) as Hjl.
    { intros s Hin. apply Hj. apply list_elem_of_fmap. by exists (j, s). }
    cbn [reminder_loop fst snd]. rewrite Hc, Hp.
    assert (owner_has_email d sj = PyStr.truthy (Customer.email c)) as Hmail
      by (unfold owner_has_email; by rewrite Hc).
    destruct (PyStr.truthy (Customer.email c)) eqn:Ee.
    + destruct (IH (<[j:=Subscription.set_last_reminder_sent (Some (midnight today)) sj]>
                      dirty) Hnd Hall') as (dirty' & Hrun & Hset & Hkeep).
      exists dirty'. split_and!; [done| |].
      * intros i s [[= -> ->]|Hin]%elem_of_cons Hm; [|by eauto].
        rewrite Hkeep by (intros s Hin; by destruct (Hjl s)).
        apply lookup_insert_eq.
      * intros i Hno. assert (i ≠ j) as Hij.
        { intros ->. specialize (Hno sj (list_elem_of_here _ _)). congruence. }
        rewrite Hkeep by (intros s Hin; apply Hno; by right).
        by apply lookup_insert_ne.
    + destruct (IH dirty Hnd Hall') as (dirty' & Hrun & Hset & Hkeep).
      exists dirty'. split_and!; [done| |].
      * intros i s [[= -> ->]|Hin]%elem_of_cons Hm; [congruence | by eauto].
      * intros i Hno. apply Hkeep. intros s Hin. apply Hno. by right.
Qed.

(** C8, amended. Let [deadline] be today plus 7 days, and let every
    subscription have its plan. The sweep selects exactly the stored
    subscriptions that have an owning customer and for which a reminder
    is due (status active, end date within [[today, deadline]], last
    reminder absent or strictly before today at midnight). It succeeds,
    leaves customers and plans as they are, and for each selected
    subscription whose customer has an email it sets the last reminder to
    today at midnight and the update timestamp to the store's current
    time; every other subscription, and every other field, is unchanged. *)
Theorem expiring_sweep (clk : clock) (d : db) (deadline : date) :
  valid_date (today clk) →
  add_days (today clk) 7 = Ok deadline →
  (∀ i s, subscriptions d !! i = Some s → is_Some (subscription_plan d s)) →
  (∀ i s, (i, s) ∈ expiring_query d (today clk) deadline
          ↔ subscriptions d !! i = Some s
            ∧ is_Some (subscription_customer d s)
            ∧ reminder_due (today clk) deadline s = true)
  ∧ ∃ o d',
      check_expiring_subscriptions clk d = Ok (o, d')
      ∧ customers d' = customers d
      ∧ plans d' = plans d
      ∧ ∀ i, subscriptions d' !! i
             = (λ s, if reminder_due (today clk) deadline s && owner_has_email d s
                     then flag_reminder clk s else s)
               <$> subscriptions d !! i.
Proof.
  intros Hvalid Hdeadline Hplans.
  split; [intros i s; apply elem_of_expiring_query|].
  unfold check_expiring_subscriptions.
  rewrite add_relativedelta_days, Hdeadline by done. cbn [mbind result_bind rbind].
  assert (∀ i s, subscriptions d !! i = Some s →
            reminder_due (today clk) deadline s && owner_has_email d s = true →
            (i, s) ∈ expiring_query d (today clk) deadline) as Hsel.
  { intros i s Hs [Hdue Hmail]%andb_true_iff. apply elem_of_expiring_query.
    split_and!; [done| |done]. unfold owner_has_email in Hmail.
    by destruct (subscription_customer d s). }
  case_bool_decide as Hnil.
  - exists NoReminders, d. split_and!; [done..|].
    intros i. destruct (subscriptions d !! i) as [s|] eqn:Hs; [|done].
    cbn. destruct (_ && _) eqn:E; [|done].
    specialize (Hsel i s Hs E). rewrite Hnil in Hsel. by apply elem_of_nil in Hsel.
  - destruct (reminder_loop_spec d (today clk)
                (expiring_query d (today clk) deadline) ∅)
      as (dirty & Hrun & Hset & Hkeep).
    { apply NoDup_fst_filter_bool, NoDup_fst_map_to_list. }
    { intros i s (Hs & Hc & _)%elem_of_expiring_query. eauto. }
    rewrite Hrun. eexists _, _. split_and!; [done..|].
    intros i. cbn [commit_subscriptions set_subscriptions subscriptions].
    rewrite lookup_union, lookup_fmap.
    destruct (subscriptions d !! i) as [s|] eqn:Hs.
    + cbn [fmap option_fmap option_map].
      destruct (reminder_due (today clk) deadline s && owner_has_email d s) eqn:E.
      * apply andb_true_iff in E as E'. destruct E' as [_ Hmail].
        by rewrite (Hset i s (Hsel i s Hs E) Hmail).
      * rewrite Hkeep; [by rewrite lookup_empty|].
        intros s' (Hs' & _ & Hdue)%elem_of_expiring_query.
        assert (s' = s) as -> by congruence.
        rewrite Hdue in E. done.
    + rewrite Hkeep; [by rewrite lookup_empty|].
      intros s' (Hs' & _)%elem_of_expiring_query. congruence.
Qed.

(** One subscription that ends in three days. *)
Lemma expiring_sweep_witness :
  ∃ o d',
    check_expiring_subscriptions (clock_on jan_15) (subscribed_db (mkdate 2024 1 18))
    = Ok (o, d')
    ∧ subscriptions d' !! 1
      = Some (flag_reminder (clock_on jan_15) (john_subscription (mkdate 2024 1 18))).
Proof.
  destruct (expiring_sweep (clock_on jan_15) (subscribed_db (mkdate 2024 1 18))
              (mkdate 2024 1 22))
    as [_ (o & d' & Hrun & _ & _ & Hrows)].
  - unfold valid_date. by vm_compute.
  - by vm_compute.
  - intros i s Hs. cbn [subscribed_db subscriptions] in Hs.
    apply lookup_singleton_Some in Hs as [<- <-]. eexists. by vm_compute.
  - exists o, d'. split; [done|]. rewrite Hrows. by vm_compute.
Defined.

(** C8, counterexample. The sweep changes a field other than the last
    reminder: the update timestamp of the flagged row, absent before, is
    set. *)
Lemma expiring_sweep_counterexample :
  ∃ o d' s',
    check_expiring_subscriptions (clock_on jan_15) (subscribed_db (mkdate 2024 1 18))
    = Ok (o, d')
    ∧ subscriptions (subscribed_db (mkdate 2024 1 18)) !! 1
      = Some (john_subscription (mkdate 2024 1 18))
    ∧ subscriptions d' !! 1 = Some s'
    ∧ Subscription.updated_at (john_subscription (mkdate 2024 1 18)) = None
    ∧ Subscription.updated_at s' = Some (func_now (clock_on jan_15)).
Proof.
  eexists _, _, _. split; [by vm_compute|]. split; [by vm_compute|].
  split; [by vm_compute|]. by vm_compute.
Qed.

End sweep.

(** ** Creating a subscription *)

Section create.
Local Open Scope Z_scope.

Lemma validate_subscription_input_ok c p dur :
  validate_subscription_input c p dur = Ok []
  ↔ PyStr.isdigit c = true ∧ PyStr.isdigit p = true
    ∧ ∃ N, PyStr.int dur = Ok N ∧ 1 <= N.
Proof.
  unfold validate_subscription_input, mbind, result_bind, rbind. split.
  - destruct (PyStr.isdigit dur) eqn:Ed; cbn [negb].
    + destruct (PyStr.int dur) as [N|] eqn:Ei; [|done].
      destruct (Z.ltb_spec N 1).
      * by destruct (PyStr.isdigit c), (PyStr.isdigit p).
      * destruct (PyStr.isdigit c), (PyStr.isdigit p); try done.
        intros _. split_and!; [done..|]. exists N. split; [done | lia].
    + by destruct (PyStr.isdigit c), (PyStr.isdigit p).
  - intros (-> & -> & N & HN & HN1). rewrite (int_isdigit _ _ HN), HN.
    cbn [negb app]. destruct (Z.ltb_spec N 1); [lia | done].
Qed.

Lemma create_subscription_created clk d c p n k d1 :
  run (create_subscription clk d) [c; p; n] = Ok (SubscriptionCreated k, d1)
  ↔ ∃ ck cust pk plan N e,
      PyStr.int (PyStr.strip c) = Ok ck ∧ SQL.fits_integer ck = true
      ∧ customers d !! ck = Some cust
      ∧ PyStr.int (PyStr.strip p) = Ok pk ∧ SQL.fits_integer pk = true
      ∧ plans d !! pk = Some plan
      ∧ PyStr.int (typed_duration n) = Ok N ∧ 1 <= N
      ∧ add_relativedelta (today clk) (relativedelta_months N) = Ok e
      ∧ date_ltb (today clk) (today clk) = false
      ∧ insert_subscription d (new_subscription clk ck pk cust e) = Ok (k, d1).
Proof.
  unfold create_subscription, run. fold (typed_duration n). split.
  - destruct (bool_decide (rows (customers d) = [])) eqn:Ec; [done|].
    destruct (bool_decide (rows (plans d) = [])) eqn:Ep; [done|].
    rewrite !io_bind_input_strip, io_bind_lift. fold (typed_duration n).
    destruct (validate_subscription_input _ _ _) as [errors|] eqn:Ev; [|done].
    destruct (decide (errors = [])) as [->|Hne];
      [rewrite bool_decide_eq_true_2 by done
      |rewrite bool_decide_eq_false_2 by done; done].
    cbn [negb].
    apply validate_subscription_input_ok in Ev as (Hc & Hp & N & HN & HN1).
    rewrite io_bind_lift.
    destruct (get_int (customers d) _) as [[[ck cust]|]|] eqn:Egc; [| |done].
    2:{ rewrite io_bind_lift. by destruct (get_int (plans d) _). }
    rewrite io_bind_lift.
    destruct (get_int (plans d) _) as [[[pk plan]|]|] eqn:Egp; [|done|done].
    rewrite io_bind_lift, HN. cbn [mbind result_bind rbind].
    destruct (add_relativedelta _ _) as [e|] eqn:Eadd; [|done].
    unfold Subscription.new, Subscription.validate_start_date.
    destruct (date_ltb (today clk) (today clk)) eqn:Elt; [done|].
    cbn [mbind result_bind rbind]. fold (new_subscription clk ck pk cust e).
    destruct (insert_subscription d _) as [[k' d']|] eqn:Eins; [|done].
    intros [= <- <-].
    apply get_int_Some in Egc as (? & ? & ?), Egp as (? & ? & ?).
    exists ck, cust, pk, plan, N, e. done.
  - intros (ck & cust & pk & plan & N & e & Hc & Hfc & Hlc & Hp & Hfp & Hlp
            & HN & HN1 & Hadd & Hlt & Hins).
    rewrite (lookup_rows_nonempty _ _ _ Hlc), (lookup_rows_nonempty _ _ _ Hlp).
    rewrite !io_bind_input_strip, io_bind_lift. fold (typed_duration n).
    assert (validate_subscription_input (PyStr.strip c) (PyStr.strip p)
              (typed_duration n) = Ok []) as ->.
    { apply validate_subscription_input_ok.
      split_and!; [by eapply int_isdigit | by eapply int_isdigit | by eauto]. }
    rewrite bool_decide_eq_true_2 by done. cbn [negb].
    rewrite io_bind_lift.
    rewrite (proj2 (get_int_Some (customers d) _ ck cust)) by done.
    rewrite io_bind_lift.
    rewrite (proj2 (get_int_Some (plans d) _ pk plan)) by done.
    rewrite io_bind_lift, HN. cbn [mbind result_bind rbind]. rewrite Hadd.
    unfold Subscription.new, Subscription.validate_start_date. rewrite Hlt.
    cbn [mbind result_bind rbind]. fold (new_subscription clk ck pk cust e). by rewrite Hins.
Qed.

Lemma insert_subscription_Ok d s k d1 :
  insert_subscription d s = Ok (k, d1)
  ↔ SQL.fits_integer (Subscription.router_id s) = true
    ∧ subscription_checks s = true
    ∧ subscription_references d s = true
    ∧ subscription_conflict d s = false
    ∧ k = next_key (seq_subscriptions d) (subscriptions d)
    ∧ d1 = set_subscriptions (<[k := s]> (subscriptions d)) k d.
Proof.
  unfold insert_subscription.
  destruct (SQL.fits_integer _), (subscription_checks s),
    (subscription_references d s), (subscription_conflict d s);
    cbn [negb orb]; try (split; [done | by intros (? & ? & ? & ? & _)]).
  split; [by intros [= <- <-] | by intros (_ & _ & _ & _ & -> & ->)].
Qed.

Lemma inserted_subscription_lookup d s k d1 :
  insert_subscription d s = Ok (k, d1) → subscriptions d1 !! k = Some s.
Proof.
  intros (_ & _ & _ & _ & _ & ->)%insert_subscription_Ok.
  cbn [set_subscriptions subscriptions]. apply lookup_insert_eq.
Qed.

Lemma subscription_conflict_false d s :
  (∀ i s', subscriptions d !! i = Some s' →
           Subscription.router_id s' ≠ Subscription.router_id s) →
  subscription_conflict d s = false.
Proof.
  intros H. unfold subscription_conflict. apply not_true_is_false.
  intros ([i s'] & Hin & Heq)%existsb_exists.
  apply list_elem_of_In, elem_of_map_to_list in Hin.
  apply Z.eqb_eq in Heq. by apply (H i s').
Qed.

Lemma months_after_ge d n :
  valid_date d → 0 <= n → date_leb d (months_after d n) = true.
Proof.
  intros (Hy & Hm & Hd) Hn. unfold date_leb, date_ltb, date_eqb, months_after, month_index.
  cbn [year month day].
  set (i := year d * 12 + (month d - 1) + n).
  assert (i = year d * 12 + (month d - 1) ∨ year d * 12 + (month d - 1) < i)
    as [Hi|Hi] by lia.
  - assert (i / 12 = year d) as Hq by (Z.div_mod_to_equations; lia).
    assert (i mod 12 + 1 = month d) as Hr by (Z.div_mod_to_equations; lia).
    rewrite Hq, Hr, Z.min_l by lia.
    rewrite !Z.eqb_refl. cbn. by rewrite !orb_true_r.
  - apply orb_true_iff. left.
    destruct (Z.ltb_spec (year d) (i / 12)); [done|]. cbn [orb].
    assert (i / 12 = year d) as Hq by (Z.div_mod_to_equations; lia).
    rewrite Hq, Z.eqb_refl. cbn [andb].
    apply orb_true_iff. left. apply Z.ltb_lt. Z.div_mod_to_equations. lia.
Qed.

Lemma month_index_months_after d n :
  month_index (months_after d n) = month_index d + n.
Proof.
  unfold months_after, month_index at 1. cbn [year month].
  Z.div_mod_to_equations. lia.
Qed.

(** Adding months twice agrees with adding them at once exactly when the
    day of the month is not lost in the month in between. *)
Lemma months_after_twice d n m :
  months_after (months_after d n) m
  = mkdate (year (months_after d (n + m))) (month (months_after d (n + m)))
      (Z.min (Z.min (day d) (days_in_month_after d n)) (days_in_month_after d (n + m))).
Proof.
  assert (month_index (months_after d n) + m = month_index d + (n + m)) as Hidx
    by (rewrite month_index_months_after; lia).
  unfold days_in_month_after.
  change (months_after (months_after d n) m)
    with (mkdate ((month_index (months_after d n) + m) / 12)
            ((month_index (months_after d n) + m) mod 12 + 1)
            (Z.min (day (months_after d n))
               (days_in_month ((month_index (months_after d n) + m) / 12)
                  ((month_index (months_after d n) + m) mod 12 + 1)))).
  by rewrite Hidx.
Qed.

Lemma months_after_additive d n m :
  months_after (months_after d n) m = months_after d (n + m)
  ↔ day d <= days_in_month_after d n
    ∨ days_in_month_after d (n + m) <= days_in_month_after d n.
Proof.
  rewrite months_after_twice.
  assert (months_after d (n + m)
          = mkdate (year (months_after d (n + m))) (month (months_after d (n + m)))
              (Z.min (day d) (days_in_month_after d (n + m)))) as Heq by done.
  rewrite Heq at 3. split.
  - intros [= H]. lia.
  - intros H. f_equal. lia.
Qed.

(** C2, amended. Whenever [create_subscription] creates a subscription,
    for the duration [N] typed (at least 1) and the start date today, the
    stored row has the end date exactly [N] calendar months after today
    (the same day of the month, or the last day of a shorter month) and
    the status [active]. It does create one when the typed customer and
    plan exist, the end date is not beyond year 9999, and the router
    identifier of the customer is a 10-digit number no subscription uses
    yet. *)
Theorem create_sets_end_date (clk : clock) (d : db) (c p n : string) :
  valid_date (today clk) →
  (∀ k d', run (create_subscription clk d) [c; p; n]
           = Ok (SubscriptionCreated k, d') →
     ∃ N s, PyStr.int (typed_duration n) = Ok N ∧ 1 <= N
            ∧ subscriptions d' !! k = Some s
            ∧ Subscription.start_date s = today clk
            ∧ Subscription.end_date s = Some (months_after (today clk) N)
            ∧ Subscription.status s = Some "active"%string)
  ∧ (∀ ck cust pk plan N,
       PyStr.int (PyStr.strip c) = Ok ck → SQL.fits_integer ck = true →
       customers d !! ck = Some cust →
       PyStr.int (PyStr.strip p) = Ok pk → SQL.fits_integer pk = true →
       plans d !! pk = Some plan →
       PyStr.int (typed_duration n) = Ok N → 1 <= N →
       year (months_after (today clk) N) <= MAXYEAR →
       1000000000 <= Customer.router_id cust <= 9999999999 →
       (∀ i s, subscriptions d !! i = Some s →
               Subscription.router_id s ≠ Customer.router_id cust) →
       ∃ k d', run (create_subscription clk d) [c; p; n]
               = Ok (SubscriptionCreated k, d')).
Proof.
  intros Hvalid. split.
  - intros k d' (ck & cust & pk & plan & N & e & _ & _ & _ & _ & _ & _
                 & HN & HN1 & Hadd & _ & Hins)%create_subscription_created.
    rewrite add_relativedelta_months in Hadd by (done || lia).
    destruct (_ <=? _); [|done]. injection Hadd as <-.
    exists N, (new_subscription clk ck pk cust (months_after (today clk) N)).
    split_and!; [done..| |done|done|done].
    by apply inserted_subscription_lookup in Hins.
  - intros ck cust pk plan N Hc Hfc Hlc Hp Hfp Hlp HN HN1 Hyear Hrouter Hfree.
    eexists _, _. apply create_subscription_created.
    exists ck, cust, pk, plan, N, (months_after (today clk) N).
    split_and!; [done..| | |].
    + rewrite add_relativedelta_months by (done || lia).
      by rewrite (proj2 (Z.leb_le _ _) Hyear).
    + apply date_ltb_irrefl.
    + apply insert_subscription_Ok. split_and!; [| | | |done|done].
      * unfold SQL.fits_integer. cbn [new_subscription Subscription.router_id].
        apply andb_true_iff. split; [apply Z.leb_le | apply Z.ltb_lt]; lia.
      * unfold subscription_checks. cbn.
        rewrite months_after_ge by (done || lia). cbn.
        apply andb_true_iff. split; apply Z.leb_le; lia.
      * unfold subscription_references. cbn. rewrite Hlc, Hlp.
        by rewrite !bool_decide_eq_true_2 by eauto.
      * by apply subscription_conflict_false.
Qed.

(** One month for [john] on the basic plan. *)
Lemma create_sets_end_date_witness :
  ∃ k d', run (create_subscription (clock_on jan_15) sample_db) ["1"; "1"; "1"]%string
          = Ok (SubscriptionCreated k, d').
Proof.
  destruct (create_sets_end_date (clock_on jan_15) sample_db "1" "1" "1") as [_ H].
  { unfold valid_date. vm_compute. intuition discriminate. }
  apply (H 1 john 1 basic_plan 1); by vm_compute.
Defined.

(** C2, counterexample. For the duration 96000, on the store where one
    month is accepted, no subscription is created: the end date would lie
    in year 10024 and the date arithmetic raises. *)
Lemma create_sets_end_date_counterexample :
  PyStr.int (typed_duration "96000") = Ok 96000
  ∧ year (months_after jan_15 96000) = 10024
  ∧ run (create_subscription (clock_on jan_15) sample_db) ["1"; "1"; "96000"]%string
    = Raise ValueError.
Proof. by vm_compute. Qed.

End create.

(** ** Extending a subscription *)

Section extend.
Local Open Scope Z_scope.

Lemma get_if_digit_inv {A} (m : gmap Z A) s k x :
  get_if_digit m s = Ok (Some (k, x)) → PyStr.int s = Ok k ∧ m !! k = Some x.
Proof.
  unfold get_if_digit. destruct (PyStr.isdigit s); [|done].
  intros (? & _ & ?)%get_int_Some. done.
Qed.

Lemma update_subscription_extended clk d sid m e d2 :
  run (update_subscription clk d) [sid; "2"; m]%string = Ok (Extended e, d2) →
  ∃ k s e0 M,
    PyStr.int (PyStr.strip sid) = Ok k
    ∧ subscriptions d !! k = Some s
    ∧ Subscription.end_date s = Some e0
    ∧ PyStr.int (PyStr.strip m) = Ok M ∧ 1 <= M
    ∧ add_relativedelta e0 (relativedelta_months M) = Ok e
    ∧ subscriptions d2 !! k
      = Some (Subscription.set_updated_at (Some (now clk))
                (Subscription.set_end_date (Some e) s)).
Proof.
  unfold update_subscription, run. rewrite io_bind_lift.
  destruct (list_subscriptions d "all" (today clk)) as [l|]; [|done].
  rewrite io_bind_input_strip, io_bind_lift.
  destruct (get_if_digit (subscriptions d) _) as [[[k s]|]|] eqn:Eget; [|done|done].
  apply get_if_digit_inv in Eget as [Hk Hs].
  rewrite io_bind_input_strip.
  change (PyStr.strip "2") with "2"%string.
  change (String.eqb "2" "1") with false. change (String.eqb "2" "2") with true.
  cbv iota.
  destruct (Subscription.end_date s) as [e0|] eqn:Eend; [|done].
  rewrite io_bind_input_strip, io_bind_lift.
  destruct (PyStr.isdigit (PyStr.strip m)) eqn:Ed; cbn [negb]; [|done].
  destruct (PyStr.int (PyStr.strip m)) as [M|] eqn:EM; [|done].
  cbn [mbind result_bind rbind].
  destruct (Z.ltb_spec M 1); [done|].
  rewrite io_bind_lift.
  destruct (add_relativedelta e0 (relativedelta_months M)) as [e'|] eqn:Eadd; [|done].
  rewrite io_bind_lift. unfold update_subscription_row.
  destruct (negb (subscription_checks _)); [done|].
  intros [= <- <-]. exists k, s, e0, M. split_and!; [done..|lia|done|].
  cbn [set_subscriptions subscriptions]. apply lookup_insert_eq.
Qed.

Lemma months_after_year_ge d n : 0 <= n → year d <= year (months_after d n) ∨ ¬ 1 <= month d <= 12.
Proof.
  intros Hn. unfold months_after, month_index. cbn [year].
  destruct (decide (1 <= month d <= 12)); [left | by right].
  Z.div_mod_to_equations. lia.
Qed.

Lemma insert_subscription_other_end_date clk d ck pk cust e1 e k d1 :
  insert_subscription d (new_subscription clk ck pk cust e1) = Ok (k, d1) →
  date_leb (today clk) e = true →
  insert_subscription d (new_subscription clk ck pk cust e)
  = Ok (k, set_subscriptions
             (<[k := new_subscription clk ck pk cust e]> (subscriptions d)) k d).
Proof.
  intros (Hf & Hc & Hr & Hx & -> & _)%insert_subscription_Ok Hle.
  apply insert_subscription_Ok. split_and!; [done| |done|done|done|done].
  unfold subscription_checks, new_subscription in *.
  cbn [Subscription.end_date Subscription.start_date Subscription.status
         Subscription.router_id] in *.
  apply andb_true_iff in Hc as [_ Hc]. rewrite Hle, Hc. done.
Qed.

(** C1, amended. Create a subscription for [N] months on the start date
    [D], then extend it by [M] months. If the day of [D] exists in the
    month [N] months after [D] (always so up to day 28), or that month is
    at least as long as the month [N + M] months after [D], then the
    extended end date is the date [N + M] calendar months after [D], and
    creating with the duration [N + M] on the same date and store succeeds
    with that same end date. *)
Theorem extend_after_create (clk clk' : clock) (d d1 d2 : db)
    (c p n m nm sid : string) (k N M : Z) (e : date) :
  valid_date (today clk) →
  PyStr.int (typed_duration n) = Ok N →
  PyStr.int (PyStr.strip m) = Ok M →
  PyStr.int (typed_duration nm) = Ok (N + M) →
  PyStr.int (PyStr.strip sid) = Ok k →
  run (create_subscription clk d) [c; p; n] = Ok (SubscriptionCreated k, d1) →
  run (update_subscription clk' d1) [sid; "2"; m]%string = Ok (Extended e, d2) →
  day (today clk) <= days_in_month_after (today clk) N
  ∨ days_in_month_after (today clk) (N + M) <= days_in_month_after (today clk) N →
  e = months_after (today clk) (N + M)
  ∧ Subscription.end_date <$> subscriptions d2 !! k = Some (Some e)
  ∧ ∃ d3, run (create_subscription clk d) [c; p; nm] = Ok (SubscriptionCreated k, d3)
          ∧ Subscription.end_date <$> subscriptions d3 !! k = Some (Some e).
Proof.
  intros Hvalid HN HM HNM Hsid Hcreate Hextend Hday.
  apply create_subscription_created in Hcreate
    as (ck & cust & pk & plan & N' & e1 & Hc & Hfc & Hlc & Hp & Hfp & Hlp
        & HN' & HN1 & Hadd1 & Hlt & Hins).
  assert (N' = N) as -> by congruence.
  rewrite add_relativedelta_months in Hadd1 by (done || lia).
  destruct (Z.leb_spec (year (months_after (today clk) N)) MAXYEAR) as [Hy1|];
    [|done].
  injection Hadd1 as <-.
  apply update_subscription_extended in Hextend
    as (k' & s & e0 & M' & Hk' & Hs & Hend & HM' & HM1 & Hadd2 & Hd2).
  assert (k' = k) as -> by congruence. assert (M' = M) as -> by congruence.
  rewrite (inserted_subscription_lookup _ _ _ _ Hins) in Hs. injection Hs as <-.
  injection Hend as <-.
  assert (valid_date (months_after (today clk) N)) as Hvalid1.
  { apply months_after_valid; [done|]. split; [|done].
    destruct Hvalid as (Hy & Hm & _).
    destruct (months_after_year_ge (today clk) N) as [?|?]; [lia|lia|done]. }
  rewrite add_relativedelta_months in Hadd2 by (done || lia).
  destruct (Z.leb_spec (year (months_after (months_after (today clk) N) M)) MAXYEAR)
    as [Hy2|]; [|done].
  injection Hadd2 as <-.
  apply months_after_additive in Hday. rewrite Hday in *.
  split_and!; [done| by rewrite Hd2 |].
  eexists. split.
  - apply create_subscription_created.
    exists ck, cust, pk, plan, (N + M), (months_after (today clk) (N + M)).
    split_and!; [done..|lia| |done|].
    + rewrite add_relativedelta_months by (done || lia).
      by rewrite (proj2 (Z.leb_le _ _) Hy2).
    + eapply insert_subscription_other_end_date; [done|].
      apply months_after_ge; [done | lia].
  - cbn [set_subscriptions subscriptions]. by rewrite lookup_insert_eq.
Qed.

(** Start on 2024-01-15, one month, then two more: 2024-04-15. *)
Lemma extend_after_create_witness :
  ∃ d2 e,
    e = months_after jan_15 (1 + 2)
    ∧ Subscription.end_date <$> subscriptions d2 !! 1 = Some (Some e)
    ∧ ∃ d3, run (create_subscription (clock_on jan_15) sample_db)
              ["1"; "1"; "3"]%string
            = Ok (SubscriptionCreated 1, d3)
            ∧ Subscription.end_date <$> subscriptions d3 !! 1 = Some (Some e).
Proof.
  eexists _, _.
  eapply (extend_after_create (clock_on jan_15) (clock_on (mkdate 2024 2 10))
            sample_db _ _ "1" "1" "1" "2" "3" "1" 1 1 2);
    [ unfold valid_date; by vm_compute
    | by vm_compute | by vm_compute | by vm_compute | by vm_compute
    | vm_compute; reflexivity
    | vm_compute; reflexivity
    | left; by vm_compute ].
Defined.

(** C1, counterexample. Start on 2024-01-31: one month gives 2024-02-29
    and one more gives 2024-03-29, but two months at once give
    2024-03-31. *)
Lemma extend_after_create_counterexample :
  ∃ d1 d2 d3,
    run (create_subscription (clock_on jan_31) sample_db) ["1"; "1"; "1"]%string
    = Ok (SubscriptionCreated 1, d1)
    ∧ run (update_subscription (clock_on jan_31) d1) ["1"; "2"; "1"]%string
      = Ok (Extended (mkdate 2024 3 29), d2)
    ∧ run (create_subscription (clock_on jan_31) sample_db) ["1"; "1"; "2"]%string
      = Ok (SubscriptionCreated 1, d3)
    ∧ Subscription.end_date <$> subscriptions d2 !! 1 = Some (Some (mkdate 2024 3 29))
    ∧ Subscription.end_date <$> subscriptions d3 !! 1 = Some (Some (mkdate 2024 3 31)).
Proof.
  eexists _, _, _. split; [by vm_compute|]. split; [by vm_compute|].
  split; [by vm_compute|]. by vm_compute.
Qed.

End extend.

(** ** The email and speed patterns *)

Section patterns.
Import Regex.

Lemma lang_cat_iff r1 r2 s :
  lang (Cat r1 r2) s ↔ ∃ s1 s2, s = s1 +:+ s2 ∧ lang r1 s1 ∧ lang r2 s2.
Proof.
  split; [apply lang_cat_inv|]. intros (s1 & s2 & -> & H1 & H2). by constructor.
Qed.

Lemma lang_star_cls p s : lang (Star (Cls p)) s ↔ PyStr.forallb_str p s = true.
Proof.
  induction s as [|c s IH]; simpl.
  - split; [done | constructor].
  - split.
    + intros H. apply lang_star_cons_inv in H as (s1 & s2 & -> & H1 & H2).
      apply lang_cls_inv in H1 as (c' & [= <- ->] & Hc).
      rewrite append_nil_l in *. rewrite Hc. by apply IH.
    + intros [Hc Hs]%andb_true_iff.
      change (String c s) with (String c "" +:+ s).
      constructor; [by constructor | by apply IH].
Qed.

Lemma lang_plus_cls p s :
  lang (Plus (Cls p)) s ↔ PyStr.truthy s = true ∧ PyStr.forallb_str p s = true.
Proof.
  unfold Plus. rewrite lang_cls_cat. split.
  - intros (c & s' & -> & Hc & H). apply lang_star_cls in H. simpl. by rewrite Hc, H.
  - intros [Ht Hf]. destruct s as [|c s']; [done|]. simpl in Hf.
    apply andb_true_iff in Hf as [Hc Hf]. exists c, s'. by rewrite lang_star_cls.
Qed.

Lemma forallb_not_at s :
  PyStr.forallb_str (λ x, negb (Ascii.eqb "@" x)) s = negb (PyStr.contains_char "@" s).
Proof.
  induction s as [|c s IH]; [done|].
  unfold PyStr.contains_char in *. cbn [PyStr.forallb_str PyStr.existsb_str].
  rewrite IH. by rewrite negb_orb.
Qed.

Lemma lang_email_part s : lang (Plus (NotChr "@")) s ↔ email_part s = true.
Proof.
  unfold NotChr. rewrite lang_plus_cls, forallb_not_at. unfold email_part.
  by rewrite andb_true_iff.
Qed.

Lemma lang_chr_cat c r s : lang (Cat (Chr c) r) s ↔ ∃ s', s = String c s' ∧ lang r s'.
Proof.
  unfold Chr. rewrite lang_cls_cat. split.
  - intros (c' & s' & -> & Hc & H). apply Ascii.eqb_eq in Hc as ->. by exists s'.
  - intros (s' & -> & H). exists c, s'. by rewrite Ascii.eqb_refl.
Qed.

Lemma lang_email_re s : lang Customer.email_re s ↔ email_shape s.
Proof.
  unfold Customer.email_re, email_shape. rewrite lang_cat_iff. split.
  - intros (l & s2 & -> & Hl & H). apply lang_chr_cat in H as (s3 & -> & H).
    apply lang_cat_iff in H as (dm & s4 & -> & Hd & H).
    apply lang_chr_cat in H as (t & -> & Ht).
    exists l, dm, t. by rewrite <- !lang_email_part.
  - intros (l & dm & t & -> & Hl & Hd & Ht). exists l, ("@" +:+ dm +:+ "." +:+ t).
    split_and!; [done | by apply lang_email_part |].
    change ("@" +:+ dm +:+ "." +:+ t) with (String "@" (dm +:+ "." +:+ t)).
    apply lang_chr_cat. eexists. split; [done|]. apply lang_cat_iff.
    exists dm, ("." +:+ t). split_and!; [done | by apply lang_email_part |].
    change ("." +:+ t) with (String "." t). apply lang_chr_cat. eexists.
    split; [done|]. by apply lang_email_part.
Qed.

Lemma truthy_append (a b : string) :
  PyStr.truthy (a +:+ b) = PyStr.truthy a || PyStr.truthy b.
Proof. destruct a; [by rewrite append_nil_l | by rewrite append_cons]. Qed.

Lemma email_part_newline t :
  email_part t = true → email_part (t +:+ String newline "") = true.
Proof.
  unfold email_part. intros [Ht Hc]%andb_true_iff.
  rewrite truthy_append, Ht, contains_char_append.
  apply negb_true_iff in Hc as ->. by vm_compute.
Qed.

Lemma re_match_email s : re_match Customer.email_re s = true ↔ email_shape s.
Proof.
  unfold re_match. rewrite matches_lang, lang_cat_iff. split.
  - intros (s1 & s2 & -> & H1 & H2). apply lang_email_re in H1.
    apply lang_alt_inv in H2 as [H2|H2].
    + apply lang_cls_inv in H2 as (c & -> & <-%Ascii.eqb_eq).
      destruct H1 as (l & dm & t & -> & Hl & Hd & Ht).
      exists l, dm, (t +:+ String newline ""). split_and!; [|done..|by apply email_part_newline].
      by rewrite !append_assoc.
    + apply lang_eps_inv in H2 as ->. by rewrite append_nil_r.
  - intros H. exists s, "". rewrite append_nil_r. split_and!; [done | by apply lang_email_re |].
    apply lang_alt_r. constructor.
Qed.

Lemma dot_after_at_shape l dm t :
  dot_after_at (l +:+ "@" +:+ dm +:+ "." +:+ t) = true.
Proof.
  induction l as [|c l IH].
  - rewrite append_nil_l. change ("@" +:+ dm +:+ "." +:+ t) with (String "@" (dm +:+ "." +:+ t)).
    cbn [dot_after_at]. rewrite contains_char_append.
    change ("." +:+ t) with (String "." t).
    replace (PyStr.contains_char "." (String "." t)) with true by done.
    by rewrite orb_true_r.
  - rewrite append_cons. cbn [dot_after_at]. by rewrite IH, orb_true_r.
Qed.

Lemma contains_at_shape l dm t :
  PyStr.contains_char "@" (l +:+ "@" +:+ dm +:+ "." +:+ t) = true.
Proof.
  rewrite contains_char_append.
  change ("@" +:+ dm +:+ "." +:+ t) with (String "@" (dm +:+ "." +:+ t)).
  replace (PyStr.contains_char "@" (String "@" (dm +:+ "." +:+ t))) with true by done.
  apply orb_true_r.
Qed.

(** X1. [Customer.validate_email] accepts exactly the strings made of a
    local part, [@], a domain part, [.] and a last part, each part
    non-empty and without [@]; it then returns the string in lower case
    with the white space around it removed. Every other string raises
    [InvalidEmailError], in particular every string without [@] and
    every string in which no [.] follows an [@]. *)
Theorem validate_email_accepts (email : string) :
  (email_shape email
   → Customer.validate_email email = Ok (PyStr.strip (PyStr.lower email)))
  ∧ (¬ email_shape email → Customer.validate_email email = Raise InvalidEmailError)
  ∧ (PyStr.contains_char "@" email = false ∨ dot_after_at email = false
     → Customer.validate_email email = Raise InvalidEmailError).
Proof.
  assert (Hno : ¬ email_shape email
                → Customer.validate_email email = Raise InvalidEmailError).
  { intros Hn. unfold Customer.validate_email.
    destruct (re_match Customer.email_re email) eqn:E; [|done].
    by apply re_match_email in E. }
  split_and!; [| done |].
  - intros H. apply re_match_email in H. unfold Customer.validate_email. by rewrite H.
  - intros H. apply Hno. intros (l & dm & t & -> & _).
    rewrite contains_at_shape, dot_after_at_shape in H. by destruct H.
Qed.

Lemma validate_email_accepts_witness :
  Customer.validate_email "JOHN@Example.COM" = Ok "john@example.com"%string.
Proof.
  apply (proj1 (validate_email_accepts "JOHN@Example.COM")).
  exists "JOHN"%string, "Example"%string, "COM"%string. by vm_compute.
Defined.

Ltac ascii_cases c := destruct c as [[] [] [] [] [] [] [] []]; try done.

Lemma decimal_not_space c : PyStr.isdecimal_char c = true → PyStr.isspace_char c = false.
Proof. ascii_cases c. Qed.

Lemma lang_opt_space sp :
  lang (Opt Space) sp
  ↔ (PyStr.len sp <= 1)%Z ∧ PyStr.forallb_str PyStr.isspace_char sp = true.
Proof.
  unfold Opt, Space. split.
  - intros [H|H]%lang_alt_inv.
    + apply lang_cls_inv in H as (c & -> & Hc). split; [done|]. simpl. by rewrite Hc.
    + by apply lang_eps_inv in H as ->.
  - intros [Hl Hf]. destruct sp as [|c [|c' sp]].
    + apply lang_alt_r. constructor.
    + apply lang_alt_l. constructor. simpl in Hf. by apply andb_true_iff in Hf as [-> _].
    + unfold PyStr.len in Hl. simpl in Hl. lia.
Qed.

Lemma lang_chri_cat c r s :
  lang (Cat (ChrI c) r) s
  ↔ ∃ x s', s = String x s' ∧ PyStr.lower_char x = PyStr.lower_char c ∧ lang r s'.
Proof.
  unfold ChrI. rewrite lang_cls_cat. split.
  - intros (x & s' & -> & Hc & H). apply Ascii.eqb_eq in Hc. by exists x, s'.
  - intros (x & s' & -> & Hc & H). exists x, s'. by rewrite Hc, Ascii.eqb_refl.
Qed.

Lemma lang_liti (w s : string) : lang (LitI w) s ↔ PyStr.lower s = PyStr.lower w.
Proof.
  unfold PyStr.lower. revert s. induction w as [|c w IH]; intros s; cbn [LitI PyStr.map_str].
  - split.
    + by intros ->%lang_eps_inv.
    + destruct s; [constructor | done].
  - rewrite lang_chri_cat. split.
    + intros (x & s' & -> & Hx & H). apply IH in H. cbn [PyStr.map_str].
      by rewrite Hx, H.
    + destruct s as [|x s']; [done|]. cbn [PyStr.map_str]. intros [= Hx Hs]. exists x, s'.
      split_and!; [done | done | by apply IH].
Qed.

Lemma lang_speed_unit u :
  lang (Alt (LitI "Mbps") (LitI "Gbps")) u ↔ speed_unit u = true.
Proof.
  unfold speed_unit. rewrite orb_true_iff, !String.eqb_eq. split.
  - intros [H|H]%lang_alt_inv; apply lang_liti in H; [by left | by right].
  - intros [H|H]; [apply lang_alt_l | apply lang_alt_r]; by apply lang_liti.
Qed.

Lemma lang_speed_re s : lang Plan.speed_re s ↔ speed_shape s.
Proof.
  unfold Plan.speed_re, speed_shape, Digit. rewrite lang_cat_iff. split.
  - intros (ds & s2 & -> & [Ht Hd]%lang_plus_cls & H).
    apply lang_cat_iff in H as (sp & u & -> & [Hl Hs]%lang_opt_space & Hu%lang_speed_unit).
    by exists ds, sp, u.
  - intros (ds & sp & u & -> & Ht & Hd & Hl & Hs & Hu). exists ds, (sp +:+ u).
    split_and!; [done | by apply lang_plus_cls |]. apply lang_cat_iff. exists sp, u.
    split_and!; [done | by apply lang_opt_space | by apply lang_speed_unit].
Qed.

(** White space around a string. *)
Lemma lstrip_nonspace c s :
  PyStr.isspace_char c = false → PyStr.lstrip (String c s) = String c s.
Proof. intros H. simpl. by rewrite H. Qed.

Lemma rstrip_append (a b : string) :
  PyStr.rstrip (a +:+ b)
  = if PyStr.truthy (PyStr.rstrip b) then a +:+ PyStr.rstrip b else PyStr.rstrip a.
Proof.
  induction a as [|c a IH].
  - rewrite !append_nil_l. by destruct (PyStr.rstrip b).
  - rewrite append_cons. cbn [PyStr.rstrip]. rewrite IH.
    destruct (PyStr.rstrip b) as [|c' r] eqn:Eb; cbn [PyStr.truthy]; [done|].
    rewrite append_cons. destruct (a +:+ String c' r) eqn:Ea; [|done].
    by apply append_eq_nil in Ea as [_ [=]].
Qed.

Lemma rstrip_nonspace s :
  PyStr.forallb_str (λ c, negb (PyStr.isspace_char c)) s = true → PyStr.rstrip s = s.
Proof.
  induction s as [|c s IH]; [done|]. cbn [PyStr.forallb_str PyStr.rstrip].
  intros [Hc Hs]%andb_true_iff. rewrite IH by done.
  apply negb_true_iff in Hc. rewrite Hc. by destruct s.
Qed.

Lemma lower_letter_nonspace c :
  PyStr.in_range 97 122 (PyStr.lower_char c) = true → PyStr.isspace_char c = false.
Proof. ascii_cases c. Qed.

Lemma lower_letters_nonspace u :
  PyStr.forallb_str (PyStr.in_range 97 122) (PyStr.lower u) = true
  → PyStr.forallb_str (λ c, negb (PyStr.isspace_char c)) u = true.
Proof.
  unfold PyStr.lower. induction u as [|c u IH]; [done|].
  cbn [PyStr.map_str PyStr.forallb_str]. intros [Hc Hu]%andb_true_iff.
  by rewrite (lower_letter_nonspace c Hc), IH.
Qed.

Lemma speed_unit_nonspace u :
  speed_unit u = true
  → PyStr.truthy u = true
    ∧ PyStr.forallb_str (λ c, negb (PyStr.isspace_char c)) u = true.
Proof.
  unfold speed_unit. rewrite orb_true_iff, !String.eqb_eq. intros H. split.
  - by destruct u, H.
  - apply lower_letters_nonspace. by destruct H as [-> | ->].
Qed.

Lemma strip_speed_shape s :
  speed_shape s
  → PyStr.strip s = s ∧ PyStr.strip (s +:+ String newline "") = s.
Proof.
  intros (ds & sp & u & -> & Ht & Hd & Hl & Hs & Hu).
  apply speed_unit_nonspace in Hu as [Hut Hun].
  assert (Hr : PyStr.rstrip (ds +:+ sp +:+ u) = ds +:+ sp +:+ u).
  { rewrite !rstrip_append, (rstrip_nonspace u Hun), Hut.
    by rewrite truthy_append, Hut, orb_true_r. }
  destruct ds as [|c ds]; [done|]. cbn [PyStr.forallb_str] in Hd.
  apply andb_true_iff in Hd as [Hc%decimal_not_space _].
  unfold PyStr.strip. rewrite !append_cons, !lstrip_nonspace by done.
  rewrite <- !append_cons. split; [done|].
  rewrite <- !append_assoc, rstrip_append, !append_assoc.
  replace (PyStr.truthy (PyStr.rstrip (String newline ""))) with false by done.
  done.
Qed.

Lemma re_match_speed s :
  re_match Plan.speed_re s = true
  ↔ speed_shape s ∨ ∃ r, s = r +:+ String newline "" ∧ speed_shape r.
Proof.
  unfold re_match. rewrite matches_lang, lang_cat_iff. split.
  - intros (s1 & s2 & -> & H1%lang_speed_re & H2). apply lang_alt_inv in H2 as [H2|H2].
    + apply lang_cls_inv in H2 as (c & -> & <-%Ascii.eqb_eq). right. by exists s1.
    + apply lang_eps_inv in H2 as ->. rewrite append_nil_r. by left.
  - intros [H | (r & -> & H)].
    + exists s, "". rewrite append_nil_r. split_and!; [done | by apply lang_speed_re |].
      apply lang_alt_r. constructor.
    + exists r, (String newline ""). split_and!; [done | by apply lang_speed_re |].
      apply lang_alt_l. constructor. apply Ascii.eqb_refl.
Qed.

(** X2. [Plan.validate_speed] accepts exactly the strings made of decimal
    digits, at most one white-space character and the unit [Mbps] or
    [Gbps] in any letter case, optionally followed by one newline; it
    returns that string without the newline. The value it returns is
    accepted again and returned unchanged. *)
Theorem validate_speed_accepts (speed : string) :
  (speed_shape speed
   → Plan.validate_speed speed = Ok speed
     ∧ Plan.validate_speed (speed +:+ String newline "") = Ok speed)
  ∧ (∀ r, Plan.validate_speed speed = Ok r
          → speed_shape r
            ∧ (speed = r ∨ speed = r +:+ String newline "")
            ∧ Plan.validate_speed r = Ok r)
  ∧ (¬ speed_shape speed
     → (∀ r, speed = r +:+ String newline "" → ¬ speed_shape r)
     → Plan.validate_speed speed = Raise InvalidSpeedError).
Proof.
  assert (Hok : ∀ s, speed_shape s
                     → Plan.validate_speed s = Ok s
                       ∧ Plan.validate_speed (s +:+ String newline "") = Ok s).
  { intros s Hs. destruct (strip_speed_shape s Hs) as [H1 H2].
    unfold Plan.validate_speed. split.
    - rewrite (proj2 (re_match_speed s)) by by left. cbn [negb]. by rewrite H1.
    - rewrite (proj2 (re_match_speed _)) by (right; by exists s). cbn [negb].
      by rewrite H2. }
  split_and!; [apply Hok | |].
  - intros r. unfold Plan.validate_speed.
    destruct (re_match Plan.speed_re speed) eqn:E; [|done]. cbn [negb]. intros [= <-].
    apply re_match_speed in E as [H | (r & -> & H)].
    + destruct (strip_speed_shape _ H) as [-> _].
      split_and!; [done | by left | apply (Hok _ H)].
    + destruct (strip_speed_shape _ H) as [_ ->].
      split_and!; [done | by right | apply (Hok _ H)].
  - intros Hn Hn'. unfold Plan.validate_speed.
    destruct (re_match Plan.speed_re speed) eqn:E; [|done].
    apply re_match_speed in E as [H | (r & -> & H)]; [done|]. by destruct (Hn' r).
Qed.

Lemma validate_speed_accepts_witness :
  Plan.validate_speed "100 mbps" = Ok "100 mbps"%string
  ∧ Plan.validate_speed ("100 mbps" +:+ String newline "") = Ok "100 mbps"%string.
Proof.
  apply (proj1 (validate_speed_accepts "100 mbps")).
  exists "100"%string, " "%string, "mbps"%string. by vm_compute.
Defined.

(** [strip] and [lower] *)
Lemma lstrip_head s :
  PyStr.lstrip s = ""%string
  ∨ ∃ c s', PyStr.lstrip s = String c s' ∧ PyStr.isspace_char c = false.
Proof.
  induction s as [|c s IH]; [by left|]. cbn [PyStr.lstrip].
  destruct (PyStr.isspace_char c) eqn:Ec; [done|]. right. by exists c, s.
Qed.

Lemma rstrip_head c s :
  PyStr.isspace_char c = false → ∃ s', PyStr.rstrip (String c s) = String c s'.
Proof.
  intros Hc. cbn [PyStr.rstrip]. rewrite Hc. destruct (PyStr.rstrip s); by eexists.
Qed.

Lemma rstrip_idem s : PyStr.rstrip (PyStr.rstrip s) = PyStr.rstrip s.
Proof.
  induction s as [|c s IH]; [done|]. cbn [PyStr.rstrip].
  destruct (PyStr.rstrip s) as [|c' r] eqn:Er.
  - destruct (PyStr.isspace_char c) eqn:Ec; [done|]. cbn [PyStr.rstrip]. by rewrite Ec.
  - cbn [PyStr.rstrip] in *. by rewrite IH.
Qed.

Lemma strip_idem s : PyStr.strip (PyStr.strip s) = PyStr.strip s.
Proof.
  unfold PyStr.strip. destruct (lstrip_head s) as [-> | (c & s' & -> & Hc)]; [done|].
  destruct (rstrip_head c s' Hc) as (r & Hr).
  rewrite Hr at 1. rewrite lstrip_nonspace by done. rewrite <- Hr. apply rstrip_idem.
Qed.

Lemma isspace_lower_char c : PyStr.isspace_char (PyStr.lower_char c) = PyStr.isspace_char c.
Proof. ascii_cases c. Qed.

Lemma lower_char_idem c : PyStr.lower_char (PyStr.lower_char c) = PyStr.lower_char c.
Proof. ascii_cases c. Qed.

Lemma lower_char_at c : Ascii.eqb "@" (PyStr.lower_char c) = Ascii.eqb "@" c.
Proof. ascii_cases c. Qed.

Lemma lower_idem s : PyStr.lower (PyStr.lower s) = PyStr.lower s.
Proof.
  unfold PyStr.lower. induction s as [|c s IH]; [done|]. cbn [PyStr.map_str].
  by rewrite lower_char_idem, IH.
Qed.

Lemma lower_append (a b : string) : PyStr.lower (a +:+ b) = PyStr.lower a +:+ PyStr.lower b.
Proof.
  unfold PyStr.lower. induction a as [|c a IH]; [by rewrite !append_nil_l|].
  cbn [PyStr.map_str]. by rewrite !append_cons, <- IH.
Qed.

Lemma lstrip_lower s : PyStr.lstrip (PyStr.lower s) = PyStr.lower (PyStr.lstrip s).
Proof.
  unfold PyStr.lower. induction s as [|c s IH]; [done|].
  cbn [PyStr.map_str PyStr.lstrip]. rewrite isspace_lower_char.
  by destruct (PyStr.isspace_char c).
Qed.

Lemma rstrip_lower s : PyStr.rstrip (PyStr.lower s) = PyStr.lower (PyStr.rstrip s).
Proof.
  unfold PyStr.lower. induction s as [|c s IH]; [done|].
  cbn [PyStr.map_str PyStr.rstrip]. rewrite IH, isspace_lower_char.
  destruct (PyStr.rstrip s); cbn [PyStr.map_str]; [|done].
  by destruct (PyStr.isspace_char c).
Qed.

Lemma strip_lower s : PyStr.strip (PyStr.lower s) = PyStr.lower (PyStr.strip s).
Proof. unfold PyStr.strip. by rewrite lstrip_lower, rstrip_lower. Qed.

Lemma email_part_lower s : email_part (PyStr.lower s) = email_part s.
Proof.
  unfold email_part. f_equal; [by destruct s|]. f_equal.
  unfold PyStr.lower, PyStr.contains_char. induction s as [|c s IH]; [done|].
  cbn [PyStr.map_str PyStr.existsb_str]. by rewrite lower_char_at, IH.
Qed.

Lemma email_shape_lower s : email_shape s → email_shape (PyStr.lower s).
Proof.
  intros (l & dm & t & -> & Hl & Hd & Ht).
  exists (PyStr.lower l), (PyStr.lower dm), (PyStr.lower t).
  rewrite !email_part_lower. split_and!; [|done..]. by rewrite !lower_append.
Qed.

Lemma validate_email_stripped (email r : string) :
  PyStr.strip email = email →
  Customer.validate_email email = Ok r →
  r = PyStr.lower email ∧ email_shape r ∧ Customer.validate_email r = Ok r.
Proof.
  intros Hs Hv. unfold Customer.validate_email in Hv.
  destruct (re_match Customer.email_re email) eqn:E; [|done]. injection Hv as <-.
  apply re_match_email in E. rewrite strip_lower, Hs.
  split_and!; [done | by apply email_shape_lower |].
  unfold Customer.validate_email.
  rewrite (proj2 (re_match_email _) (email_shape_lower _ E)). cbn [negb].
  by rewrite lower_idem, strip_lower, Hs.
Qed.

(** X3. An email without white space around it that
    [Customer.validate_email] accepts is returned in lower case, and the
    returned value has the shape of an email and is accepted again
    unchanged: validation is idempotent on what the handlers pass, which
    they strip first. *)
Theorem validate_email_stored (email r : string) :
  PyStr.strip email = email →
  Customer.validate_email email = Ok r →
  r = PyStr.lower email ∧ email_shape r ∧ Customer.validate_email r = Ok r.
Proof. apply validate_email_stripped. Qed.

Lemma validate_email_stored_witness :
  "john@example.com"%string = PyStr.lower "John@Example.com"
  ∧ email_shape "john@example.com"
  ∧ Customer.validate_email "john@example.com" = Ok "john@example.com"%string.
Proof.
  apply (validate_email_stored "John@Example.com" "john@example.com"); by vm_compute.
Defined.

(** Without that condition validation is not idempotent: the white space
    counts as a local part, and is then stripped. *)
Lemma validate_email_strips_local_part :
  Customer.validate_email " @b.c" = Ok "@b.c"%string
  ∧ Customer.validate_email "@b.c" = Raise InvalidEmailError.
Proof. by vm_compute. Qed.

End patterns.

(** ** Days remaining *)

Section ordinal.
Local Open Scope Z_scope.

Lemma days_before_year_succ y :
  days_before_year (y + 1) = days_before_year y + 365 + (if is_leap y then 1 else 0).
Proof.
  unfold days_before_year, is_leap. replace (y + 1 - 1) with y by lia.
  destruct (Z.eqb_spec (y mod 4) 0), (Z.eqb_spec (y mod 100) 0),
    (Z.eqb_spec (y mod 400) 0); cbn [andb orb negb];
    Z.div_mod_to_equations; lia.
Qed.

Lemma days_before_year_mono y1 y2 :
  y1 <= y2 → days_before_year y1 + 365 * (y2 - y1) <= days_before_year y2.
Proof.
  intros H. replace y2 with (y1 + (y2 - y1)) at 2 by lia.
  assert (Hn : 0 <= y2 - y1) by lia. revert Hn. generalize (y2 - y1). clear.
  apply natlike_ind.
  - rewrite Z.mul_0_r, !Z.add_0_r. lia.
  - intros n Hn IH. replace (y1 + Z.succ n) with (y1 + n + 1) by lia.
    rewrite days_before_year_succ. destruct (is_leap (y1 + n)); lia.
Qed.

Lemma day_of_year_bounds y m d :
  1 <= m <= 12 → 1 <= d <= days_in_month y m →
  1 <= days_before_month y m + d <= 365 + (if is_leap y then 1 else 0).
Proof.
  intros Hm Hd. unfold days_before_month, days_in_month in *.
  assert (m = 1 ∨ m = 2 ∨ m = 3 ∨ m = 4 ∨ m = 5 ∨ m = 6 ∨ m = 7 ∨ m = 8 ∨ m = 9
          ∨ m = 10 ∨ m = 11 ∨ m = 12) as Hc by lia.
  destruct (is_leap y);
    repeat (destruct Hc as [-> | Hc]; [cbn in *; lia|]); subst; cbn in *; lia.
Qed.

Lemma day_of_year_mono y m1 d1 m2 d2 :
  1 <= m1 → m1 < m2 → m2 <= 12 → 1 <= d1 <= days_in_month y m1 → 1 <= d2 →
  days_before_month y m1 + d1 < days_before_month y m2 + d2.
Proof.
  intros H1 H12 H2 Hd1 Hd2. unfold days_before_month, days_in_month in *.
  assert (m1 = 1 ∨ m1 = 2 ∨ m1 = 3 ∨ m1 = 4 ∨ m1 = 5 ∨ m1 = 6 ∨ m1 = 7 ∨ m1 = 8
          ∨ m1 = 9 ∨ m1 = 10 ∨ m1 = 11) as Hc1 by lia.
  assert (m2 = 2 ∨ m2 = 3 ∨ m2 = 4 ∨ m2 = 5 ∨ m2 = 6 ∨ m2 = 7 ∨ m2 = 8 ∨ m2 = 9
          ∨ m2 = 10 ∨ m2 = 11 ∨ m2 = 12) as Hc2 by lia.
  destruct (is_leap y);
    repeat (destruct Hc1 as [-> | Hc1]; [|]); subst;
    repeat (destruct Hc2 as [-> | Hc2]; [try lia; cbn in *; lia|]); subst;
    try lia; cbn in *; lia.
Qed.

(** The ordinal of a date grows with the date. *)
Lemma toordinal_lt a b :
  valid_date a → valid_date b → date_ltb a b = true → toordinal a < toordinal b.
Proof.
  intros (Hya & Hma & Hda) (Hyb & Hmb & Hdb). unfold date_ltb, toordinal, ymd_to_ord.
  intros [Hy | [Hy H]%andb_true_iff]%orb_true_iff.
  - apply Z.ltb_lt in Hy.
    pose proof (days_before_year_mono (year a + 1) (year b) ltac:(lia)) as Hmono.
    rewrite days_before_year_succ in Hmono.
    pose proof (day_of_year_bounds _ _ _ Hma Hda).
    pose proof (day_of_year_bounds _ _ _ Hmb Hdb).
    destruct (is_leap (year a)), (is_leap (year b)); lia.
  - apply Z.eqb_eq in Hy. rewrite <- Hy in *.
    apply orb_true_iff in H as [Hm | [Hm Hd]%andb_true_iff].
    + apply Z.ltb_lt in Hm.
      pose proof (day_of_year_mono (year a) (month a) (day a) (month b) (day b)). lia.
    + apply Z.eqb_eq in Hm. apply Z.ltb_lt in Hd. rewrite Hm. lia.
Qed.

Lemma date_eqb_eq a b : date_eqb a b = true → a = b.
Proof.
  unfold date_eqb. intros [[Hy Hm]%andb_true_iff Hd]%andb_true_iff.
  destruct a, b. cbn in *. f_equal; by apply Z.eqb_eq.
Qed.

Lemma date_ltb_sub_days a b :
  valid_date a → valid_date b → date_ltb a b = (sub_days a b <? 0).
Proof.
  intros Ha Hb. unfold sub_days.
  destruct (date_ltb a b) eqn:E.
  - pose proof (toordinal_lt a b Ha Hb E). symmetry. apply Z.ltb_lt. lia.
  - symmetry. apply Z.ltb_ge. rewrite date_ltb_leb in E. apply negb_false_iff in E.
    unfold date_leb in E. apply orb_true_iff in E as [E | ->%date_eqb_eq]; [|lia].
    pose proof (toordinal_lt b a Hb Ha E). lia.
Qed.

(** X4. For a current date and an end date that are calendar dates,
    [Subscription.is_active] holds exactly when the status is [active]
    and [Subscription.days_remaining] is absent or not negative, and the
    [expired] filter of [list_subscriptions] selects exactly the rows
    with status [active] and a negative number of days remaining. *)
Theorem days_remaining_sign (today : date) (s : Subscription.t) :
  valid_date today →
  (∀ e, Subscription.end_date s = Some e → valid_date e) →
  Subscription.is_active today s
  = Subscription.status_is "active" s
    && match Subscription.days_remaining today s with
       | Some n => 0 <=? n
       | None => true
       end
  ∧ SQL.is_true (list_where "expired" today s)
    = Subscription.status_is "active" s
      && match Subscription.days_remaining today s with
         | Some n => n <? 0
         | None => false
         end.
Proof.
  intros Ht He. rewrite list_where_expired.
  unfold Subscription.is_active, Subscription.days_remaining.
  destruct (Subscription.end_date s) as [e|]; [|done].
  specialize (He e eq_refl).
  assert (date_leb today e = negb (date_ltb e today)) as ->
    by by rewrite date_ltb_leb, negb_involutive.
  rewrite (date_ltb_sub_days e today He Ht). by rewrite <- Z.leb_antisym.
Qed.

Lemma days_remaining_sign_witness :
  Subscription.is_active jan_31 (john_subscription jan_15)
  = Subscription.status_is "active" (john_subscription jan_15)
    && match Subscription.days_remaining jan_31 (john_subscription jan_15) with
       | Some n => 0 <=? n
       | None => true
       end
  ∧ SQL.is_true (list_where "expired" jan_31 (john_subscription jan_15))
    = Subscription.status_is "active" (john_subscription jan_15)
      && match Subscription.days_remaining jan_31 (john_subscription jan_15) with
         | Some n => n <? 0
         | None => false
         end.
Proof.
  apply (days_remaining_sign jan_31 (john_subscription jan_15)).
  - by vm_compute.
  - intros e [= <-]. by vm_compute.
Defined.

End ordinal.

(** ** The store and the handlers *)

Section store.
Local Open Scope Z_scope.

Lemma max_key_ge {A} (m : gmap Z A) k x : m !! k = Some x → k <= max_key m.
Proof.
  intros H%elem_of_map_to_list. unfold max_key, rows.
  induction (map_to_list m) as [|r l IH]; [by apply elem_of_nil in H|].
  cbn [foldr]. apply elem_of_cons in H as [<- | H]; [cbn; lia | specialize (IH H); lia].
Qed.

(** The key of a new row is not in use. *)
Lemma next_key_fresh {A} seq (m : gmap Z A) : m !! next_key seq m = None.
Proof.
  destruct (m !! next_key seq m) eqn:E; [|done].
  apply max_key_ge in E. unfold next_key in E. lia.
Qed.

Lemma existsb_rows_false {A} (f : Z * A → bool) (m : gmap Z A) :
  existsb f (rows m) = false ↔ ∀ i x, m !! i = Some x → f (i, x) = false.
Proof.
  unfold rows. rewrite <- not_true_iff_false, existsb_exists. split.
  - intros Hn i x Hl. destruct (f (i, x)) eqn:E; [|done]. destruct Hn.
    exists (i, x). split; [|done]. by apply list_elem_of_In, elem_of_map_to_list.
  - intros Hall ([i x] & Hin & Hf). apply list_elem_of_In, elem_of_map_to_list in Hin.
    rewrite (Hall i x Hin) in Hf. done.
Qed.

Lemma customer_conflict_false d c :
  customer_conflict d c = false
  ↔ ∀ i c0, customers d !! i = Some c0 →
            Customer.email c0 ≠ Customer.email c
            ∧ Customer.router_id c0 ≠ Customer.router_id c.
Proof.
  unfold customer_conflict. rewrite existsb_rows_false.
  split; intros H i c0 Hl; specialize (H i c0 Hl); cbn [snd] in *.
  - apply orb_false_iff in H as [He Hr]. by apply String.eqb_neq in He; apply Z.eqb_neq in Hr.
  - destruct H as [He Hr]. apply orb_false_iff.
    by apply String.eqb_neq in He; apply Z.eqb_neq in Hr.
Qed.

Lemma subscription_conflict_false_iff d s :
  subscription_conflict d s = false
  ↔ ∀ i s0, subscriptions d !! i = Some s0 →
            Subscription.router_id s0 ≠ Subscription.router_id s.
Proof.
  unfold subscription_conflict. rewrite existsb_rows_false.
  split; intros H i s0 Hl; specialize (H i s0 Hl); cbn [snd] in *; by apply Z.eqb_neq.
Qed.

Lemma insert_customer_Ok d c k d1 :
  insert_customer d c = Ok (k, d1)
  ↔ SQL.fits_integer (Customer.router_id c) = true
    ∧ customer_conflict d c = false
    ∧ k = next_key (seq_customers d) (customers d)
    ∧ d1 = set_customers (<[k := c]> (customers d)) k d.
Proof.
  unfold insert_customer.
  destruct (SQL.fits_integer _); cbn [negb]; [|by split; [|intros (? & _)]].
  destruct (customer_conflict d c); [by split; [|intros (_ & ? & _)]|]. split.
  - by intros [= <- <-].
  - by intros (_ & _ & -> & ->).
Qed.

Lemma update_subscription_row_Ok d k s d1 :
  update_subscription_row d k s = Ok d1
  ↔ subscription_checks s = true
    ∧ d1 = set_subscriptions (<[k := s]> (subscriptions d)) (seq_subscriptions d) d.
Proof.
  unfold update_subscription_row.
  destruct (subscription_checks s); cbn [negb]; [|by split; [|intros (? & _)]]. split.
  - by intros [= <-].
  - by intros (_ & ->).
Qed.

Lemma update_customer_row_Ok d k old c d1 :
  update_customer_row d k old c = Ok d1
  ↔ (Customer.email c = Customer.email old
     ∨ ∀ i c0, customers d !! i = Some c0 → i ≠ k →
               Customer.email c0 ≠ Customer.email c)
    ∧ d1 = set_customers (<[k := c]> (customers d)) (seq_customers d) d.
Proof.
  unfold update_customer_row.
  destruct (String.eqb_spec (Customer.email c) (Customer.email old)) as [He|He];
    cbn [negb andb].
  - split; [intros [= <-]; split; [by left | done] | by intros (_ & ->)].
  - destruct (existsb _ _) eqn:Ex.
    + split; [done|]. intros ([?|Hall] & _); [done|].
      assert (existsb (λ r : Z * Customer.t,
                negb (r.1 =? k) && String.eqb (Customer.email r.2) (Customer.email c))
                (rows (customers d)) = false) as Ex'; [|congruence].
      apply existsb_rows_false. intros i c0 Hl. cbn [fst snd].
      destruct (Z.eqb_spec i k) as [->|Hik]; [done|]. cbn [negb andb].
      apply String.eqb_neq. by apply (Hall i).
    + split; [|by intros (_ & ->)]. intros [= <-]. split; [|done]. right.
      intros i c0 Hl Hik. specialize (proj1 (existsb_rows_false _ _) Ex i c0 Hl).
      cbn [fst snd]. destruct (Z.eqb_spec i k); [done|]. cbn [negb andb].
      by intros ?%String.eqb_neq.
Qed.

(** *** Reading the typed lines *)

Lemma io_bind_input_strip_any {A} (k : string → io A) ins :
  (input_strip ≫= k) ins
  = match ins with
    | x :: rest => k (PyStr.strip x) rest
    | [] => Raise EOFError
    end.
Proof. by destruct ins. Qed.

Lemma get_if_digit_Some_iff {A} (m : gmap Z A) s k x :
  get_if_digit m s = Ok (Some (k, x))
  ↔ PyStr.int s = Ok k ∧ SQL.fits_integer k = true ∧ m !! k = Some x.
Proof.
  unfold get_if_digit. split.
  - destruct (PyStr.isdigit s); [|done]. apply get_int_Some.
  - intros H. rewrite (int_isdigit s k) by apply H. by apply get_int_Some.
Qed.

(** *** What a run of each handler does to the store *)

Lemma create_customer_inv clk d ins o d' :
  run (create_customer clk d) ins = Ok (o, d') →
  (d' = d ∧ ∀ k, o ≠ Created k)
  ∨ ∃ name email phone address rid rest k z e p,
      ins = name :: email :: phone :: address :: rid :: rest
      ∧ o = Created k
      ∧ validate_customer_data (PyStr.strip name) (PyStr.strip email) (PyStr.strip rid) = []
      ∧ PyStr.int (PyStr.strip rid) = Ok z
      ∧ Customer.validate_email (PyStr.strip email) = Ok e
      ∧ Customer.validate_phone
          (if PyStr.truthy (PyStr.strip phone) then Some (PyStr.strip phone) else None)
        = Ok p
      ∧ insert_customer d
          (Customer.mk z (PyStr.strip name) e p (Some (PyStr.strip address)) (now clk) None)
        = Ok (k, d').
Proof.
  unfold run, create_customer.
  rewrite io_bind_input_strip_any. destruct ins as [|name ins]; [done|].
  rewrite io_bind_input_strip_any. destruct ins as [|email ins]; [done|].
  rewrite io_bind_input_strip_any. destruct ins as [|phone ins]; [done|].
  rewrite io_bind_input_strip_any. destruct ins as [|address ins]; [done|].
  rewrite io_bind_input_strip_any. destruct ins as [|rid rest]; [done|].
  destruct (decide (validate_customer_data (PyStr.strip name) (PyStr.strip email)
                      (PyStr.strip rid) = [])) as [Hv|Hv].
  2:{ rewrite bool_decide_eq_false_2 by done. intros [= <- <-]. by left. }
  rewrite bool_decide_eq_true_2 by done. cbn [negb].
  destruct (PyStr.int (PyStr.strip rid)) as [z|] eqn:Ez; cbn [mbind result_bind rbind].
  2:{ intros [= <- <-]. by left. }
  unfold Customer.new.
  destruct (Customer.validate_email _) as [e|] eqn:Ee; cbn [mbind result_bind rbind].
  2:{ intros [= <- <-]. by left. }
  destruct (Customer.validate_phone _) as [p|] eqn:Ep; cbn [mbind result_bind rbind].
  2:{ intros [= <- <-]. by left. }
  destruct (insert_customer d _) as [[k d1]|] eqn:Ei.
  2:{ intros [= <- <-]. by left. }
  intros [= <- <-]. right. by exists name, email, phone, address, rid, rest, k, z, e, p.
Qed.

Lemma validate_customer_data_nil name email rid :
  validate_customer_data name email rid = [] →
  PyStr.truthy name = true ∧ PyStr.contains_char "@" email = true
  ∧ PyStr.isdigit rid = true ∧ PyStr.len rid = 10.
Proof.
  unfold validate_customer_data.
  destruct (PyStr.truthy name); cbn [negb];
    [|by destruct (_ || _), (_ || _)].
  destruct (PyStr.truthy email) eqn:Et; cbn [negb orb];
    [|by destruct (_ || _)].
  destruct (PyStr.contains_char "@" email); cbn [negb];
    [|by destruct (_ || _)].
  destruct (PyStr.isdigit rid); cbn [negb orb]; [|done].
  destruct (Z.eqb_spec (PyStr.len rid) 10); cbn [negb]; done.
Qed.

Lemma update_customer_inv clk d ins o d' :
  run (update_customer clk d) ins = Ok (o, d') →
  (d' = d ∧ o ≠ CustomerUpdated)
  ∨ ∃ k c name x email y phone address,
      customers d !! k = Some c
      ∧ o = CustomerUpdated
      ∧ PyStr.truthy name = true
      ∧ PyStr.isdigit (PyStr.str (Customer.router_id c)) = true
      ∧ PyStr.len (PyStr.str (Customer.router_id c)) = 10
      ∧ (x = Customer.email c ∨ PyStr.strip x = x)
      ∧ Customer.validate_email x = Ok email
      ∧ Customer.validate_phone y = Ok phone
      ∧ update_customer_row d k c
          (Customer.mk (Customer.router_id c) name email phone address
             (Customer.created_at c) (Some (now clk)))
        = Ok d'.
Proof.
  unfold run, update_customer. cbv zeta.
  rewrite io_bind_input_strip_any. destruct ins as [|cid ins]; [done|].
  rewrite io_bind_lift.
  destruct (get_if_digit (customers d) (PyStr.strip cid)) as [[[k c]|]|] eqn:Eg; [| |done].
  2:{ intros [= <- <-]. by left. }
  apply get_if_digit_inv in Eg as [_ Hl].
  rewrite io_bind_input_strip_any. destruct ins as [|l1 ins]; [done|].
  rewrite io_bind_input_strip_any. destruct ins as [|l2 ins]; [done|].
  rewrite io_bind_input_strip_any. destruct ins as [|l3 ins]; [done|].
  rewrite io_bind_input_strip_any. destruct ins as [|l4 rest]; [done|].
  match goal with
  | |- context [validate_customer_data ?n ?e ?r] =>
      destruct (decide (validate_customer_data n e r = [])) as [Hv|Hv]
  end.
  2:{ rewrite bool_decide_eq_false_2 by done. intros [= <- <-]. by left. }
  rewrite bool_decide_eq_true_2 by done. cbn [negb].
  apply validate_customer_data_nil in Hv as (Hn & _ & Hd & Hlen).
  destruct (Customer.validate_email _) as [e|] eqn:Ee; cbn [mbind result_bind rbind].
  2:{ intros [= <- <-]. by left. }
  destruct (Customer.validate_phone _) as [p|] eqn:Ep; cbn [mbind result_bind rbind].
  2:{ intros [= <- <-]. by left. }
  destruct (update_customer_row d k c _) as [d1|] eqn:Eu.
  2:{ intros [= <- <-]. by left. }
  intros [= <- <-]. right. eexists k, c, _, _, e, _, p, _.
  split_and!; [done | done | exact Hn | done | done | | exact Ee | exact Ep | exact Eu].
  destruct (PyStr.truthy (PyStr.strip l2)); [right; apply strip_idem | by left].
Qed.

Lemma delete_customer_inv d ins o d' :
  run (delete_customer d) ins = Ok (o, d') →
  (d' = d ∧ o ≠ CustomerDeleted)
  ∨ ∃ k c,
      customers d !! k = Some c
      ∧ o = CustomerDeleted
      ∧ delete_customer_row d k = Ok d'.
Proof.
  unfold run, delete_customer. cbv zeta.
  rewrite io_bind_input_strip_any. destruct ins as [|cid ins]; [done|].
  rewrite io_bind_lift.
  destruct (get_if_digit (customers d) (PyStr.strip cid)) as [[[k c]|]|] eqn:Eg; [| |done].
  2:{ intros [= <- <-]. by left. }
  apply get_if_digit_inv in Eg as [_ Hl].
  rewrite io_bind_input_strip_any. destruct ins as [|line rest]; [done|].
  destruct (String.eqb _ "y"); cbn [negb].
  2:{ intros [= <- <-]. by left. }
  destruct (delete_customer_row d k) as [d1|] eqn:Ed.
  2:{ intros [= <- <-]. by left. }
  intros [= <- <-]. right. by exists k, c.
Qed.

Lemma delete_plan_inv d ins o d' :
  run (delete_plan d) ins = Ok (o, d') → d' = d.
Proof.
  unfold run, delete_plan, delete_plan_with.
  rewrite io_bind_input_strip_any. destruct ins as [|pid ins]; [done|].
  rewrite io_bind_lift.
  destruct (get_if_digit (plans d) (PyStr.strip pid)) as [[[k p]|]|]; [| |done];
    by intros [= <- <-].
Qed.

Lemma delete_subscription_inv clk d ins o d' :
  run (delete_subscription clk d) ins = Ok (o, d') →
  (d' = d ∧ o ≠ SubscriptionCancelled)
  ∨ ∃ k s,
      subscriptions d !! k = Some s
      ∧ o = SubscriptionCancelled
      ∧ update_subscription_row d k
          (Subscription.set_updated_at (Some (now clk))
             (Subscription.set_status (Some "terminated") s))
        = Ok d'.
Proof.
  unfold run, delete_subscription. rewrite io_bind_lift.
  destruct (list_subscriptions d "active" (today clk)); [|done].
  rewrite io_bind_input_strip_any. destruct ins as [|sid ins]; [done|].
  rewrite io_bind_lift.
  destruct (get_if_digit (subscriptions d) (PyStr.strip sid)) as [[[k s]|]|] eqn:Eg;
    [| |done].
  2:{ intros [= <- <-]. by left. }
  apply get_if_digit_inv in Eg as [_ Hl].
  rewrite io_bind_input_strip_any. destruct ins as [|line rest]; [done|].
  destruct (String.eqb _ "y"); cbn [negb].
  2:{ intros [= <- <-]. by left. }
  destruct (update_subscription_row d k _) as [d1|] eqn:Eu.
  2:{ intros [= <- <-]. by left. }
  intros [= <- <-]. right. by exists k, s.
Qed.

Lemma create_subscription_inv clk d ins o d' :
  run (create_subscription clk d) ins = Ok (o, d') →
  (d' = d ∧ ∀ k, o ≠ SubscriptionCreated k)
  ∨ ∃ c p n rest k ck cust pk plan N e,
      ins = c :: p :: n :: rest
      ∧ o = SubscriptionCreated k
      ∧ PyStr.int (PyStr.strip c) = Ok ck
      ∧ customers d !! ck = Some cust
      ∧ PyStr.int (PyStr.strip p) = Ok pk
      ∧ plans d !! pk = Some plan
      ∧ PyStr.int (typed_duration n) = Ok N ∧ 1 <= N
      ∧ add_relativedelta (today clk) (relativedelta_months N) = Ok e
      ∧ insert_subscription d (new_subscription clk ck pk cust e) = Ok (k, d').
Proof.
  unfold run, create_subscription.
  destruct (bool_decide (rows (customers d) = [])); [intros [= <- <-]; by left|].
  destruct (bool_decide (rows (plans d) = [])); [intros [= <- <-]; by left|].
  rewrite io_bind_input_strip_any. destruct ins as [|c ins]; [done|].
  rewrite io_bind_input_strip_any. destruct ins as [|p ins]; [done|].
  rewrite io_bind_input_strip_any. destruct ins as [|n rest]; [done|].
  rewrite io_bind_lift. fold (typed_duration n).
  destruct (validate_subscription_input _ _ _) as [errors|] eqn:Ev; [|done].
  destruct (decide (errors = [])) as [->|Hne].
  2:{ rewrite bool_decide_eq_false_2 by done. intros [= <- <-]. by left. }
  rewrite bool_decide_eq_true_2 by done. cbn [negb].
  apply validate_subscription_input_ok in Ev as (Hc & Hp & N & HN & HN1).
  rewrite io_bind_lift.
  destruct (get_int (customers d) _) as [[[ck cust]|]|] eqn:Egc; [| |done].
  2:{ rewrite io_bind_lift. destruct (get_int (plans d) _); [|done].
      intros [= <- <-]. by left. }
  rewrite io_bind_lift.
  destruct (get_int (plans d) _) as [[[pk plan]|]|] eqn:Egp; [| |done].
  2:{ intros [= <- <-]. by left. }
  rewrite io_bind_lift, HN. cbn [mbind result_bind rbind].
  destruct (add_relativedelta _ _) as [e|] eqn:Eadd; [|done].
  unfold Subscription.new, Subscription.validate_start_date.
  destruct (date_ltb (today clk) (today clk)) eqn:Elt.
  { cbn [mbind result_bind rbind]. intros [= <- <-]. by left. }
  cbn [mbind result_bind rbind]. fold (new_subscription clk ck pk cust e).
  destruct (insert_subscription d _) as [[k' d1]|] eqn:Eins.
  2:{ intros [= <- <-]. by left. }
  intros [= <- <-].
  apply get_int_Some in Egc as (? & ? & ?), Egp as (? & ? & ?).
  right. exists c, p, n, rest, k', ck, cust, pk, plan, N, e. done.
Qed.

Lemma io_bind_unfold {A B} (m : io A) (k : A → io B) ins :
  (m ≫= k) ins
  = match m ins with
    | Ok (v, rest) => k v rest
    | Raise e => Raise e
    end.
Proof. done. Qed.

Lemma io_ret_apply {A} (x : A) ins : (mret x : io A) ins = Ok (x, ins).
Proof. done. Qed.

Lemma status_map_Some choice st :
  status_map choice = Some st →
  (st = "active" ∧ choice = "1") ∨ (st = "suspended" ∧ choice ≠ "1")
  ∨ (st = "terminated" ∧ choice ≠ "1").
Proof.
  unfold status_map.
  destruct (String.eqb_spec choice "1"); [intros [= <-]; by left|].
  destruct (String.eqb_spec choice "2"); [intros [= <-]; right; by left|].
  destruct (String.eqb_spec choice "3"); [intros [= <-]; right; by right|done].
Qed.

(** The row a run of [update_subscription] writes. *)
Lemma update_subscription_inv clk d ins o d' :
  run (update_subscription clk d) ins = Ok (o, d') →
  (d' = d ∧ o ≠ StatusUpdated ∧ ∀ e, o ≠ Extended e)
  ∨ ∃ k s s',
      subscriptions d !! k = Some s
      ∧ update_subscription_row d k s' = Ok d'
      ∧ ((o = StatusUpdated
          ∧ ∃ st, (st = "active" ∨ st = "suspended" ∨ st = "terminated")%string
                  ∧ (s' = Subscription.set_updated_at (Some (now clk))
                            (Subscription.set_status (Some st) s)
                     ∨ ∃ e n e',
                         st = "active"%string
                         ∧ Subscription.end_date s = Some e
                         ∧ date_ltb e (today clk) = true
                         ∧ 0 < n
                         ∧ add_relativedelta (today clk) (relativedelta_months n) = Ok e'
                         ∧ s' = Subscription.set_end_date (Some e')
                                  (Subscription.set_updated_at (Some (now clk))
                                     (Subscription.set_status (Some st) s))))
         ∨ ∃ e n e',
             o = Extended e'
             ∧ Subscription.end_date s = Some e
             ∧ 1 <= n
             ∧ add_relativedelta e (relativedelta_months n) = Ok e'
             ∧ s' = Subscription.set_updated_at (Some (now clk))
                      (Subscription.set_end_date (Some e') s)).
Proof.
  unfold run, update_subscription. rewrite io_bind_lift.
  destruct (list_subscriptions d "all" (today clk)) as [l|]; [|done].
  rewrite io_bind_input_strip_any. destruct ins as [|sid ins]; [done|].
  rewrite io_bind_lift.
  destruct (get_if_digit (subscriptions d) _) as [[[k s]|]|] eqn:Eget; [| |done].
  2:{ intros [= <- <-]. by left. }
  apply get_if_digit_inv in Eget as [Hk Hs].
  rewrite io_bind_input_strip_any. destruct ins as [|choice ins]; [done|].
  destruct (String.eqb (PyStr.strip choice) "1").
  - rewrite io_bind_input_strip_any. destruct ins as [|sc ins]; [done|].
    destruct (status_map (PyStr.strip sc)) as [st|] eqn:Est.
    2:{ intros [= <- <-]. by left. }
    assert ((st = "active" ∨ st = "suspended" ∨ st = "terminated")%string) as Hst.
    { apply status_map_Some in Est as [[-> _]|[[-> _]|[-> _]]]; auto. }
    cbv zeta. rewrite io_bind_unfold.
    cbn [Subscription.end_date Subscription.set_updated_at Subscription.set_status].
    destruct (Subscription.end_date s) as [e|] eqn:Eend.
    2:{ rewrite io_ret_apply.
        rewrite io_bind_lift.
        destruct (update_subscription_row d k _) as [d1|] eqn:Eu; [|done].
        intros [= <- <-]. right. eexists k, s, _. split_and!; [done | exact Eu |].
        left. split; [done|]. exists st. split; [done|]. by left. }
    destruct (String.eqb (PyStr.strip sc) "1" && date_ltb e (today clk)) eqn:Ere.
    2:{ rewrite io_ret_apply.
        rewrite io_bind_lift.
        destruct (update_subscription_row d k _) as [d1|] eqn:Eu; [|done].
        intros [= <- <-]. right. eexists k, s, _. split_and!; [done | exact Eu |].
        left. split; [done|]. exists st. split; [done|]. by left. }
    apply andb_true_iff in Ere as [Esc%String.eqb_eq Elt].
    assert (st = "active"%string) as ->.
    { apply status_map_Some in Est as [[-> _]|[[_ ?]|[_ ?]]]; done. }
    rewrite io_bind_input_strip_any. destruct ins as [|ext ins]; [done|].
    rewrite io_bind_lift.
    destruct (PyStr.isdigit (PyStr.strip ext)) eqn:Ed.
    2:{ rewrite io_ret_apply.
        rewrite io_bind_lift.
        destruct (update_subscription_row d k _) as [d1|] eqn:Eu; [|done].
        intros [= <- <-]. right. eexists k, s, _. split_and!; [done | exact Eu |].
        left. split; [done|]. exists "active"%string. split; [done|]. by left. }
    destruct (PyStr.int (PyStr.strip ext)) as [n|] eqn:En; [|done].
    cbn [mbind result_bind rbind].
    destruct (Z.gtb_spec n 0) as [Hn|Hn].
    2:{ rewrite io_ret_apply.
        rewrite io_bind_lift.
        destruct (update_subscription_row d k _) as [d1|] eqn:Eu; [|done].
        intros [= <- <-]. right. eexists k, s, _. split_and!; [done | exact Eu |].
        left. split; [done|]. exists "active"%string. split; [done|]. by left. }
    rewrite io_bind_lift.
    destruct (add_relativedelta (today clk) (relativedelta_months n)) as [e'|] eqn:Eadd;
      [|done].
    rewrite io_ret_apply.
    rewrite io_bind_lift.
    destruct (update_subscription_row d k _) as [d1|] eqn:Eu; [|done].
    intros [= <- <-]. right. eexists k, s, _. split_and!; [done | exact Eu |].
    left. split; [done|]. exists "active"%string. split; [done|]. right.
    exists e, n, e'. split_and!; [done..|lia|done|done].
  - destruct (String.eqb (PyStr.strip choice) "2").
    2:{ intros [= <- <-]. by left. }
    destruct (Subscription.end_date s) as [e0|] eqn:Eend.
    2:{ intros [= <- <-]. by left. }
    rewrite io_bind_input_strip_any. destruct ins as [|m ins]; [done|].
    rewrite io_bind_lift.
    destruct (PyStr.isdigit (PyStr.strip m)) eqn:Ed; cbn [negb].
    2:{ intros [= <- <-]. by left. }
    destruct (PyStr.int (PyStr.strip m)) as [M|] eqn:EM; [|done].
    cbn [mbind result_bind rbind].
    destruct (Z.ltb_spec M 1).
    { intros [= <- <-]. by left. }
    rewrite io_bind_lift.
    destruct (add_relativedelta e0 (relativedelta_months M)) as [e'|] eqn:Eadd; [|done].
    rewrite io_bind_lift.
    destruct (update_subscription_row d k _) as [d1|] eqn:Eu; [|done].
    intros [= <- <-]. right. eexists k, s, _. split_and!; [done | exact Eu |].
    right. exists e0, M, e'. done.
Qed.

Lemma reminder_loop_Ok_inv d today l dirty dirty' :
  reminder_loop d today l dirty = Ok dirty' →
  ∀ i s, (i, s) ∈ l →
         is_Some (subscription_customer d s) ∧ is_Some (subscription_plan d s).
Proof.
  revert dirty. induction l as [|[j sj] l IH]; intros dirty H i s Hin.
  - by apply elem_of_nil in Hin.
  - cbn [reminder_loop fst snd] in H.
    destruct (subscription_customer d sj) as [c|] eqn:Ec; [|done].
    destruct (subscription_plan d sj) as [p|] eqn:Ep; [|done].
    apply elem_of_cons in Hin as [[= -> ->]|Hin]; [rewrite Ec, Ep; eauto|].
    destruct (PyStr.truthy (Customer.email c)); by eapply IH.
Qed.

(** The rows a run of the sweep writes. *)
Lemma check_expiring_effect clk d o d' :
  check_expiring_subscriptions clk d = Ok (o, d') →
  ∃ deadline,
    add_relativedelta (today clk) (relativedelta_days 7) = Ok deadline
    ∧ customers d' = customers d
    ∧ plans d' = plans d
    ∧ ∀ i, subscriptions d' !! i
           = (λ s, if reminder_due (today clk) deadline s && owner_has_email d s
                   then flag_reminder clk s else s)
             <$> subscriptions d !! i.
Proof.
  unfold check_expiring_subscriptions.
  destruct (add_relativedelta (today clk) (relativedelta_days 7)) as [deadline|]; [|done].
  cbn [mbind result_bind rbind]. intros H. exists deadline. split; [done|].
  assert (∀ i s, subscriptions d !! i = Some s →
            reminder_due (today clk) deadline s && owner_has_email d s = true →
            (i, s) ∈ expiring_query d (today clk) deadline) as Hsel.
  { intros i s Hs [Hdue Hmail]%andb_true_iff. apply elem_of_expiring_query.
    split_and!; [done| |done]. unfold owner_has_email in Hmail.
    by destruct (subscription_customer d s). }
  revert H. case_bool_decide as Hnil.
  - intros [= <- <-]. split_and!; [done..|].
    intros i. destruct (subscriptions d !! i) as [s|] eqn:Hs; [|done].
    cbn. destruct (_ && _) eqn:E; [|done].
    specialize (Hsel i s Hs E). rewrite Hnil in Hsel. by apply elem_of_nil in Hsel.
  - destruct (reminder_loop d (today clk) (expiring_query d (today clk) deadline) ∅)
      as [dirty0|] eqn:Hloop; cbn [mbind result_bind rbind]; [|done].
    intros [= <- <-].
    destruct (reminder_loop_spec d (today clk)
                (expiring_query d (today clk) deadline) ∅)
      as (dirty & Hrun & Hset & Hkeep).
    { apply NoDup_fst_filter_bool, NoDup_fst_map_to_list. }
    { by eapply reminder_loop_Ok_inv. }
    assert (dirty0 = dirty) as -> by congruence.
    split_and!; [done..|].
    intros i. cbn [commit_subscriptions set_subscriptions subscriptions].
    rewrite lookup_union, lookup_fmap.
    destruct (subscriptions d !! i) as [s|] eqn:Hs.
    + cbn [fmap option_fmap option_map].
      destruct (reminder_due (today clk) deadline s && owner_has_email d s) eqn:E.
      * apply andb_true_iff in E as E'. destruct E' as [_ Hmail].
        by rewrite (Hset i s (Hsel i s Hs E) Hmail).
      * rewrite Hkeep; [by rewrite lookup_empty|].
        intros s' (Hs' & _ & Hdue)%elem_of_expiring_query.
        assert (s' = s) as -> by congruence.
        rewrite Hdue in E. done.
    + rewrite Hkeep; [by rewrite lookup_empty|].
      intros s' (Hs' & _)%elem_of_expiring_query. congruence.
Qed.

End store.

(** ** Consistency of the store *)

Section consistency.
Local Open Scope Z_scope.

Lemma add_relativedelta_months_valid d n e :
  valid_date d → 0 <= n →
  add_relativedelta d (relativedelta_months n) = Ok e →
  e = months_after d n ∧ valid_date e.
Proof.
  intros Hd Hn. rewrite add_relativedelta_months by done.
  destruct (Z.leb_spec (year (months_after d n)) MAXYEAR) as [Hy|]; [|done].
  intros [= <-]. split; [done|]. apply months_after_valid; [done|].
  split; [|done]. destruct (months_after_year_ge d n Hn) as [H|H].
  - destruct Hd as [[? _] _]. lia.
  - by destruct Hd as (_ & ? & _).
Qed.

Lemma validate_phone_canonical x p q :
  Customer.validate_phone x = Ok p → p = Some q → canonical_phone q = true.
Proof.
  destruct x as [x|]; [|by intros [= <-]]. rewrite validate_phone_spec.
  destruct (negb (PyStr.truthy x)); [by intros [= <-]|].
  destruct (canonical_phone (normalized_phone x)) eqn:E; [|done]. by intros [= <-] [= <-].
Qed.

Lemma consistent_rewrite_subscriptions d d' :
  consistent d →
  customers d' = customers d → plans d' = plans d →
  (∀ i s', subscriptions d' !! i = Some s' →
           ∃ s, subscriptions d !! i = Some s ∧ same_links s s'
                ∧ subscription_checks s' = true
                ∧ ∀ e, Subscription.end_date s' = Some e → valid_date e) →
  consistent d'.
Proof.
  intros (Hc & Hcu & Hs & Hsu) Ec Ep Hrows. unfold consistent. rewrite Ec.
  split_and!; [done | done | |].
  - intros i s' Hl. destruct (Hrows i s' Hl) as (s & Hls & (E1 & E2 & E3 & E4) & Hck & Hv).
    destruct (Hs i s Hls) as (_ & Hvs & _ & ck & c & pk & p & ? & ? & ? & ? & ?).
    split_and!; [done | by rewrite E4 | done |].
    exists ck, c, pk, p. rewrite Ec, Ep, E1, E2, E3. done.
  - intros i j s1' s2' H1 H2 Hr.
    destruct (Hrows i s1' H1) as (s1 & Hl1 & (_ & _ & E1 & _) & _).
    destruct (Hrows j s2' H2) as (s2 & Hl2 & (_ & _ & E2 & _) & _).
    apply (Hsu i j s1 s2); [done..|congruence].
Qed.

Lemma consistent_update_subscription_row d k s s' d' :
  consistent d →
  subscriptions d !! k = Some s →
  same_links s s' →
  (∀ e, Subscription.end_date s' = Some e → valid_date e) →
  update_subscription_row d k s' = Ok d' →
  consistent d'.
Proof.
  intros Hc Hl Hlinks Hv [Hck ->]%update_subscription_row_Ok.
  apply (consistent_rewrite_subscriptions d); [done..|].
  intros i s1. cbn [set_subscriptions subscriptions].
  destruct (decide (i = k)) as [->|Hik].
  - rewrite lookup_insert_eq. intros [= <-]. by exists s.
  - rewrite lookup_insert_ne by done. intros Hl1. exists s1.
    destruct Hc as (_ & _ & Hs & _). destruct (Hs i s1 Hl1) as (? & ? & ? & _).
    by split_and!.
Qed.

Lemma subscription_checks_flag_reminder clk s :
  subscription_checks (flag_reminder clk s) = subscription_checks s.
Proof. done. Qed.

Lemma consistent_check_expiring clk d o d' :
  consistent d → check_expiring_subscriptions clk d = Ok (o, d') → consistent d'.
Proof.
  intros Hc (deadline & _ & Ec & Ep & Hrows)%check_expiring_effect.
  apply (consistent_rewrite_subscriptions d); [done..|].
  intros i s'. rewrite Hrows.
  destruct (subscriptions d !! i) as [s|] eqn:Hl; [|done]. cbn. intros [= <-].
  exists s. destruct Hc as (_ & _ & Hs & _). destruct (Hs i s Hl) as (? & ? & ? & _).
  split; [done|]. by destruct (_ && _).
Qed.

Lemma consistent_update_subscription clk d ins o d' :
  valid_date (today clk) →
  consistent d → run (update_subscription clk d) ins = Ok (o, d') → consistent d'.
Proof.
  intros Ht Hc [[-> _] | (k & s & s' & Hl & Hu & Hcase)]%update_subscription_inv; [done|].
  pose proof Hc as (_ & _ & Hs & _). destruct (Hs k s Hl) as (_ & _ & Hve & _).
  eapply (consistent_update_subscription_row d k s s'); [done..| | |done].
  - destruct Hcase as [(_ & st & _ & [-> | (e & n & e' & _ & _ & _ & _ & _ & ->)])
                      | (e & n & e' & _ & _ & _ & _ & ->)]; done.
  - destruct Hcase as [(_ & st & _ & [-> | (e & n & e' & _ & _ & _ & Hn & Hadd & ->)])
                      | (e & n & e' & _ & He & Hn & Hadd & ->)].
    + done.
    + intros e1 [= <-]. by eapply add_relativedelta_months_valid; [| |done]; [done|lia].
    + intros e1 [= <-].
      by eapply (add_relativedelta_months_valid e n); [apply Hve|lia|done].
Qed.

Lemma consistent_delete_subscription clk d ins o d' :
  consistent d → run (delete_subscription clk d) ins = Ok (o, d') → consistent d'.
Proof.
  intros Hc [[-> _] | (k & s & Hl & _ & Hu)]%delete_subscription_inv; [done|].
  pose proof Hc as (_ & _ & Hs & _). destruct (Hs k s Hl) as (_ & _ & Hve & _).
  eapply (consistent_update_subscription_row d k s); [done | done | | | exact Hu].
  - by unfold same_links.
  - exact Hve.
Qed.

Lemma consistent_create_subscription clk d ins o d' :
  valid_date (today clk) →
  consistent d → run (create_subscription clk d) ins = Ok (o, d') → consistent d'.
Proof.
  intros Ht Hc [[-> _] | H]%create_subscription_inv; [done|].
  destruct H as (c & p & n & rest & k & ck & cust & pk & plan & N & e & _ & _ & _ & Hlc
                 & _ & Hlp & _ & HN & Hadd & Hins).
  apply insert_subscription_Ok in Hins as (_ & Hck & _ & Hcf & Hk & ->).
  pose proof (next_key_fresh (seq_subscriptions d) (subscriptions d)) as Hfresh.
  rewrite <- Hk in Hfresh.
  apply add_relativedelta_months_valid in Hadd as [_ Hve]; [|done|lia].
  destruct Hc as (Hcs & Hcu & Hs & Hsu).
  unfold consistent. cbn [set_subscriptions customers subscriptions plans].
  split_and!; [done | done | |].
  - intros i s. destruct (decide (i = k)) as [->|Hik].
    + rewrite lookup_insert_eq. intros [= <-]. split_and!; [done | done | |].
      * by intros e1 [= <-].
      * by exists ck, cust, pk, plan.
    + rewrite lookup_insert_ne by done. apply Hs.
  - pose proof (proj1 (subscription_conflict_false_iff _ _) Hcf) as Hno.
    intros i j s1 s2.
    destruct (decide (i = k)) as [->|Hik], (decide (j = k)) as [->|Hjk]; [done| | |].
    + rewrite lookup_insert_eq, lookup_insert_ne by done. intros [= <-] H2 Hr.
      by destruct (Hno j s2 H2).
    + rewrite lookup_insert_eq, lookup_insert_ne by done. intros H1 [= <-] Hr.
      by destruct (Hno i s1 H1).
    + rewrite !lookup_insert_ne by done. apply Hsu.
Qed.

Lemma customer_ok_validated name x e y p z address created updated :
  PyStr.truthy name = true →
  PyStr.strip x = x →
  Customer.validate_email x = Ok e →
  Customer.validate_phone y = Ok p →
  customer_ok (Customer.mk z name e p address created updated).
Proof.
  intros Hn Hx He Hp. destruct (validate_email_stripped x e Hx He) as (-> & Hshape & _).
  unfold customer_ok. cbn [Customer.name Customer.email Customer.phone].
  split_and!; [done | done | apply lower_idem | by rewrite strip_lower, Hx |].
  intros q. by apply (validate_phone_canonical y p).
Qed.

Lemma consistent_create_customer clk d ins o d' :
  consistent d → run (create_customer clk d) ins = Ok (o, d') → consistent d'.
Proof.
  intros Hc [[-> _] | H]%create_customer_inv; [done|].
  destruct H as (name & email & phone & address & rid & rest & k & z & e & p & _ & _
                 & Hv & _ & He & Hp & Hins).
  apply validate_customer_data_nil in Hv as (Hn & _).
  apply insert_customer_Ok in Hins as (_ & Hcf & Hk & ->).
  pose proof (next_key_fresh (seq_customers d) (customers d)) as Hfresh.
  rewrite <- Hk in Hfresh.
  pose proof (proj1 (customer_conflict_false _ _) Hcf) as Hno.
  cbn [Customer.email Customer.router_id] in Hno.
  destruct Hc as (Hcs & Hcu & Hs & Hsu).
  unfold consistent, subscription_ok. cbn [set_customers customers subscriptions plans].
  split_and!; [| | |done].
  - intros i c. destruct (decide (i = k)) as [->|Hik].
    + rewrite lookup_insert_eq. intros [= <-].
      by eapply customer_ok_validated; [| apply strip_idem | |].
    + rewrite lookup_insert_ne by done. apply Hcs.
  - intros i j c1 c2.
    destruct (decide (i = k)) as [->|Hik], (decide (j = k)) as [->|Hjk]; [done| | |].
    + rewrite lookup_insert_eq, lookup_insert_ne by done. intros [= <-] H2 Hr.
      destruct (Hno j c2 H2) as [? ?]. cbn in Hr. by destruct Hr.
    + rewrite lookup_insert_eq, lookup_insert_ne by done. intros H1 [= <-] Hr.
      destruct (Hno i c1 H1) as [? ?]. cbn in Hr. by destruct Hr.
    + rewrite !lookup_insert_ne by done. apply Hcu.
  - intros i s Hl.
    destruct (Hs i s Hl) as (? & ? & ? & ck & c & pk & pl & ? & Hlc & ? & ? & ?).
    split_and!; [done..|]. exists ck, c, pk, pl. split_and!; [done| |done..].
    rewrite lookup_insert_ne; [done|]. intros <-. congruence.
Qed.

Lemma consistent_update_customer clk d ins o d' :
  consistent d → run (update_customer clk d) ins = Ok (o, d') → consistent d'.
Proof.
  intros Hc [[-> _] | H]%update_customer_inv; [done|].
  destruct H as (k & c & name & x & email & y & phone & address & Hl & _ & Hn & _ & _
                 & Hx & He & Hp & Hu).
  destruct Hc as (Hcs & Hcu & Hs & Hsu).
  assert (PyStr.strip x = x) as Hstrip.
  { destruct Hx as [-> | ?]; [|done]. by destruct (Hcs k c Hl) as (_ & _ & _ & ? & _). }
  apply update_customer_row_Ok in Hu as [Hmail ->]. cbn [Customer.email] in Hmail.
  unfold consistent, subscription_ok. cbn [set_customers customers subscriptions plans].
  split_and!; [| | |done].
  - intros i c1. destruct (decide (i = k)) as [->|Hik].
    + rewrite lookup_insert_eq. intros [= <-]. by eapply customer_ok_validated.
    + rewrite lookup_insert_ne by done. apply Hcs.
  - assert (∀ j c2, customers d !! j = Some c2 → j ≠ k →
              ¬ (email = Customer.email c2
                 ∨ Customer.router_id c = Customer.router_id c2)) as Hother.
    { intros j c2 H2 Hjk [Hr|Hr].
      - destruct Hmail as [Hm|Hm]; [|by destruct (Hm j c2 H2 Hjk)].
        apply Hjk. symmetry. apply (Hcu k j c c2); [done..|]. left. congruence.
      - apply Hjk. symmetry. apply (Hcu k j c c2); [done..|]. by right. }
    intros i j c1 c2.
    destruct (decide (i = k)) as [->|Hik], (decide (j = k)) as [->|Hjk]; [done| | |].
    + rewrite lookup_insert_eq, lookup_insert_ne by done. intros [= <-] H2 Hr.
      cbn in Hr. by destruct (Hother j c2 H2 Hjk).
    + rewrite lookup_insert_eq, lookup_insert_ne by done. intros H1 [= <-] Hr.
      cbn in Hr. destruct (Hother i c1 H1 Hik). by destruct Hr; [left | right].
    + rewrite !lookup_insert_ne by done. apply Hcu.
  - intros i s Hls. destruct (Hs i s Hls) as (? & ? & ? & ck & c0 & pk & pl & ? & Hlc & ? & ? & Hr).
    split_and!; [done..|]. destruct (decide (ck = k)) as [->|Hck].
    + eexists k, _, pk, pl. rewrite lookup_insert_eq. split_and!; [done..|].
      cbn. congruence.
    + exists ck, c0, pk, pl. by rewrite lookup_insert_ne.
Qed.

Lemma consistent_delete_customer d ins o d' :
  consistent d → run (delete_customer d) ins = Ok (o, d') → consistent d'.
Proof.
  intros Hc [[-> _] | (k & c & Hl & _ & [= <-])]%delete_customer_inv; [done|].
  destruct Hc as (Hcs & Hcu & Hs & Hsu).
  unfold consistent, subscription_ok. cbn [customers subscriptions plans].
  split_and!.
  - intros i c1 [_ H1]%lookup_delete_Some. by apply (Hcs i).
  - intros i j c1 c2 [_ H1]%lookup_delete_Some [_ H2]%lookup_delete_Some.
    by apply Hcu.
  - intros i s [Hls Hne]%map_lookup_filter_Some. cbn [snd] in Hne.
    destruct (Hs i s Hls) as (? & ? & ? & ck & c0 & pk & pl & Hck & Hlc & ? & ? & ?).
    split_and!; [done..|]. exists ck, c0, pk, pl. split_and!; [done| |done..].
    rewrite lookup_delete_ne; [done|]. intros <-. by rewrite Hck in Hne.
  - intros i j s1 s2 [H1 _]%map_lookup_filter_Some [H2 _]%map_lookup_filter_Some.
    by apply Hsu.
Qed.

(** X5. Every handler keeps the store consistent, whatever is typed:
    customers keep a name, a well-formed email in lower case, a canonical
    phone number if any, and distinct emails and router identifiers;
    every subscription keeps its [CHECK] constraints, calendar dates, an
    existing customer and plan, the router identifier of its customer,
    and a router identifier no other subscription has. *)
Theorem handlers_keep_store_consistent (clk : clock) (d d' : db) :
  valid_date (today clk) →
  consistent d →
  handler_step clk d d' →
  consistent d'.
Proof.
  intros Ht Hc [ins o H | ins o H | ins o H | ins o H | ins o H | ins o H | ins o H | o H].
  - by eapply consistent_create_customer.
  - by eapply consistent_update_customer.
  - by eapply consistent_delete_customer.
  - by apply delete_plan_inv in H as ->.
  - by eapply consistent_create_subscription.
  - by eapply consistent_update_subscription.
  - by eapply consistent_delete_subscription.
  - by eapply consistent_check_expiring.
Qed.

(** The sample stores are consistent. *)
Lemma customer_ok_john : customer_ok john.
Proof.
  unfold customer_ok. split_and!; [done| |done..].
  exists "john"%string, "example"%string, "com"%string. by vm_compute.
Qed.

Lemma consistent_sample_db : consistent sample_db.
Proof.
  unfold consistent, sample_db. cbn [customers subscriptions].
  split_and!.
  - intros i c [_ <-]%lookup_singleton_Some. apply customer_ok_john.
  - intros i j c c' [<- _]%lookup_singleton_Some [<- _]%lookup_singleton_Some _. done.
  - intros i s H. by rewrite lookup_empty in H.
  - intros i j s s' H. by rewrite lookup_empty in H.
Qed.

Lemma consistent_subscribed_db e :
  valid_date e → date_leb jan_15 e = true → consistent (subscribed_db e).
Proof.
  intros He Hle. unfold consistent, subscribed_db. cbn [customers subscriptions].
  split_and!.
  - intros i c [_ <-]%lookup_singleton_Some. apply customer_ok_john.
  - intros i j c c' [<- _]%lookup_singleton_Some [<- _]%lookup_singleton_Some _. done.
  - intros i s [_ <-]%lookup_singleton_Some. unfold subscription_ok. split_and!.
    + unfold subscription_checks. cbn. by rewrite Hle.
    + by vm_compute.
    + by intros e' [= <-].
    + by exists 1, john, 1, basic_plan.
  - intros i j s s' [<- _]%lookup_singleton_Some [<- _]%lookup_singleton_Some _. done.
Qed.

Lemma handlers_keep_store_consistent_witness :
  ∃ d', handler_step (clock_on jan_15) sample_db d' ∧ consistent d'.
Proof.
  assert (∃ d', handler_step (clock_on jan_15) sample_db d') as [d' Hstep].
  { eexists. eapply (step_create_subscription _ _ _ ["1"; "1"; "3"]%string).
    vm_compute. reflexivity. }
  exists d'. split; [done|].
  apply (handlers_keep_store_consistent (clock_on jan_15) sample_db d');
    [by vm_compute | apply consistent_sample_db | done].
Defined.

End consistency.

(** ** Subscriptions in a consistent store *)

Section lifecycle.
Local Open Scope Z_scope.

Lemma consistent_parents d i s :
  consistent d → subscriptions d !! i = Some s →
  is_Some (subscription_customer d s) ∧ is_Some (subscription_plan d s).
Proof.
  intros (_ & _ & Hs & _) Hl.
  destruct (Hs i s Hl) as (_ & _ & _ & ck & c & pk & p & Hck & Hc & Hpk & Hp & _).
  unfold subscription_customer, subscription_plan. rewrite Hck, Hpk. cbn.
  rewrite Hc, Hp. eauto.
Qed.

Lemma consistent_list_subscriptions d status today :
  consistent d →
  list_subscriptions d status today = Ok (list_subscriptions_query d status today).
Proof.
  intros Hc. apply list_subscriptions_completes. intros i s. by apply consistent_parents.
Qed.

(** X6. In a consistent store a customer has at most one subscription,
    and [create_subscription] for a customer who has one creates nothing
    and leaves the store as it is: the subscription carries the router
    identifier of the customer, which is unique among subscriptions. *)
Theorem one_subscription_per_customer (clk : clock) (d : db) :
  consistent d →
  (∀ i j s s',
     subscriptions d !! i = Some s → subscriptions d !! j = Some s' →
     Subscription.customer_id s = Subscription.customer_id s' → i = j)
  ∧ (∀ i s ck c rest o d',
       subscriptions d !! i = Some s → Subscription.customer_id s = Some ck →
       PyStr.int (PyStr.strip c) = Ok ck →
       run (create_subscription clk d) (c :: rest) = Ok (o, d') →
       d' = d ∧ ∀ k, o ≠ SubscriptionCreated k).
Proof.
  intros Hc. pose proof Hc as (_ & _ & Hs & Hsu). split.
  - intros i j s s' H1 H2 Hck. apply (Hsu i j s s'); [done..|].
    destruct (Hs i s H1) as (_ & _ & _ & ck & c & _ & _ & Hk1 & Hc1 & _ & _ & ->).
    destruct (Hs j s' H2) as (_ & _ & _ & ck' & c' & _ & _ & Hk2 & Hc2 & _ & _ & ->).
    congruence.
  - intros i s ck c rest o d' Hl Hck Hint [H | H]%create_subscription_inv; [done|].
    destruct H as (c0 & p & n & rest0 & k & ck0 & cust & pk & plan & N & e & [= -> ->]
                   & _ & Hint' & Hlc & _ & _ & _ & _ & _ & Hins).
    apply insert_subscription_Ok in Hins as (_ & _ & _ & Hcf & _).
    pose proof (proj1 (subscription_conflict_false_iff _ _) Hcf i s Hl) as Hne.
    destruct (Hs i s Hl) as (_ & _ & _ & ck1 & c1 & _ & _ & Hk1 & Hc1 & _ & _ & Hr).
    destruct Hne. cbn. rewrite Hr. congruence.
Qed.

Lemma one_subscription_per_customer_witness :
  ∃ o d',
    run (create_subscription (clock_on jan_31) (subscribed_db (mkdate 2024 2 15)))
      ["1"; "1"; "1"]%string = Ok (o, d')
    ∧ d' = subscribed_db (mkdate 2024 2 15) ∧ ∀ k, o ≠ SubscriptionCreated k.
Proof.
  eexists _, _. split; [vm_compute; reflexivity|].
  apply (proj2 (one_subscription_per_customer (clock_on jan_31)
                  (subscribed_db (mkdate 2024 2 15))
                  (consistent_subscribed_db (mkdate 2024 2 15)
                     ltac:(by vm_compute) ltac:(by vm_compute)))
           1 (john_subscription (mkdate 2024 2 15)) 1 "1"%string ["1"; "1"]%string);
    by vm_compute.
Defined.

(** X7. On a consistent store the listing of subscriptions never fails
    on a missing customer or plan and returns the rows of its query, and
    the expiring sweep returns whenever its deadline, today plus 7 days,
    is a date. *)
Theorem consistent_store_reads_succeed (clk : clock) (d : db) :
  consistent d →
  (∀ status today,
     list_subscriptions d status today = Ok (list_subscriptions_query d status today))
  ∧ (∀ deadline,
       add_relativedelta (today clk) (relativedelta_days 7) = Ok deadline →
       ∃ o d', check_expiring_subscriptions clk d = Ok (o, d')).
Proof.
  intros Hc. split.
  - intros status today. by apply consistent_list_subscriptions.
  - intros deadline Hd. unfold check_expiring_subscriptions. rewrite Hd.
    cbn [mbind result_bind rbind]. case_bool_decide; [by eauto|].
    destruct (reminder_loop_spec d (today clk)
                (expiring_query d (today clk) deadline) ∅) as (dirty & -> & _).
    { apply NoDup_fst_filter_bool, NoDup_fst_map_to_list. }
    { intros i s (Hl & _)%elem_of_expiring_query. by eapply consistent_parents. }
    cbn [mbind result_bind rbind]. eauto.
Qed.

Lemma consistent_store_reads_succeed_witness :
  list_subscriptions (subscribed_db (mkdate 2024 2 15)) "all" jan_31
  = Ok (list_subscriptions_query (subscribed_db (mkdate 2024 2 15)) "all" jan_31).
Proof.
  apply (proj1 (consistent_store_reads_succeed (clock_on jan_31)
                  (subscribed_db (mkdate 2024 2 15))
                  (consistent_subscribed_db (mkdate 2024 2 15) ltac:(by vm_compute) ltac:(by vm_compute)))).
Defined.

(** *** Cancelling *)

Lemma subscription_checks_set_status st u s :
  st = "active"%string ∨ st = "suspended"%string ∨ st = "terminated"%string →
  subscription_checks s = true →
  subscription_checks
    (Subscription.set_updated_at u (Subscription.set_status (Some st) s)) = true.
Proof.
  intros Hst. unfold subscription_checks.
  cbn [Subscription.set_updated_at Subscription.set_status Subscription.end_date
       Subscription.start_date Subscription.status Subscription.router_id].
  intros [[-> _]%andb_true_iff ->]%andb_true_iff.
  by destruct Hst as [-> | [-> | ->]].
Qed.

Lemma delete_subscription_confirmed clk d sid confirm k s :
  list_subscriptions d "active" (today clk)
  = Ok (list_subscriptions_query d "active" (today clk)) →
  PyStr.int (PyStr.strip sid) = Ok k → SQL.fits_integer k = true →
  subscriptions d !! k = Some s →
  run (delete_subscription clk d) [sid; confirm]
  = if String.eqb (PyStr.lower (PyStr.strip confirm)) "y"
    then match update_subscription_row d k
                 (Subscription.set_updated_at (Some (now clk))
                    (Subscription.set_status (Some "terminated") s)) with
         | Ok d' => Ok (SubscriptionCancelled, d')
         | Raise e => Ok (ErrorCancelling e, d)
         end
    else Ok (CancellationAborted, d).
Proof.
  intros Hlist Hint Hfit Hl. unfold run, delete_subscription.
  rewrite io_bind_lift, Hlist, io_bind_input_strip, io_bind_lift.
  rewrite (get_if_digit_Some _ _ k s) by (try done; by eapply int_isdigit).
  rewrite io_bind_input_strip.
  destruct (String.eqb _ "y"); cbn [negb]; [|done].
  by destruct (update_subscription_row d k _).
Qed.

(** X8. On a consistent store, cancelling an existing subscription and
    confirming with [y] (in either case, white space around it ignored)
    sets its status to [terminated] and its update time to now, and
    changes nothing else; the row is kept. Any other answer aborts and
    leaves the store as it is. *)
Theorem cancel_terminates_subscription (clk : clock) (d : db) (sid confirm : string)
    (k : Z) (s : Subscription.t) :
  consistent d →
  PyStr.int (PyStr.strip sid) = Ok k → SQL.fits_integer k = true →
  subscriptions d !! k = Some s →
  (PyStr.lower (PyStr.strip confirm) = "y"%string →
   run (delete_subscription clk d) [sid; confirm]
   = Ok (SubscriptionCancelled,
         set_subscriptions
           (<[k := Subscription.set_updated_at (Some (now clk))
                     (Subscription.set_status (Some "terminated") s)]>
              (subscriptions d))
           (seq_subscriptions d) d))
  ∧ (PyStr.lower (PyStr.strip confirm) ≠ "y"%string →
     run (delete_subscription clk d) [sid; confirm] = Ok (CancellationAborted, d)).
Proof.
  intros Hc Hint Hfit Hl.
  rewrite (delete_subscription_confirmed clk d sid confirm k s);
    [|by apply consistent_list_subscriptions|done..].
  split.
  - intros ->. change (String.eqb "y" "y") with true. cbv iota.
    destruct Hc as (_ & _ & Hs & _). destruct (Hs k s Hl) as (Hck & _).
    unfold update_subscription_row.
    by rewrite (subscription_checks_set_status "terminated") by auto.
  - intros Hn. by apply String.eqb_neq in Hn as ->.
Qed.

Lemma cancel_terminates_subscription_witness :
  run (delete_subscription (clock_on jan_31) (subscribed_db (mkdate 2024 2 15)))
    ["1"; " Y "]%string
  = Ok (SubscriptionCancelled,
        set_subscriptions
          (<[1 := Subscription.set_updated_at (Some (now (clock_on jan_31)))
                    (Subscription.set_status (Some "terminated")
                       (john_subscription (mkdate 2024 2 15)))]>
             (subscriptions (subscribed_db (mkdate 2024 2 15))))
          (seq_subscriptions (subscribed_db (mkdate 2024 2 15)))
          (subscribed_db (mkdate 2024 2 15))).
Proof.
  apply (cancel_terminates_subscription (clock_on jan_31)
           (subscribed_db (mkdate 2024 2 15)) "1" " Y " 1
           (john_subscription (mkdate 2024 2 15)));
    [apply consistent_subscribed_db; by vm_compute | by vm_compute..].
Defined.

Lemma terminated_not_selected st s :
  Subscription.status s = Some st → st ≠ "active"%string →
  ∀ today deadline,
    Subscription.is_active today s = false
    ∧ SQL.is_true (list_where "active" today s) = false
    ∧ SQL.is_true (list_where "expired" today s) = false
    ∧ reminder_due today deadline s = false
    ∧ SQL.is_true (list_where "all" today s) = true.
Proof.
  intros Hst Hne today deadline.
  assert (Subscription.status_is "active" s = false) as Hno.
  { unfold Subscription.status_is. rewrite Hst. by apply String.eqb_neq. }
  rewrite list_where_active, list_where_expired.
  unfold Subscription.is_active, reminder_due. rewrite Hno. done.
Qed.

(** X9. Whatever is typed, a run of [delete_subscription] either leaves
    the store as it is or cancels one subscription: that row is kept with
    status [terminated] and the update time set to now, every other row,
    the customers and the plans are unchanged, and from then on the row
    is not active, is returned neither by the [active] nor by the
    [expired] listing nor by the expiring sweep whatever the date, and is
    still returned by the listing of all subscriptions. *)
Theorem cancelled_subscription_is_kept_but_hidden (clk : clock) (d d' : db)
    (ins : list string) (o : delete_subscription_outcome) :
  run (delete_subscription clk d) ins = Ok (o, d') →
  (o ≠ SubscriptionCancelled ∧ d' = d)
  ∨ (o = SubscriptionCancelled
     ∧ ∃ k s s',
         subscriptions d !! k = Some s
         ∧ s' = Subscription.set_updated_at (Some (now clk))
                  (Subscription.set_status (Some "terminated") s)
         ∧ subscriptions d' = <[k := s']> (subscriptions d)
         ∧ customers d' = customers d
         ∧ plans d' = plans d
         ∧ ∀ today deadline,
             Subscription.is_active today s' = false
             ∧ ((k, s') ∉ list_subscriptions_query d' "active" today)
             ∧ ((k, s') ∉ list_subscriptions_query d' "expired" today)
             ∧ ((k, s') ∉ expiring_query d' today deadline)
             ∧ (k, s') ∈ list_subscriptions_query d' "all" today).
Proof.
  intros [[-> ?] | (k & s & Hl & -> & Hu)]%delete_subscription_inv; [by left|].
  right. split; [done|]. apply update_subscription_row_Ok in Hu as [_ ->].
  eexists k, s, _. split_and!; [done..|]. intros today deadline.
  destruct (terminated_not_selected "terminated"
              (Subscription.set_updated_at (Some (now clk))
                 (Subscription.set_status (Some "terminated") s))
              eq_refl ltac:(done) today deadline) as (H1 & H2 & H3 & H4 & H5).
  split_and!; [done | | | |].
  - rewrite elem_of_list_subscriptions_query. intros [_ ?]. congruence.
  - rewrite elem_of_list_subscriptions_query. intros [_ ?]. congruence.
  - rewrite elem_of_expiring_query. intros (_ & _ & ?). congruence.
  - rewrite elem_of_list_subscriptions_query. split; [|done].
    cbn [set_subscriptions subscriptions]. apply lookup_insert_eq.
Qed.

Lemma cancelled_subscription_is_kept_but_hidden_witness :
  ∃ o d',
    run (delete_subscription (clock_on jan_31) (subscribed_db (mkdate 2024 2 15)))
      ["1"; "y"]%string = Ok (o, d')
    ∧ ((o ≠ SubscriptionCancelled ∧ d' = subscribed_db (mkdate 2024 2 15))
       ∨ (o = SubscriptionCancelled
          ∧ ∃ k s s',
              subscriptions (subscribed_db (mkdate 2024 2 15)) !! k = Some s
              ∧ s' = Subscription.set_updated_at (Some (now (clock_on jan_31)))
                       (Subscription.set_status (Some "terminated") s)
              ∧ subscriptions d'
                = <[k := s']> (subscriptions (subscribed_db (mkdate 2024 2 15)))
              ∧ customers d' = customers (subscribed_db (mkdate 2024 2 15))
              ∧ plans d' = plans (subscribed_db (mkdate 2024 2 15))
              ∧ ∀ today deadline,
                  Subscription.is_active today s' = false
                  ∧ ((k, s') ∉ list_subscriptions_query d' "active" today)
                  ∧ ((k, s') ∉ list_subscriptions_query d' "expired" today)
                  ∧ ((k, s') ∉ expiring_query d' today deadline)
                  ∧ (k, s') ∈ list_subscriptions_query d' "all" today)).
Proof.
  eexists _, _. split; [vm_compute; reflexivity|].
  eapply (cancelled_subscription_is_kept_but_hidden (clock_on jan_31)
            (subscribed_db (mkdate 2024 2 15)) _ ["1"; "y"]%string).
  vm_compute. reflexivity.
Defined.

(** *** Updating *)

Ltac date_order :=
  unfold date_leb, date_ltb, date_eqb in *;
  repeat match goal with
         | H : _ = true |- _ =>
             first [ apply orb_true_iff in H | apply andb_true_iff in H
                   | apply Z.ltb_lt in H | apply Z.eqb_eq in H ]
         | H : _ ∧ _ |- _ => destruct H
         | H : _ ∨ _ |- _ => destruct H
         end;
  repeat match goal with
         | |- context [?a <? ?b] => destruct (Z.ltb_spec a b)
         | |- context [?a =? ?b] => destruct (Z.eqb_spec a b)
         end; cbn [andb orb negb]; try reflexivity; try lia.

Lemma date_leb_trans a b c :
  date_leb a b = true → date_leb b c = true → date_leb a c = true.
Proof. intros H1 H2. date_order. Qed.

Lemma date_ltb_leb_trans a b c :
  date_ltb a b = true → date_leb b c = true → date_ltb a c = true.
Proof. intros H1 H2. date_order. Qed.

Lemma date_ltb_to_leb a b : date_ltb a b = true → date_leb a b = true.
Proof. intros H. date_order. Qed.

(** X10. On a consistent store, whatever is typed, [update_subscription]
    adds and removes no row, leaves customers and plans as they are, and
    keeps the customer, plan, router identifier and start date of every
    subscription; an end date is never removed and never moved back. *)
Theorem update_subscription_never_shortens (clk : clock) (d d' : db)
    (ins : list string) (o : update_subscription_outcome) :
  valid_date (today clk) →
  consistent d →
  run (update_subscription clk d) ins = Ok (o, d') →
  customers d' = customers d
  ∧ plans d' = plans d
  ∧ ∀ i,
      (subscriptions d' !! i = None ↔ subscriptions d !! i = None)
      ∧ ∀ s s',
          subscriptions d !! i = Some s → subscriptions d' !! i = Some s' →
          same_links s s'
          ∧ ∀ e, Subscription.end_date s = Some e →
                 ∃ e', Subscription.end_date s' = Some e' ∧ date_leb e e' = true.
Proof.
  intros Ht Hc [[-> _] | (k & s0 & s1 & Hl & Hu & Hcase)]%update_subscription_inv.
  { split_and!; [done..|]. intros i. split; [done|]. intros s s' H1 H2.
    assert (s' = s) as -> by congruence. split; [done|].
    intros e He. exists e. split; [done | apply date_leb_refl]. }
  apply update_subscription_row_Ok in Hu as [_ ->].
  cbn [set_subscriptions customers plans subscriptions]. split_and!; [done..|].
  intros i. destruct (decide (i = k)) as [->|Hik].
  2:{ rewrite lookup_insert_ne by done. split; [done|]. intros s s' H1 H2.
      assert (s' = s) as -> by congruence. split; [done|].
      intros e He. exists e. split; [done | apply date_leb_refl]. }
  rewrite lookup_insert_eq, Hl. split; [done|]. intros s s' [= <-] [= <-].
  destruct Hc as (_ & _ & Hs & _). destruct (Hs k s0 Hl) as (_ & _ & Hve & _).
  destruct Hcase as [(_ & st & _ & [-> | (e & n & e' & _ & He & Hlt & Hn & Hadd & ->)])
                    | (e & n & e' & _ & He & Hn & Hadd & ->)].
  - split; [done|]. intros e He. exists e. split; [done | apply date_leb_refl].
  - split; [done|]. intros e0 He0. assert (e0 = e) as -> by congruence.
    exists e'. split; [done|].
    apply add_relativedelta_months_valid in Hadd as [-> _]; [|done|lia].
    apply date_ltb_to_leb.
    apply (date_ltb_leb_trans e (today clk)); [done|]. apply months_after_ge; [done|lia].
  - split; [done|]. intros e0 He0. assert (e0 = e) as -> by congruence.
    exists e'. split; [done|].
    apply add_relativedelta_months_valid in Hadd as [-> _]; [|by apply Hve|lia].
    apply months_after_ge; [by apply Hve|lia].
Qed.

Lemma update_subscription_never_shortens_witness :
  ∃ o d',
    run (update_subscription (clock_on jan_31) (subscribed_db (mkdate 2024 2 15)))
      ["1"; "2"; "3"]%string = Ok (o, d')
    ∧ ∀ s s',
        subscriptions (subscribed_db (mkdate 2024 2 15)) !! 1 = Some s →
        subscriptions d' !! 1 = Some s' →
        same_links s s'
        ∧ ∀ e, Subscription.end_date s = Some e →
               ∃ e', Subscription.end_date s' = Some e' ∧ date_leb e e' = true.
Proof.
  eexists _, _. split; [vm_compute; reflexivity|].
  eapply (update_subscription_never_shortens (clock_on jan_31)
            (subscribed_db (mkdate 2024 2 15)) _ ["1"; "2"; "3"]%string);
    [by vm_compute | apply consistent_subscribed_db; by vm_compute
    | vm_compute; reflexivity].
Defined.

(** X11. Reactivating a subscription whose end date has passed: with a
    positive number of months typed the end date becomes today plus that
    many calendar months, counted from today and not from the old end
    date, and the subscription is active again; with [0] the end date
    stays, so the row reads [active] and is still expired. *)
Theorem reactivation_counts_from_today (clk : clock) (d : db) (sid ext : string)
    (k n : Z) (s : Subscription.t) (e : date) :
  valid_date (today clk) →
  consistent d →
  PyStr.int (PyStr.strip sid) = Ok k → SQL.fits_integer k = true →
  subscriptions d !! k = Some s →
  Subscription.end_date s = Some e → date_ltb e (today clk) = true →
  PyStr.int (PyStr.strip ext) = Ok n →
  year (months_after (today clk) n) <= MAXYEAR →
  let s0 := Subscription.set_updated_at (Some (now clk))
              (Subscription.set_status (Some "active") s) in
  let s' := if 0 <? n
            then Subscription.set_end_date (Some (months_after (today clk) n)) s0
            else s0 in
  run (update_subscription clk d) [sid; "1"; "1"; ext]%string
  = Ok (StatusUpdated,
        set_subscriptions (<[k := s']> (subscriptions d)) (seq_subscriptions d) d)
  ∧ Subscription.is_active (today clk) s' = (0 <? n).
Proof.
  intros Ht Hc Hint Hfit Hl He Hlt Hn Hy s0 s'.
  pose proof Hc as (_ & _ & Hs & _). destruct (Hs k s Hl) as (Hck & _ & Hve & _).
  assert (date_leb (Subscription.start_date s) e = true) as Hse.
  { unfold subscription_checks in Hck. rewrite He in Hck.
    by apply andb_true_iff in Hck as [[? _]%andb_true_iff _]. }
  assert (subscription_checks s0 = true) as Hck0
    by (apply subscription_checks_set_status; auto).
  assert (subscription_checks s' = true) as Hck'.
  { subst s'. destruct (Z.ltb_spec 0 n); [|done].
    unfold subscription_checks in *.
    cbn [Subscription.set_end_date Subscription.end_date Subscription.start_date
         Subscription.status Subscription.router_id] in *.
    apply andb_true_iff in Hck0 as [[_ ->]%andb_true_iff ->].
    rewrite !andb_true_r. subst s0. cbn [Subscription.set_updated_at
      Subscription.set_status Subscription.start_date].
    apply (date_leb_trans _ e); [done|]. apply date_ltb_to_leb.
    apply (date_ltb_leb_trans _ (today clk)); [done|]. apply months_after_ge; [done|lia]. }
  split.
  - unfold run, update_subscription.
    rewrite io_bind_lift, (consistent_list_subscriptions d) by done.
    rewrite io_bind_input_strip, io_bind_lift.
    rewrite (get_if_digit_Some _ _ k s) by (try done; by eapply int_isdigit).
    rewrite io_bind_input_strip.
    change (String.eqb (PyStr.strip "1") "1") with true. cbv iota.
    rewrite io_bind_input_strip.
    change (status_map (PyStr.strip "1")) with (Some "active"%string). cbv iota zeta.
    fold s0. rewrite io_bind_unfold.
    replace (Subscription.end_date s0) with (Some e) by done.
    change (String.eqb (PyStr.strip "1") "1") with true. rewrite Hlt. cbn [andb].
    rewrite io_bind_input_strip, io_bind_lift.
    rewrite (int_isdigit _ _ Hn), Hn. cbn [mbind result_bind rbind].
    rewrite Z.gtb_ltb. subst s'. destruct (Z.ltb_spec 0 n) as [Hpos|Hpos].
    + rewrite io_bind_lift, add_relativedelta_months by (done || lia).
      destruct (Z.leb_spec (year (months_after (today clk) n)) MAXYEAR); [|lia].
      rewrite io_ret_apply, io_bind_lift. unfold update_subscription_row.
      by rewrite Hck'.
    + rewrite io_ret_apply, io_bind_lift. unfold update_subscription_row.
      by rewrite Hck'.
  - subst s'. unfold Subscription.is_active. destruct (Z.ltb_spec 0 n).
    + cbn. apply months_after_ge; [done|lia].
    + cbn. rewrite He. rewrite date_ltb_leb in Hlt. by apply negb_true_iff in Hlt.
Qed.

Lemma reactivation_counts_from_today_witness :
  ∃ d',
    run (update_subscription (clock_on (mkdate 2024 3 1)) (subscribed_db (mkdate 2024 2 15)))
      ["1"; "1"; "1"; "2"]%string = Ok (StatusUpdated, d')
    ∧ Subscription.end_date <$> subscriptions d' !! 1 = Some (Some (mkdate 2024 5 1)).
Proof.
  destruct (reactivation_counts_from_today (clock_on (mkdate 2024 3 1))
              (subscribed_db (mkdate 2024 2 15)) "1" "2" 1 2
              (john_subscription (mkdate 2024 2 15)) (mkdate 2024 2 15))
    as [Hrun _];
    [by vm_compute | apply consistent_subscribed_db; by vm_compute | by vm_compute..|].
  eexists. split; [exact Hrun | by vm_compute].
Defined.

End lifecycle.

(** ** Customers *)

Section customers.
Local Open Scope Z_scope.

(** X12. Whenever [create_customer] creates a customer, it adds exactly
    one row, under a key that was not in use, and leaves every other row
    of the store as it is. The row holds the name as typed without the
    white space around it, the email in lower case, a phone number that
    is absent or canonical, and the router identifier as an integer; no
    other customer has its email or its router identifier. *)
Theorem create_customer_stores (clk : clock) (d d' : db) (ins : list string) (k : Z) :
  run (create_customer clk d) ins = Ok (Created k, d') →
  ∃ name email phone address rid rest c,
    ins = name :: email :: phone :: address :: rid :: rest
    ∧ customers d !! k = None
    ∧ customers d' = <[k := c]> (customers d)
    ∧ plans d' = plans d
    ∧ subscriptions d' = subscriptions d
    ∧ Customer.name c = PyStr.strip name
    ∧ Customer.email c = PyStr.lower (PyStr.strip email)
    ∧ customer_ok c
    ∧ PyStr.int (PyStr.strip rid) = Ok (Customer.router_id c)
    ∧ Customer.address c = Some (PyStr.strip address)
    ∧ Customer.created_at c = now clk
    ∧ ∀ i c0, customers d !! i = Some c0 →
              Customer.email c0 ≠ Customer.email c
              ∧ Customer.router_id c0 ≠ Customer.router_id c.
Proof.
  intros [[_ H] | H]%create_customer_inv; [by destruct (H k)|].
  destruct H as (name & email & phone & address & rid & rest & k' & z & e & p & -> & [= <-]
                 & Hv & Hz & He & Hp & Hins).
  apply validate_customer_data_nil in Hv as (Hn & _).
  apply insert_customer_Ok in Hins as (_ & Hcf & Hk & ->).
  eexists name, email, phone, address, rid, rest, _.
  split_and!; [done | | done | done | done | done | | | done | done | done |].
  - rewrite Hk. apply next_key_fresh.
  - cbn. by destruct (validate_email_stripped _ _ (strip_idem email) He) as [-> _].
  - by eapply customer_ok_validated; [| apply strip_idem | |].
  - by apply customer_conflict_false.
Qed.

Lemma create_customer_stores_witness :
  ∃ d' c,
    run (create_customer (clock_on jan_15) empty_db)
      [" Jane Roe "; "Jane@Example.COM"; "0712 345 678"; "Mombasa"; "1234567890"]%string
    = Ok (Created 1, d')
    ∧ customers d' = <[1 := c]> (customers empty_db)
    ∧ Customer.name c = PyStr.strip " Jane Roe "
    ∧ Customer.email c = PyStr.lower (PyStr.strip "Jane@Example.COM")
    ∧ customer_ok c.
Proof.
  assert (∃ d', run (create_customer (clock_on jan_15) empty_db)
      [" Jane Roe "; "Jane@Example.COM"; "0712 345 678"; "Mombasa"; "1234567890"]%string
    = Ok (Created 1, d')) as [d' Hrun] by (eexists; vm_compute; reflexivity).
  destruct (create_customer_stores _ _ _ _ _ Hrun)
    as (name & email & phone & address & rid & rest & c & Hins & _ & Hc
        & _ & _ & Hn & He & Hok & _).
  injection Hins as <- <- <- <- <- <-. by exists d', c.
Defined.

(** *** The router identifier read back as text *)

Lemma str_pos_length_acc fuel z acc :
  (String.length acc <= String.length (PyStr.str_pos fuel z acc))%nat.
Proof.
  revert z acc. induction fuel as [|fuel IH]; intros z acc; cbn [PyStr.str_pos]; [lia|].
  destruct (z <? 10); [cbn; lia|]. etrans; [|apply IH]. cbn. lia.
Qed.

Lemma str_pos_length_le n fuel z acc :
  z < 10 ^ Z.of_nat (S n) →
  (String.length (PyStr.str_pos fuel z acc) <= S n + String.length acc)%nat.
Proof.
  revert fuel z acc. induction n as [|n IH]; intros fuel z acc Hz.
  - destruct fuel as [|fuel]; cbn [PyStr.str_pos]; [lia|].
    destruct (Z.ltb_spec z 10); [cbn; lia|]. change (10 ^ Z.of_nat 1) with 10 in Hz. lia.
  - destruct fuel as [|fuel]; cbn [PyStr.str_pos]; [lia|].
    destruct (Z.ltb_spec z 10); [cbn; lia|].
    etrans; [apply IH|cbn; lia].
    rewrite Nat2Z.inj_succ, Z.pow_succ_r in Hz by lia.
    apply Z.div_lt_upper_bound; lia.
Qed.

Lemma str_pos_length_ge n fuel z acc :
  10 ^ Z.of_nat n <= z → (n < fuel)%nat →
  (S n + String.length acc <= String.length (PyStr.str_pos fuel z acc))%nat.
Proof.
  revert fuel z acc. induction n as [|n IH]; intros fuel z acc Hz Hf.
  - destruct fuel as [|fuel]; [lia|]. cbn [PyStr.str_pos].
    destruct (z <? 10); [cbn; lia|]. etrans; [|apply str_pos_length_acc]. cbn. lia.
  - destruct fuel as [|fuel]; [lia|]. cbn [PyStr.str_pos].
    rewrite Nat2Z.inj_succ, Z.pow_succ_r in Hz by lia.
    assert (0 < 10 ^ Z.of_nat n) by (apply Z.pow_pos_nonneg; lia).
    destruct (Z.ltb_spec z 10); [lia|].
    etrans; [|apply IH; [|lia]]; [cbn; lia|].
    apply Z.div_le_lower_bound; lia.
Qed.

Lemma digit_char_decimal v : 0 <= v <= 9 → PyStr.isdecimal_char (PyStr.digit_char v) = true.
Proof.
  intros H. assert (v = 0 ∨ v = 1 ∨ v = 2 ∨ v = 3 ∨ v = 4 ∨ v = 5 ∨ v = 6 ∨ v = 7
                    ∨ v = 8 ∨ v = 9) as Hc by lia.
  repeat (destruct Hc as [-> | Hc]; [done|]). by subst.
Qed.

Lemma str_pos_decimal fuel z acc :
  0 <= z →
  PyStr.forallb_str PyStr.isdecimal_char acc = true →
  PyStr.forallb_str PyStr.isdecimal_char (PyStr.str_pos fuel z acc) = true.
Proof.
  revert z acc. induction fuel as [|fuel IH]; intros z acc Hz Hacc; cbn [PyStr.str_pos];
    [done|].
  assert (PyStr.forallb_str PyStr.isdecimal_char
            (String (PyStr.digit_char (z mod 10)) acc) = true) as Hacc'.
  { cbn [PyStr.forallb_str]. rewrite Hacc, digit_char_decimal; [done|].
    pose proof (Z.mod_pos_bound z 10). lia. }
  destruct (z <? 10); [done|]. apply IH; [|done]. apply Z.div_pos; lia.
Qed.

(** [str(z)] is made of exactly ten digits when [z] is a ten-digit
    number, and only then. *)
Lemma str_ten_digits z :
  PyStr.isdigit (PyStr.str z) && (PyStr.len (PyStr.str z) =? 10) = true
  ↔ 1000000000 <= z <= 9999999999.
Proof.
  unfold PyStr.str, PyStr.len. destruct (Z.ltb_spec z 0) as [Hneg|Hpos].
  { split; [|lia]. by intros [? _]%andb_true_iff. }
  split.
  - intros [_ Hl%Z.eqb_eq]%andb_true_iff.
    destruct (Z.lt_ge_cases z 1000000000) as [Hlo|Hlo].
    { pose proof (str_pos_length_le 8 (S (Z.to_nat (Z.log2 z))) z "" Hlo). cbn in *. lia. }
    split; [lia|]. destruct (Z.lt_ge_cases z 10000000000) as [Hhi|Hhi]; [lia|].
    assert (33 <= Z.log2 z).
    { change 33 with (Z.log2 10000000000). by apply Z.log2_le_mono. }
    pose proof (str_pos_length_ge 10 (S (Z.to_nat (Z.log2 z))) z "" Hhi ltac:(lia)).
    cbn in *. lia.
  - intros [Hlo Hhi].
    assert (29 <= Z.log2 z).
    { change 29 with (Z.log2 1000000000). by apply Z.log2_le_mono. }
    pose proof (str_pos_length_le 9 (S (Z.to_nat (Z.log2 z))) z "" ltac:(lia)) as Hle.
    pose proof (str_pos_length_ge 9 (S (Z.to_nat (Z.log2 z))) z "" Hlo ltac:(lia)) as Hge.
    pose proof (str_pos_decimal (S (Z.to_nat (Z.log2 z))) z "" Hpos eq_refl) as Hdec.
    apply andb_true_iff. split; [|apply Z.eqb_eq; cbn in *; lia].
    unfold PyStr.isdigit. apply andb_true_iff. split.
    + destruct (PyStr.str_pos _ z ""); [cbn in Hge; lia | done].
    + eapply forallb_str_impl; [|exact Hdec]. intros c Hc. unfold PyStr.isdigit_char.
      by rewrite Hc.
Qed.

Lemma router_error_reported name email rid :
  "Router ID must be 10 digits"%string ∈ validate_customer_data name email rid
  ↔ PyStr.isdigit rid && (PyStr.len rid =? 10) = false.
Proof.
  unfold validate_customer_data.
  destruct (negb (PyStr.truthy name)), (negb (PyStr.truthy email) || _),
    (PyStr.isdigit rid), (PyStr.len rid =? 10);
    cbn [negb orb andb app]; split; try done;
    rewrite ?elem_of_cons, ?elem_of_nil; intros H; try done;
    repeat (destruct H as [H|H]; try done); auto.
Qed.

(** X13. [update_customer] checks the stored router identifier read back
    as text against the ten-digit rule, and the check passes exactly for
    the identifiers from 1000000000 to 9999999999. For a customer whose
    stored identifier is outside that range, such as one created from a
    text with a leading zero, every update is refused with the router
    error and the store is left as it is, whatever is typed. *)
Theorem update_customer_needs_ten_digit_router (clk : clock) (d : db)
    (cid : string) (k : Z) (c : Customer.t) :
  PyStr.int (PyStr.strip cid) = Ok k → SQL.fits_integer k = true →
  customers d !! k = Some c →
  (∀ name email,
     "Router ID must be 10 digits"%string
     ∈ validate_customer_data name email (PyStr.str (Customer.router_id c))
     ↔ ¬ 1000000000 <= Customer.router_id c <= 9999999999)
  ∧ (¬ 1000000000 <= Customer.router_id c <= 9999999999 →
     ∀ l1 l2 l3 l4 rest, ∃ errors,
       run (update_customer clk d) (cid :: l1 :: l2 :: l3 :: l4 :: rest)
       = Ok (UpdateValidationErrors errors, d)
       ∧ "Router ID must be 10 digits"%string ∈ errors).
Proof.
  intros Hint Hfit Hl.
  assert (∀ name email,
     "Router ID must be 10 digits"%string
     ∈ validate_customer_data name email (PyStr.str (Customer.router_id c))
     ↔ ¬ 1000000000 <= Customer.router_id c <= 9999999999) as Hiff.
  { intros name email. rewrite router_error_reported, <- str_ten_digits.
    by destruct (_ && _). }
  split; [done|]. intros Hout l1 l2 l3 l4 rest.
  unfold run, update_customer. cbv zeta.
  rewrite io_bind_input_strip, io_bind_lift.
  rewrite (get_if_digit_Some _ _ k c) by (try done; by eapply int_isdigit).
  rewrite !io_bind_input_strip.
  match goal with
  | |- context [validate_customer_data ?n ?e ?r] =>
      pose proof (proj2 (Hiff n e) Hout) as Hin;
      destruct (decide (validate_customer_data n e r = [])) as [Hv|Hv]
  end.
  { rewrite Hv in Hin. by apply elem_of_nil in Hin. }
  rewrite bool_decide_eq_false_2 by done. cbn [negb]. eexists. by split.
Qed.

Lemma update_customer_needs_ten_digit_router_witness :
  ∃ errors,
    run (update_customer (clock_on jan_31) short_router_db)
      ["1"; "John Doe"; ""; ""; ""]%string
    = Ok (UpdateValidationErrors errors, short_router_db)
    ∧ "Router ID must be 10 digits"%string ∈ errors.
Proof.
  apply (proj2 (update_customer_needs_ten_digit_router (clock_on jan_31)
                  short_router_db "1" 1 short_router_customer
                  ltac:(by vm_compute) ltac:(by vm_compute) ltac:(by vm_compute))).
  cbn. lia.
Defined.

(** X14. Deleting an existing customer and confirming with [y] removes
    the customer and, with it, exactly the subscriptions of that
    customer; the other customers, the other subscriptions and the plans
    are unchanged. *)
Theorem delete_customer_cascades (d : db) (cid confirm : string) (k : Z) (c : Customer.t) :
  PyStr.int (PyStr.strip cid) = Ok k → SQL.fits_integer k = true →
  customers d !! k = Some c →
  PyStr.lower (PyStr.strip confirm) = "y"%string →
  ∃ d',
    run (delete_customer d) [cid; confirm] = Ok (CustomerDeleted, d')
    ∧ customers d' = delete k (customers d)
    ∧ plans d' = plans d
    ∧ ∀ i s, subscriptions d' !! i = Some s
             ↔ subscriptions d !! i = Some s ∧ Subscription.customer_id s ≠ Some k.
Proof.
  intros Hint Hfit Hl Hy. eexists. split.
  - unfold run, delete_customer. cbv zeta.
    rewrite io_bind_input_strip, io_bind_lift.
    rewrite (get_if_digit_Some _ _ k c) by (try done; by eapply int_isdigit).
    rewrite io_bind_input_strip, Hy. done.
  - cbn [customers plans subscriptions]. split_and!; [done..|].
    intros i s. by rewrite map_lookup_filter_Some.
Qed.

Lemma delete_customer_cascades_witness :
  ∃ d',
    run (delete_customer (subscribed_db (mkdate 2024 2 15))) ["1"; "y"]%string
    = Ok (CustomerDeleted, d')
    ∧ customers d' = delete 1 (customers (subscribed_db (mkdate 2024 2 15)))
    ∧ plans d' = plans (subscribed_db (mkdate 2024 2 15))
    ∧ ∀ i s, subscriptions d' !! i = Some s
             ↔ subscriptions (subscribed_db (mkdate 2024 2 15)) !! i = Some s
               ∧ Subscription.customer_id s ≠ Some 1.
Proof.
  apply (delete_customer_cascades (subscribed_db (mkdate 2024 2 15)) "1" "y" 1 john);
    by vm_compute.
Defined.

(** *** Stored values validate to themselves *)

Lemma normalized_phone_canonical p : canonical_phone p = true → normalized_phone p = p.
Proof.
  intros Hc. destruct p as [|a [|b [|c [|d0 [|e [|f rest]]]]]]; try done.
  cbn [canonical_phone] in Hc. rewrite !andb_true_iff in Hc.
  destruct Hc as [[[[[[[Ha Hb] Hc] Hd] He] Hf] Hl] Hall].
  apply Ascii.eqb_eq in Ha as ->, Hb as ->, Hc as ->, Hd as ->, He as ->.
  unfold normalized_phone, Customer.clean_phone. cbn -[Customer.network_digit].
  assert (PyStr.isdecimal_char f = true) as Hfd.
  { unfold Customer.network_digit, PyStr.isdecimal_char, PyStr.in_range in *.
    destruct (Ascii.eqb f "4") eqn:E4; [by apply Ascii.eqb_eq in E4 as ->|].
    rewrite orb_false_r in Hf.
    apply orb_true_iff in Hf as [Hf|Hf]; apply andb_true_iff in Hf as [H1 H2];
      apply N.leb_le in H1, H2; apply andb_true_iff; split; apply N.leb_le; lia. }
  rewrite Hfd. cbn.
  fold (Customer.clean_phone rest). by rewrite (clean_phone_digits rest Hall).
Qed.

Lemma validate_phone_stored (phone : option string) :
  (∀ p, phone = Some p → canonical_phone p = true) →
  Customer.validate_phone phone = Ok phone.
Proof.
  intros H. destruct phone as [p|]; [|done]. specialize (H p eq_refl).
  rewrite validate_phone_spec, (normalized_phone_canonical p H), H. by destruct p.
Qed.

Lemma validate_email_stored_value e :
  email_shape e → PyStr.lower e = e → PyStr.strip e = e →
  Customer.validate_email e = Ok e.
Proof.
  intros Hshape Hlow Hstrip. unfold Customer.validate_email.
  rewrite (proj2 (re_match_email e) Hshape). cbn [negb]. by rewrite Hlow, Hstrip.
Qed.

Lemma validate_customer_data_ok name email rid :
  PyStr.truthy name = true → PyStr.contains_char "@" email = true →
  PyStr.isdigit rid && (PyStr.len rid =? 10) = true →
  validate_customer_data name email rid = [].
Proof.
  intros Hn He [Hd Hl]%andb_true_iff. unfold validate_customer_data.
  by rewrite Hn, (contains_char_truthy _ _ He), He, Hd, Hl.
Qed.

(** X15. On a consistent store, leaving every line empty in
    [update_customer] for a customer with a ten-digit router identifier
    succeeds and changes nothing but the update time: the stored name,
    email, phone number and address pass the validation again and are
    written back as they are. *)
Theorem update_customer_blank_keeps_row (clk : clock) (d : db) (cid : string) (k : Z)
    (c : Customer.t) :
  consistent d →
  PyStr.int (PyStr.strip cid) = Ok k → SQL.fits_integer k = true →
  customers d !! k = Some c →
  1000000000 <= Customer.router_id c <= 9999999999 →
  run (update_customer clk d) [cid; ""; ""; ""; ""]%string
  = Ok (CustomerUpdated,
        set_customers
          (<[k := Customer.mk (Customer.router_id c) (Customer.name c) (Customer.email c)
                    (Customer.phone c) (Customer.address c) (Customer.created_at c)
                    (Some (now clk))]> (customers d))
          (seq_customers d) d).
Proof.
  intros (Hcs & _) Hint Hfit Hl Hr.
  destruct (Hcs k c Hl) as (Hn & Hshape & Hlow & Hstrip & Hphone).
  unfold run, update_customer. cbv zeta.
  rewrite io_bind_input_strip, io_bind_lift.
  rewrite (get_if_digit_Some _ _ k c) by (try done; by eapply int_isdigit).
  rewrite !io_bind_input_strip. change (PyStr.truthy (PyStr.strip "")) with false.
  cbv iota.
  rewrite validate_customer_data_ok; [|done| |by apply str_ten_digits].
  2:{ destruct Hshape as (l & dm & t & -> & _). apply contains_at_shape. }
  rewrite bool_decide_eq_true_2 by done. cbn [negb].
  rewrite validate_email_stored_value by done. cbn [mbind result_bind rbind].
  rewrite validate_phone_stored by done. cbn [mbind result_bind rbind].
  unfold update_customer_row. cbn [Customer.email].
  by rewrite String.eqb_refl.
Qed.

Lemma update_customer_blank_keeps_row_witness :
  run (update_customer (clock_on jan_31) sample_db) ["1"; ""; ""; ""; ""]%string
  = Ok (CustomerUpdated,
        set_customers
          (<[1 := Customer.mk (Customer.router_id john) (Customer.name john)
                    (Customer.email john) (Customer.phone john) (Customer.address john)
                    (Customer.created_at john) (Some (now (clock_on jan_31)))]>
             (customers sample_db))
          (seq_customers sample_db) sample_db).
Proof.
  apply (update_customer_blank_keeps_row (clock_on jan_31) sample_db "1" 1 john);
    [apply consistent_sample_db | by vm_compute..].
Defined.

End customers.

(** ** Creating subscriptions, the sweep and the plan listing *)

Section more.
Local Open Scope Z_scope.

(** X16. Whenever [create_subscription] creates a subscription, it adds
    exactly one row, under a key larger than every key in use, and
    leaves the customers, the plans and the other subscriptions as they
    are. The row refers to an existing customer and an existing plan,
    carries the router identifier of the customer, which lies between
    1000000000 and 9999999999 and which no other subscription has, and
    has no update time and no reminder yet. *)
Theorem create_subscription_adds_one_row (clk : clock) (d d' : db)
    (ins : list string) (k : Z) :
  run (create_subscription clk d) ins = Ok (SubscriptionCreated k, d') →
  customers d' = customers d
  ∧ plans d' = plans d
  ∧ subscriptions d !! k = None
  ∧ (∀ i s, subscriptions d !! i = Some s → i < k)
  ∧ ∃ s ck c pk p,
      subscriptions d' = <[k := s]> (subscriptions d)
      ∧ Subscription.customer_id s = Some ck ∧ customers d !! ck = Some c
      ∧ Subscription.plan_id s = Some pk ∧ plans d !! pk = Some p
      ∧ Subscription.router_id s = Customer.router_id c
      ∧ 1000000000 <= Subscription.router_id s <= 9999999999
      ∧ Subscription.created_at s = now clk
      ∧ Subscription.updated_at s = None
      ∧ Subscription.last_reminder_sent s = None
      ∧ ∀ i s0, subscriptions d !! i = Some s0 →
                Subscription.router_id s0 ≠ Subscription.router_id s.
Proof.
  intros [[_ H] | H]%create_subscription_inv; [by destruct (H k)|].
  destruct H as (c & p & n & rest & k' & ck & cust & pk & plan & N & e & _ & [= <-] & _
                 & Hlc & _ & Hlp & _ & _ & _ & Hins).
  apply insert_subscription_Ok in Hins as (_ & Hck & _ & Hcf & Hk & ->).
  cbn [set_subscriptions customers plans subscriptions].
  split_and!; [done | done | | |].
  - rewrite Hk. apply next_key_fresh.
  - intros i s Hl. apply max_key_ge in Hl. rewrite Hk. unfold next_key. lia.
  - eexists _, ck, cust, pk, plan.
    split_and!; [done..| | | done | done | done |].
    + unfold subscription_checks in Hck.
      apply andb_true_iff in Hck as [_ [?%Z.leb_le _]%andb_true_iff]. done.
    + unfold subscription_checks in Hck.
      apply andb_true_iff in Hck as [_ [_ ?%Z.leb_le]%andb_true_iff]. done.
    + by apply subscription_conflict_false_iff.
Qed.

Lemma create_subscription_adds_one_row_witness :
  ∃ d',
    run (create_subscription (clock_on jan_15) sample_db) ["1"; "1"; "3"]%string
    = Ok (SubscriptionCreated 1, d')
    ∧ customers d' = customers sample_db
    ∧ plans d' = plans sample_db
    ∧ subscriptions sample_db !! 1 = None.
Proof.
  assert (∃ d', run (create_subscription (clock_on jan_15) sample_db)
                  ["1"; "1"; "3"]%string = Ok (SubscriptionCreated 1, d'))
    as [d' Hrun] by (eexists; vm_compute; reflexivity).
  destruct (create_subscription_adds_one_row _ _ _ _ _ Hrun) as (Hc & Hp & Hk & _).
  by exists d'.
Defined.

(** *** The sweep, run twice *)

Lemma email_shape_truthy e : email_shape e → PyStr.truthy e = true.
Proof.
  intros (l & dm & t & -> & Hl & _). rewrite truthy_append.
  by apply andb_true_iff in Hl as [-> _].
Qed.

Lemma reminder_due_flagged clk deadline s :
  reminder_due (today clk) deadline (flag_reminder clk s) = false.
Proof.
  unfold reminder_due, flag_reminder.
  cbn [Subscription.set_updated_at Subscription.set_last_reminder_sent
       Subscription.last_reminder_sent].
  unfold datetime_ltb, midnight. cbn [dt_date dt_micros].
  rewrite date_ltb_irrefl. change (0 <? 0) with false.
  by rewrite andb_false_r, andb_false_r.
Qed.

(** X17. On a consistent store the expiring sweep is idempotent within a
    day: after a sweep that returned, a second sweep on the same day
    finds no subscription that needs a reminder and leaves the store as
    it is. *)
Theorem sweep_is_idempotent (clk clk' : clock) (d d1 : db) (o : sweep_outcome) :
  consistent d →
  today clk' = today clk →
  check_expiring_subscriptions clk d = Ok (o, d1) →
  check_expiring_subscriptions clk' d1 = Ok (NoReminders, d1).
Proof.
  intros Hc Ht (deadline & Hadd & Ec & Ep & Hrows)%check_expiring_effect.
  unfold check_expiring_subscriptions. rewrite Ht, Hadd. cbn [mbind result_bind rbind].
  rewrite bool_decide_eq_true_2; [done|].
  apply elem_of_nil_inv. intros [i s1] (Hl1 & _ & Hdue)%elem_of_expiring_query.
  rewrite Hrows in Hl1.
  destruct (subscriptions d !! i) as [s|] eqn:Hl; [|done]. cbn in Hl1.
  injection Hl1 as <-.
  destruct (reminder_due (today clk) deadline s && owner_has_email d s) eqn:E.
  { by rewrite reminder_due_flagged in Hdue. }
  rewrite Hdue in E. cbn [andb] in E.
  destruct Hc as (Hcs & _ & Hs & _).
  destruct (Hs i s Hl) as (_ & _ & _ & ck & c & _ & _ & Hck & Hlc & _).
  unfold owner_has_email, subscription_customer in E. rewrite Hck in E. cbn in E.
  rewrite Hlc in E. destruct (Hcs ck c Hlc) as (_ & Hshape%email_shape_truthy & _).
  congruence.
Qed.

Lemma sweep_is_idempotent_witness :
  ∃ o d1,
    check_expiring_subscriptions (clock_on jan_15) (subscribed_db (mkdate 2024 1 18))
    = Ok (o, d1)
    ∧ check_expiring_subscriptions (clock_on jan_15) d1 = Ok (NoReminders, d1).
Proof.
  assert (∃ o d1, check_expiring_subscriptions (clock_on jan_15)
                    (subscribed_db (mkdate 2024 1 18)) = Ok (o, d1))
    as (o & d1 & Hrun) by (eexists _, _; vm_compute; reflexivity).
  exists o, d1. split; [done|].
  apply (sweep_is_idempotent (clock_on jan_15) (clock_on jan_15)
           (subscribed_db (mkdate 2024 1 18)) d1 o);
    [apply consistent_subscribed_db; by vm_compute | done | done].
Defined.

(** *** The plan listing *)

Global Instance price_le_total : Total price_le.
Proof.
  intros a b. unfold price_le. rewrite !Qle_bool_iff.
  destruct (Qlt_le_dec (Plan.price a.2) (Plan.price b.2)) as [H|H];
    [left; by apply Qlt_le_weak | by right].
Qed.

Lemma rows_nil {A} (m : gmap Z A) : rows m = [] ↔ m = ∅.
Proof. unfold rows. apply map_to_list_empty_iff. Qed.

Lemma merge_sort_nil {A} (R : relation A) `{!∀ x y, Decision (R x y)} (l : list A) :
  merge_sort R l = [] ↔ l = [].
Proof.
  split; [|by intros ->]. intros Hm. apply Permutation_nil_r.
  rewrite <- Hm. by rewrite merge_sort_Permutation.
Qed.

Lemma print_plans_brief d l :
  print_plans d false l = Ok ((λ r, PlanLine r.1 r.2) <$> l).
Proof.
  induction l as [|r l IH]; [done|]. cbn [print_plans print_plan].
  cbn [mbind result_bind rbind]. rewrite IH. done.
Qed.

(** X18. [list_plans] answers that there are no plans when the table is
    empty. Otherwise the short listing returns every plan once, ordered
    by price, and the detailed listing, the one the plan menu calls,
    raises [TypeError] at the first plan: it takes [len] of
    [plan.subscriptions], a dynamic-loader query object, which has no
    length. *)
Theorem list_plans_detailed_raises (d : db) :
  (plans d = ∅ → ∀ detailed, list_plans d detailed = Ok None)
  ∧ (plans d ≠ ∅ → list_plans d true = Raise TypeError)
  ∧ (plans d ≠ ∅ →
     ∃ l, list_plans d false = Ok (Some ((λ r, PlanLine r.1 r.2) <$> l))
          ∧ l ≡ₚ rows (plans d) ∧ Sorted price_le l).
Proof.
  unfold list_plans. split_and!.
  - intros He detailed. rewrite bool_decide_eq_true_2; [done|].
    apply merge_sort_nil. by apply rows_nil.
  - intros Hne. rewrite bool_decide_eq_false_2.
    2:{ rewrite merge_sort_nil, rows_nil. done. }
    destruct (merge_sort price_le (rows (plans d))) as [|r l] eqn:E.
    { apply merge_sort_nil, rows_nil in E. done. }
    done.
  - intros Hne. exists (merge_sort price_le (rows (plans d))).
    rewrite bool_decide_eq_false_2.
    2:{ rewrite merge_sort_nil, rows_nil. done. }
    rewrite print_plans_brief. split_and!; [done | apply merge_sort_Permutation |].
    apply Sorted_merge_sort. apply _.
Qed.

Lemma list_plans_detailed_raises_witness : list_plans sample_db true = Raise TypeError.
Proof.
  apply (proj1 (proj2 (list_plans_detailed_raises sample_db))). by vm_compute.
Defined.

(** *** Digits that are not decimal *)

Lemma int_acc_None acc s :
  PyStr.int_acc acc s = None ↔ PyStr.forallb_str PyStr.isdecimal_char s = false.
Proof.
  revert acc. induction s as [|c s IH]; intros acc; cbn [PyStr.int_acc PyStr.forallb_str];
    [done|].
  destruct (PyStr.isdecimal_char c); cbn [andb]; [apply IH | done].
Qed.

Lemma int_Raise s :
  PyStr.isdigit s = true →
  (∀ e, PyStr.int s = Raise e
        ↔ e = ValueError
          ∧ (PyStr.forallb_str PyStr.isdecimal_char s = false
             ∨ PyStr.MAX_STR_DIGITS < PyStr.len s)).
Proof.
  intros Hd e. unfold PyStr.int. destruct s as [|c s]; [done|].
  destruct (Z.ltb_spec PyStr.MAX_STR_DIGITS (PyStr.len (String c s))) as [Hlong|Hshort].
  { split; [intros [= <-]; auto | by intros [-> _]]. }
  destruct (PyStr.int_acc 0 (String c s)) as [z|] eqn:E.
  - split; [done|]. intros [_ [H|H]]; [|lia]. apply (int_acc_None 0) in H. congruence.
  - apply int_acc_None in E. split; [intros [= <-]; auto | by intros [-> _]].
Qed.

(** X19. [str.isdigit] accepts the superscript digits, which [int] does
    not read, and [int] converts at most 4300 digits. So
    [validate_subscription_input] raises [ValueError], and reports
    nothing, exactly when the duration passes [isdigit] and either has a
    character that is not a decimal digit or has more than 4300
    characters; and a customer identifier of that kind passes the
    validation, after which [create_subscription] raises [ValueError]
    where it converts the identifier. *)
Theorem validate_subscription_input_raises (c p dur : string) :
  (∀ e, validate_subscription_input c p dur = Raise e
        ↔ e = ValueError ∧ PyStr.isdigit dur = true
          ∧ (PyStr.forallb_str PyStr.isdecimal_char dur = false
             ∨ PyStr.MAX_STR_DIGITS < PyStr.len dur))
  ∧ (∀ clk d cid pid n rest N,
       customers d ≠ ∅ → plans d ≠ ∅ →
       PyStr.strip cid = c → PyStr.strip pid = p →
       PyStr.isdigit c = true →
       PyStr.forallb_str PyStr.isdecimal_char c = false
       ∨ PyStr.MAX_STR_DIGITS < PyStr.len c →
       PyStr.isdigit p = true →
       PyStr.int (typed_duration n) = Ok N → 1 <= N →
       validate_subscription_input c p (typed_duration n) = Ok []
       ∧ run (create_subscription clk d) (cid :: pid :: n :: rest) = Raise ValueError).
Proof.
  split.
  - intros e. unfold validate_subscription_input.
    destruct (PyStr.isdigit dur) eqn:Ed; cbn [negb mbind result_bind rbind].
    + destruct (PyStr.int dur) as [z|e'] eqn:Ei; cbn [rbind].
      * split; [done|]. intros (_ & _ & H).
        pose proof (proj2 (int_Raise dur Ed ValueError) (conj eq_refl H)). congruence.
      * apply (int_Raise dur Ed) in Ei as [-> H]. split; [by intros [= <-] | by intros [-> _]].
    + split; [done | by intros (_ & ? & _)].
  - intros clk d cid pid n rest N Hc Hp <- <- Hd Hnd Hpd HN HN1.
    assert (validate_subscription_input (PyStr.strip cid) (PyStr.strip pid)
              (typed_duration n) = Ok []) as Hv.
    { apply validate_subscription_input_ok. split_and!; [done..|]. by exists N. }
    split; [done|].
    unfold run, create_subscription.
    rewrite !bool_decide_eq_false_2 by by rewrite rows_nil.
    rewrite !io_bind_input_strip, io_bind_lift. fold (typed_duration n).
    rewrite Hv. rewrite bool_decide_eq_true_2 by done. cbn [negb].
    rewrite io_bind_lift. unfold get_int.
    by rewrite (proj2 (int_Raise _ Hd ValueError) (conj eq_refl Hnd)).
Qed.

Lemma validate_subscription_input_raises_witness :
  validate_subscription_input superscript_two "1" "3" = Ok []
  ∧ run (create_subscription (clock_on jan_15) sample_db)
      [superscript_two; "1"; "3"]%string = Raise ValueError.
Proof.
  apply (proj2 (validate_subscription_input_raises superscript_two "1" "3")
           (clock_on jan_15) sample_db superscript_two "1"%string "3"%string [] 3);
    try by vm_compute.
  left. by vm_compute.
Defined.

End more.

(** ** The customer listing *)

Section customer_listing.
Local Open Scope Z_scope.

Global Instance name_le_total : Total name_le.
Proof. intros a b. unfold name_le. apply String.leb_total. Qed.

Lemma length_le_1 {A} (l : list A) :
  NoDup l → (∀ x y, x ∈ l → y ∈ l → x = y) → (length l <= 1)%nat.
Proof.
  intros Hnd Heq. destruct l as [|a [|b l]]; [cbn; lia..|].
  apply NoDup_cons in Hnd as [Hnd _]. destruct Hnd.
  rewrite (Heq a b); [left | left | right; left].
Qed.

(** X20. [list_customers] answers that there are no customers exactly
    when the table is empty; otherwise it lists every customer once,
    ordered by name, in the short form or, when detailed, with the
    number of subscriptions of the customer whose status is [active].
    On a consistent store that number is 0 or 1. *)
Theorem list_customers_lists_all (d : db) (detailed : bool) :
  (list_customers d detailed = None ↔ customers d = ∅)
  ∧ (∀ lines, list_customers d detailed = Some lines →
       ∃ l, l ≡ₚ rows (customers d) ∧ Sorted name_le l
            ∧ lines = (λ r, if detailed then CustomerDetails r.1 r.2 (active_subs d r.1)
                            else CustomerLine r.1 r.2) <$> l)
  ∧ (consistent d → ∀ k, 0 <= active_subs d k <= 1).
Proof.
  unfold list_customers. split_and!.
  - case_bool_decide as E; rewrite merge_sort_nil, rows_nil in E; by split.
  - intros lines. case_bool_decide as E; [done|]. intros [= <-].
    exists (merge_sort name_le (rows (customers d))).
    split_and!; [apply merge_sort_Permutation | apply Sorted_merge_sort; apply _ | done].
  - intros Hc k. unfold active_subs. split; [lia|].
    apply (inj_le _ 1), length_le_1.
    + apply NoDup_filter_bool. unfold customer_subscriptions, subscriptions_of_customer.
      cbn [ORM.load Customer.subscriptions_lazy ORM.iter].
      apply NoDup_filter, NoDup_map_to_list.
    + pose proof Hc as (_ & _ & Hs & Hsu).
      assert (∀ x, x ∈ List.filter (λ r, Subscription.status_is "active" r.2)
                         (ORM.iter (customer_subscriptions Customer.subscriptions_lazy d k))
                   → subscriptions d !! x.1 = Some x.2
                     ∧ Subscription.customer_id x.2 = Some k) as Hin.
      { intros [i s] [Hx _]%list_elem_of_In%filter_In.
        apply list_elem_of_In in Hx.
        unfold customer_subscriptions, subscriptions_of_customer in Hx.
        cbn [ORM.load Customer.subscriptions_lazy ORM.iter] in Hx.
        apply list_elem_of_filter in Hx as [Hk Hx]. by apply elem_of_map_to_list in Hx. }
      intros [i s] [j s'] [Hi Hki]%Hin [Hj Hkj]%Hin. cbn [fst snd] in *.
      assert (i = j) as ->.
      { apply (Hsu i j s s'); [done..|].
        destruct (Hs i s Hi) as (_ & _ & _ & ck & c & _ & _ & Hk1 & Hc1 & _ & _ & ->).
        destruct (Hs j s' Hj) as (_ & _ & _ & ck' & c' & _ & _ & Hk2 & Hc2 & _ & _ & ->).
        congruence. }
      congruence.
Qed.

Lemma list_customers_lists_all_witness :
  0 <= active_subs (subscribed_db (mkdate 2024 2 15)) 1 <= 1.
Proof.
  apply (proj2 (proj2 (list_customers_lists_all (subscribed_db (mkdate 2024 2 15)) true))).
  apply consistent_subscribed_db; by vm_compute.
Defined.

End customer_listing.
